(** * Attendance normalisation and productivity aggregation

    A shallow embedding of the ingestion controller
    ([api/controllers/uploadController.js]), of its helpers
    ([api/utils/helpers.js]), of the query routes ([api/routes/apiRoutes.js])
    and of what the productivity chart computes
    ([frontend/src/components/Charts/ProductivityChart.js]), together with the
    ECMAScript and moment.js operations they call.

    Conventions.
    - A JavaScript number is an exact rational ([Q]), so sums and quotients
      carry no floating-point error; a time value is an integer number of
      milliseconds since the epoch ([Z]).
    - A [Date] object is [option Z]: [None] is the Invalid Date.
    - What the host decides (time zone, clock, number printing) is a [Host]
      record passed explicitly.
    - The worksheet is the list of its rows with their row numbers; the name
      column holds text.
    - The two collections are lists in insertion order.  [insertMany] stores
      the documents as they are given, [sort] is stable, and [$group] lists
      its groups in order of first occurrence.
    - moment.js is followed in what the code uses of it: parsing with one
      format or with a list of formats, [isValid], [diff] and [format].  A
      moment made from calendar fields has these fields.

    The file has three parts: the model, the vocabulary and the sample data
    the properties are stated with, and the properties with their proofs. *)

From Stdlib Require Import ZArith QArith Qround Qabs List String Ascii Bool Lia Lqa.
From Stdlib Require Import Sorting.Sorted Sorting.Permutation.
From Stdlib Require OrdersEx.
Import ListNotations.

Local Open Scope Z_scope.

(* ================================================================== *)
(** ** ECMAScript built-ins *)
(* ================================================================== *)

Module JS.

(** The host environment: [LocalTZA t isUTC] is the local time zone
    adjustment of ECMA-262 (milliseconds), [now] the clock read by [new Date()]
    and [NumberToString] the conversion [String(x)] of a number. *)
Record Host := {
  LocalTZA : Z -> bool -> Z;
  now : Z;
  NumberToString : Q -> string
}.

(** *** Day number and time within day *)

Definition msPerDay : Z := 86400000.
Definition msPerHour : Z := 3600000.
Definition msPerMinute : Z := 60000.

Definition Day (t : Z) : Z := t / msPerDay.
Definition TimeWithinDay (t : Z) : Z := t mod msPerDay.

(** *** Year number *)

Definition isLeap (y : Z) : bool :=
  (y mod 4 =? 0) && (negb (y mod 100 =? 0) || (y mod 400 =? 0)).

Definition DaysInYear (y : Z) : Z := if isLeap y then 366 else 365.

Definition DayFromYear (y : Z) : Z :=
  365 * (y - 1970) + (y - 1969) / 4 - (y - 1901) / 100 + (y - 1601) / 400.

Definition TimeFromYear (y : Z) : Z := msPerDay * DayFromYear y.

(** The largest [y] with [DayFromYear y <= d]: a first guess from the mean
    length of a Gregorian year, corrected by at most one year. *)
Definition YearFromDay (d : Z) : Z :=
  let y0 := 1970 + (400 * d) / 146097 in
  if DayFromYear (y0 + 1) <=? d then y0 + 1
  else if DayFromYear y0 <=? d then y0
  else y0 - 1.

Definition YearFromTime (t : Z) : Z := YearFromDay (Day t).

Definition InLeapYear (t : Z) : Z :=
  if isLeap (YearFromTime t) then 1 else 0.

Definition DayWithinYear (t : Z) : Z := Day t - DayFromYear (YearFromTime t).

(** *** Month number and date number *)

(** First day-within-year of month [m] (0 = January) in a year whose leap
    flag is [leap] (0 or 1). *)
Definition monthStart (leap m : Z) : Z :=
  match m with
  | 0 => 0
  | 1 => 31
  | 2 => 59 + leap
  | 3 => 90 + leap
  | 4 => 120 + leap
  | 5 => 151 + leap
  | 6 => 181 + leap
  | 7 => 212 + leap
  | 8 => 243 + leap
  | 9 => 273 + leap
  | 10 => 304 + leap
  | 11 => 334 + leap
  | _ => 365 + leap
  end.

Definition monthOfDayWithinYear (leap dwy : Z) : Z :=
  if dwy <? 31 then 0
  else if dwy <? 59 + leap then 1
  else if dwy <? 90 + leap then 2
  else if dwy <? 120 + leap then 3
  else if dwy <? 151 + leap then 4
  else if dwy <? 181 + leap then 5
  else if dwy <? 212 + leap then 6
  else if dwy <? 243 + leap then 7
  else if dwy <? 273 + leap then 8
  else if dwy <? 304 + leap then 9
  else if dwy <? 334 + leap then 10
  else 11.

Definition MonthFromTime (t : Z) : Z :=
  monthOfDayWithinYear (InLeapYear t) (DayWithinYear t).

Definition DateFromTime (t : Z) : Z :=
  DayWithinYear t - monthStart (InLeapYear t) (MonthFromTime t) + 1.

(** *** Week day: 0 = Sunday ... 6 = Saturday *)

Definition WeekDay (t : Z) : Z := (Day t + 4) mod 7.

(** *** Local time *)

Definition LocalTime (h : Host) (t : Z) : Z := t + LocalTZA h t true.
Definition UTC (h : Host) (t : Z) : Z := t - LocalTZA h t false.

(** *** Building time values *)

Definition MakeTime (hour min sec ms : Z) : Z :=
  hour * msPerHour + min * msPerMinute + sec * 1000 + ms.

(** [MakeDay]: the day number of the first of month [month mod 12] of year
    [year + month / 12], moved by [date - 1] days. *)
Definition MakeDay (year month date : Z) : Z :=
  let ym := year + month / 12 in
  let mn := month mod 12 in
  DayFromYear ym + monthStart (if isLeap ym then 1 else 0) mn + date - 1.

Definition MakeDate (day time : Z) : Z := day * msPerDay + time.

Definition maxTime : Z := 8640000000000000.

Definition TimeClip (t : Z) : option Z :=
  if Z.abs t >? maxTime then None else Some t.

(** [MakeFullYear]: a year 0..99 stands for 1900..1999. *)
Definition MakeFullYear (y : Z) : Z :=
  if (0 <=? y) && (y <=? 99) then 1900 + y else y.

(** [new Date(Date.UTC(year, month, day, 0, 0, 0, 0))] *)
Definition Date_UTC (year month day : Z) : option Z :=
  TimeClip (MakeDate (MakeDay (MakeFullYear year) month day) (MakeTime 0 0 0 0)).

(** [new Date(year, month, day)]: the same fields read as local time. *)
Definition Date_local (h : Host) (year month day : Z) : option Z :=
  TimeClip (UTC h (MakeDate (MakeDay (MakeFullYear year) month day) (MakeTime 0 0 0 0))).

(** [getFullYear], [getMonth], [getDate] of a valid Date. *)
Definition getFullYear (h : Host) (t : Z) : Z := YearFromTime (LocalTime h t).
Definition getMonth (h : Host) (t : Z) : Z := MonthFromTime (LocalTime h t).
Definition getDate (h : Host) (t : Z) : Z := DateFromTime (LocalTime h t).

(** *** Numbers *)

(** [parseFloat(x.toFixed(digits))]: the nearest multiple of [10^-digits],
    a tie going away from zero. *)
Definition roundHalfAway (q : Q) : Z :=
  if Qle_bool 0 q then Qfloor (q + (1 # 2))%Q
  else - Qfloor (- q + (1 # 2))%Q.

Definition toFixed (digits : nat) (q : Q) : Q :=
  let p := Z.pow 10 (Z.of_nat digits) in
  (inject_Z (roundHalfAway (q * inject_Z p)) / inject_Z p)%Q.

(** [Math.max(a, b)] *)
Definition Math_max (a b : Q) : Q := if Qle_bool a b then b else a.

(** [parseInt(s)] (radix absent): leading white space is skipped, a sign
    and a [0x] prefix are honoured, then the longest run of digits is read;
    [None] is NaN. *)
Definition isWhiteSpace (c : ascii) : bool :=
  let n := nat_of_ascii c in
  ((n =? 32) || ((9 <=? n) && (n <=? 13)))%nat.

Fixpoint trimStart (s : list ascii) : list ascii :=
  match s with
  | c :: s' => if isWhiteSpace c then trimStart s' else s
  | [] => []
  end.

Definition digitOfRadix (radix : Z) (c : ascii) : option Z :=
  let n := Z.of_nat (nat_of_ascii c) in
  let v := if (48 <=? n) && (n <=? 57) then n - 48
           else if (97 <=? n) && (n <=? 122) then n - 87
           else if (65 <=? n) && (n <=? 90) then n - 55
           else 36 in
  if v <? radix then Some v else None.

Fixpoint readDigits (radix : Z) (acc : option Z) (s : list ascii) : option Z :=
  match s with
  | [] => acc
  | c :: s' =>
      match digitOfRadix radix c with
      | Some v =>
          readDigits radix (Some (radix * match acc with Some a => a | None => 0 end + v)) s'
      | None => acc
      end
  end.

Definition parseInt (str : string) : option Z :=
  let s := trimStart (list_ascii_of_string str) in
  let '(sign, s1) :=
    match s with
    | "-"%char :: s' => (-1, s')
    | "+"%char :: s' => (1, s')
    | _ => (1, s)
    end in
  let '(radix, s2) :=
    match s1 with
    | "0"%char :: "x"%char :: s' => (16, s')
    | "0"%char :: "X"%char :: s' => (16, s')
    | _ => (10, s1)
    end in
  match readDigits radix None s2 with
  | Some v => Some (sign * v)
  | None => None
  end.

(** [String(n)] for an integer. *)
Definition digitChar (d : Z) : ascii := ascii_of_nat (Z.to_nat (48 + d)).

Fixpoint digitsOf (fuel : nat) (n : Z) (acc : list ascii) : list ascii :=
  match fuel with
  | O => acc
  | S fuel' =>
      let acc' := digitChar (n mod 10) :: acc in
      if n <? 10 then acc' else digitsOf fuel' (n / 10) acc'
  end.

Definition intToString (n : Z) : string :=
  let ds := digitsOf (S (Z.to_nat (Z.log2 (Z.abs n)))) (Z.abs n) [] in
  string_of_list_ascii (if n <? 0 then "-"%char :: ds else ds).

(** [s.padStart(2, '0')] *)
Definition padStart2 (s : string) : string :=
  match String.length s with
  | O => "00"
  | S O => String "0" s
  | _ => s
  end.

(** [Math.min(a, b)] *)
Definition Math_min (a b : Q) : Q := if Qle_bool a b then a else b.

(** [Math.max(...l)] and [Math.min(...l)] of a list that is not empty. *)
Definition maxOf (l : list Q) : Q :=
  match l with
  | [] => 0%Q
  | x :: l' => fold_left Math_max l' x
  end.

Definition minOf (l : list Q) : Q :=
  match l with
  | [] => 0%Q
  | x :: l' => fold_left Math_min l' x
  end.

(** [new Date(x)] for a number: the fraction is dropped, towards zero. *)
Definition truncate (q : Q) : Z :=
  if Qle_bool 0 q then Qfloor q else Qceiling q.

Definition Date_ofNumber (q : Q) : option Z := TimeClip (truncate q).

Definition HourFromTime (t : Z) : Z := TimeWithinDay t / msPerHour.
Definition MinFromTime (t : Z) : Z := (t mod msPerHour) / msPerMinute.


End JS.

(* ================================================================== *)
(** ** Spreadsheet cells *)
(* ================================================================== *)

(** A cell value as the workbook reader hands it over: empty, a number, a
    text, a date, a boolean, or a structured value (formula, rich text,
    hyperlink, error). *)
Inductive cell :=
| CNull
| CNumber (q : Q)
| CString (s : string)
| CDate (d : option Z)
| CBool (b : bool)
| CObject.

(** JavaScript truthiness: [!v] is [negb (truthy v)]. *)
Definition truthy (v : cell) : bool :=
  match v with
  | CNull => false
  | CNumber q => negb (Qeq_bool q 0)
  | CString s => negb (String.eqb s "")
  | CDate _ => true
  | CBool b => b
  | CObject => true
  end.

(** [v || null] *)
Definition orNull (v : cell) : cell := if truthy v then v else CNull.

(** ['' + v], as moment converts an input that is not a Date before it
    parses it (a Date never gets here). *)
Definition cellToString (h : JS.Host) (v : cell) : string :=
  match v with
  | CNull => "null"
  | CNumber q => JS.NumberToString h q
  | CString s => s
  | CDate _ => ""
  | CBool true => "true"
  | CBool false => "false"
  | CObject => "[object Object]"
  end.

(* ================================================================== *)
(** ** moment.js: parsing with format strings *)
(* ================================================================== *)

Module Moment.

Definition isDigit (c : ascii) : bool :=
  let n := nat_of_ascii c in ((48 <=? n) && (n <=? 57))%nat.

Definition digitVal (c : ascii) : Z := Z.of_nat (nat_of_ascii c) - 48.

Fixpoint toIntFrom (acc : Z) (l : list ascii) : Z :=
  match l with
  | [] => acc
  | c :: l' => toIntFrom (10 * acc + digitVal c) l'
  end.

Definition toInt (l : list ascii) : Z := toIntFrom 0 l.

(** The two shapes of regular expression the format tokens use:
    [Digits lo hi] is [/\d{lo,hi}/] (greedy) and [Literal c] the character
    [c] itself. *)
Inductive regex :=
| Digits (lo hi : nat)
| Literal (c : ascii).

Fixpoint takeDigits (n : nat) (s : list ascii) : list ascii :=
  match n, s with
  | S n', c :: s' => if isDigit c then c :: takeDigits n' s' else []
  | _, _ => []
  end.

(** A match starting at the head of [s]. *)
Definition matchHere (r : regex) (s : list ascii) : option (list ascii) :=
  match r with
  | Digits lo hi =>
      let m := takeDigits hi s in
      if (lo <=? List.length m)%nat then Some m else None
  | Literal c =>
      match s with
      | c' :: _ => if Ascii.eqb c c' then Some [c] else None
      | [] => None
      end
  end.

(** [string.match(r)]: the leftmost match, with the text after it. *)
Fixpoint search (r : regex) (s : list ascii) : option (list ascii * list ascii) :=
  match matchHere r s with
  | Some m => Some (m, skipn (List.length m) s)
  | None =>
      match s with
      | [] => None
      | _ :: s' => search r s'
      end
  end.

Inductive token := YYYY | MM | DD | HH | mm | Lit (c : ascii).

Definition isFormatToken (t : token) : bool :=
  match t with Lit _ => false | _ => true end.

Definition getParseRegexForToken (t : token) (strict : bool) : regex :=
  match t with
  | YYYY => if strict then Digits 4 4 else Digits 1 4
  | MM | DD | HH | mm => if strict then Digits 2 2 else Digits 1 2
  | Lit c => Literal c
  end.

(** The array [config._a], one optional entry per unit. *)
Record fields := {
  YEAR : option Z;
  MONTH : option Z;
  DATE : option Z;
  HOUR : option Z;
  MINUTE : option Z
}.

Definition noFields : fields :=
  {| YEAR := None; MONTH := None; DATE := None; HOUR := None; MINUTE := None |}.

Definition parseTwoDigitYear (input : list ascii) : Z :=
  toInt input + (if toInt input >? 68 then 1900 else 2000).

Definition addTimeToArrayFromToken (t : token) (input : list ascii) (a : fields) : fields :=
  match t with
  | YYYY =>
      {| YEAR := Some (if (List.length input =? 2)%nat then parseTwoDigitYear input else toInt input);
         MONTH := MONTH a; DATE := DATE a; HOUR := HOUR a; MINUTE := MINUTE a |}
  | MM =>
      {| YEAR := YEAR a; MONTH := Some (toInt input - 1); DATE := DATE a;
         HOUR := HOUR a; MINUTE := MINUTE a |}
  | DD =>
      {| YEAR := YEAR a; MONTH := MONTH a; DATE := Some (toInt input);
         HOUR := HOUR a; MINUTE := MINUTE a |}
  | HH =>
      {| YEAR := YEAR a; MONTH := MONTH a; DATE := DATE a;
         HOUR := Some (toInt input); MINUTE := MINUTE a |}
  | mm =>
      {| YEAR := YEAR a; MONTH := MONTH a; DATE := DATE a;
         HOUR := HOUR a; MINUTE := Some (toInt input) |}
  | Lit _ => a
  end.

(** The state of [configFromStringAndFormat] while it walks the tokens. *)
Record parsing := {
  rest : list ascii;
  totalParsedInputLength : nat;
  unusedTokens : nat;
  empty : bool;
  _a : fields
}.

Definition parseToken (strict : bool) (st : parsing) (t : token) : parsing :=
  match search (getParseRegexForToken t strict) (rest st) with
  | Some (parsedInput, rest') =>
      {| rest := rest';
         totalParsedInputLength := totalParsedInputLength st + List.length parsedInput;
         unusedTokens := unusedTokens st;
         empty := if isFormatToken t then false else empty st;
         _a := addTimeToArrayFromToken t parsedInput (_a st) |}
  | None =>
      {| rest := rest st;
         totalParsedInputLength := totalParsedInputLength st;
         unusedTokens :=
           if isFormatToken t || strict then S (unusedTokens st) else unusedTokens st;
         empty := empty st;
         _a := _a st |}
  end.

Definition parseTokens (strict : bool) (f : list token) (s : list ascii) : parsing :=
  fold_left (parseToken strict) f
    {| rest := s; totalParsedInputLength := 0; unusedTokens := 0;
       empty := true; _a := noFields |}.

Definition charsLeftOver (s : list ascii) (p : parsing) : nat :=
  List.length s - totalParsedInputLength p.

(** [configFromArray]: units left of the first one given default to the
    current local date, the others to 1 (date) or 0. *)
Record units := { year : Z; month : Z; date : Z; hour : Z; minute : Z }.

Definition orElse (o : option Z) (d : Z) : Z :=
  match o with Some z => z | None => d end.

Definition configFromArray (h : JS.Host) (a : fields) : units :=
  let t := JS.now h in
  match YEAR a, MONTH a, DATE a with
  | Some y, m, d =>
      {| year := y; month := orElse m 0; date := orElse d 1;
         hour := orElse (HOUR a) 0; minute := orElse (MINUTE a) 0 |}
  | None, Some m, d =>
      {| year := JS.getFullYear h t; month := m; date := orElse d 1;
         hour := orElse (HOUR a) 0; minute := orElse (MINUTE a) 0 |}
  | None, None, Some d =>
      {| year := JS.getFullYear h t; month := JS.getMonth h t; date := d;
         hour := orElse (HOUR a) 0; minute := orElse (MINUTE a) 0 |}
  | None, None, None =>
      {| year := JS.getFullYear h t; month := JS.getMonth h t; date := JS.getDate h t;
         hour := orElse (HOUR a) 0; minute := orElse (MINUTE a) 0 |}
  end.

Definition daysInMonth (y m : Z) : Z :=
  let modMonth := m mod 12 in
  let y' := y + (m - modMonth) / 12 in
  if modMonth =? 1 then (if JS.isLeap y' then 29 else 28)
  else 31 - (modMonth mod 7) mod 2.

(** [checkOverflow]: [true] when some unit is out of range. *)
Definition overflow (u : units) : bool :=
  (month u <? 0) || (month u >? 11)
  || (date u <? 1) || (date u >? daysInMonth (year u) (month u))
  || (hour u <? 0) || (hour u >? 24)
  || ((hour u =? 24) && negb (minute u =? 0))
  || (minute u <? 0) || (minute u >? 59).

(** One attempt of a format on a string: the units read, whether the
    result [isValid()], and the score the array search gives it. *)
Record attempt := {
  a_units : units;
  a_valid : bool;
  a_score : nat
}.

Definition configFromStringAndFormat (h : JS.Host) (strict : bool)
    (f : list token) (str : string) : attempt :=
  let s := list_ascii_of_string str in
  let p := parseTokens strict f s in
  let u := configFromArray h (_a p) in
  {| a_units := u;
     a_valid :=
       negb (overflow u) && negb (empty p)
       && (negb strict
           || ((charsLeftOver s p =? 0)%nat && (unusedTokens p =? 0)%nat));
     a_score := charsLeftOver s p + unusedTokens p * 10 |}.

(** [configFromStringAndArray]: every format is tried; the running best is
    replaced as the library does. *)
Record best := {
  scoreToBeat : option nat;
  bestMoment : option attempt;
  bestFormatIsValid : bool
}.

Definition noBest : best :=
  {| scoreToBeat := None; bestMoment := None; bestFormatIsValid := false |}.

Definition beats (score : nat) (toBeat : option nat) : bool :=
  match toBeat with
  | None => false
  | Some b => (score <? b)%nat
  end.

Definition considerAttempt (b : best) (t : attempt) : best :=
  if negb (bestFormatIsValid b) then
    if match scoreToBeat b with None => true | Some _ => false end
       || beats (a_score t) (scoreToBeat b) || a_valid t
    then {| scoreToBeat := Some (a_score t); bestMoment := Some t;
            bestFormatIsValid := a_valid t |}
    else b
  else
    if beats (a_score t) (scoreToBeat b)
    then {| scoreToBeat := Some (a_score t); bestMoment := Some t;
            bestFormatIsValid := bestFormatIsValid b |}
    else b.

Definition configFromStringAndArray (h : JS.Host) (strict : bool)
    (formats : list (list token)) (str : string) : option attempt :=
  bestMoment
    (fold_left considerAttempt
       (map (fun f => configFromStringAndFormat h strict f str) formats) noBest).

(** The four date formats of the upload controller. *)
Definition YYYY_MM_DD : list token := [YYYY; Lit "-"; MM; Lit "-"; DD].
Definition DD_MM_YYYY_slash : list token := [DD; Lit "/"; MM; Lit "/"; YYYY].
Definition MM_DD_YYYY_slash : list token := [MM; Lit "/"; DD; Lit "/"; YYYY].
Definition DD_MM_YYYY_dash : list token := [DD; Lit "-"; MM; Lit "-"; YYYY].

Definition HH_mm : list token := [HH; Lit ":"; mm].

(** [moment(v, 'HH:mm')] as the instant it denotes, [None] when
    [!isValid()].  A Date is taken as it is; anything else is converted to a
    string and read leniently, on the current local day (24:00 is the next
    day's midnight). *)
Definition momentTime (h : JS.Host) (v : cell) : option Z :=
  match v with
  | CDate d => d
  | _ =>
      let t := configFromStringAndFormat h false HH_mm (cellToString h v) in
      if a_valid t then
        let u := a_units t in
        let nextDay := if hour u =? 24 then 1 else 0 in
        let hr := if hour u =? 24 then 0 else hour u in
        Some (JS.UTC h (JS.MakeDate (JS.MakeDay (year u) (month u) (date u) + nextDay)
                                    (JS.MakeTime hr (minute u) 0 0)))
      else None
  end.

(** [b.diff(a, 'hours', true)] *)
Definition diffHours (b a : Z) : Q := (inject_Z (b - a) / inject_Z JS.msPerHour)%Q.

(** [moment.utc(t).format('dddd')] *)
Definition weekdays : list string :=
  ["Sunday"; "Monday"; "Tuesday"; "Wednesday"; "Thursday"; "Friday"; "Saturday"]%string.

Definition format_dddd (t : Z) : string :=
  nth (Z.to_nat (JS.WeekDay t)) weekdays ""%string.

(** [zeroFill(number, targetLength)] *)
Definition zeroFill (number : Z) (targetLength : nat) : string :=
  let absNumber := JS.intToString (Z.abs number) in
  let zerosToFill := (targetLength - String.length absNumber)%nat in
  let sign := if 0 <=? number then ""%string else "-"%string in
  (sign ++ string_of_list_ascii (repeat "0"%char zerosToFill) ++ absNumber)%string.

(** What a format token prints of the local time value [lt]. *)
Definition formatToken (lt : Z) (t : token) : string :=
  match t with
  | YYYY => zeroFill (JS.YearFromTime lt) 4
  | MM => zeroFill (JS.MonthFromTime lt + 1) 2
  | DD => zeroFill (JS.DateFromTime lt) 2
  | HH => zeroFill (JS.HourFromTime lt) 2
  | mm => zeroFill (JS.MinFromTime lt) 2
  | Lit c => String c ""
  end.

(** [moment(d).format(f)] for a Date [d]. *)
Definition format (h : JS.Host) (d : option Z) (f : list token) : string :=
  match d with
  | Some t => String.concat "" (map (formatToken (JS.LocalTime h t)) f)
  | None => "Invalid date"
  end.

Definition YYYY_MM : list token := [YYYY; Lit "-"; MM].

(** [moment(d).day()] for a Date [d]; [None] is NaN. *)
Definition day (h : JS.Host) (d : option Z) : option Z :=
  option_map (fun t => JS.WeekDay (JS.LocalTime h t)) d.

(** [moment(v)] for a value that is neither a Date nor a text, as the Date
    it wraps: a number is a time value, an object without unit keys is the
    start of the current local day, anything else is invalid. *)
Definition momentOf (h : JS.Host) (v : cell) : option Z :=
  match v with
  | CDate d => d
  | CNumber q => JS.Date_ofNumber q
  | CObject =>
      let t := JS.now h in
      JS.TimeClip
        (JS.UTC h (JS.MakeDate
                     (JS.MakeDay (JS.getFullYear h t) (JS.getMonth h t) (JS.getDate h t))
                     0))
  | _ => None
  end.


End Moment.

(* ================================================================== *)
(** ** api/utils/helpers.js *)
(* ================================================================== *)

Module Helpers.

Definition workdayHours : list (string * Q) :=
  [ ("Monday", 8.5); ("Tuesday", 8.5); ("Wednesday", 8.5); ("Thursday", 8.5);
    ("Friday", 8.5); ("Saturday", 4); ("Sunday", 0) ]%string%Q.

Fixpoint lookup (k : string) (l : list (string * Q)) : option Q :=
  match l with
  | [] => None
  | (k', v) :: l' => if String.eqb k k' then Some v else lookup k l'
  end.

(** Calculate worked hours from inTime and outTime. *)
Definition calculateWorkedHours (h : JS.Host) (inTime outTime : cell) : Q :=
  if negb (truthy inTime) || negb (truthy outTime) then 0%Q
  else
    match Moment.momentTime h inTime, Moment.momentTime h outTime with
    | Some inMoment, Some outMoment =>
        let hours := Moment.diffHours outMoment inMoment in
        JS.Math_max 0 (JS.toFixed 2 hours)
    | _, _ => 0%Q
    end.

(** Get expected hours for a day: [this.workdayHours[dayOfWeek] || 0]. *)
Definition getExpectedHours (dayOfWeek : string) : Q :=
  match lookup dayOfWeek workdayHours with
  | Some q => if Qeq_bool q 0 then 0%Q else q
  | None => 0%Q
  end.

(** Check if date is a weekend, for a Date. *)
Definition isWeekend (h : JS.Host) (date : option Z) : bool :=
  match Moment.day h date with
  | Some day => (day =? 0) || (day =? 6)
  | None => false
  end.

(** Format date to YYYY-MM-DD without timezone conversion; [None] is
    [null]. *)
Definition formatDate (h : JS.Host) (date : cell) : option string :=
  if negb (truthy date) then None
  else
    match date with
    | CDate (Some t) =>
        let year := JS.intToString (JS.getFullYear h t) in
        let month := JS.padStart2 (JS.intToString (JS.getMonth h t + 1)) in
        let day := JS.padStart2 (JS.intToString (JS.getDate h t)) in
        Some (year ++ "-" ++ month ++ "-" ++ day)%string
    | CDate None => Some "NaN-NaN-NaN"%string
    | CString s => Some s
    | _ => Some (Moment.format h (Moment.momentOf h date) Moment.YYYY_MM_DD)
    end.

(** Get month-year string, for a Date. *)
Definition getMonthYear (h : JS.Host) (date : option Z) : string :=
  Moment.format h date Moment.YYYY_MM.

(** Get day name, for a Date. *)
Definition getDayName (h : JS.Host) (date : option Z) : string :=
  match date with
  | Some t => Moment.format_dddd (JS.LocalTime h t)
  | None => "Invalid date"
  end.


End Helpers.

(* ================================================================== *)
(** ** Stored documents *)
(* ================================================================== *)

Inductive Status := Present | Leave | Holiday | Weekend.

Definition Status_eqb (a b : Status) : bool :=
  match a, b with
  | Present, Present | Leave, Leave | Holiday, Holiday | Weekend, Weekend => true
  | _, _ => false
  end.

(** An attendance document. [date] is a valid time value. *)
Record attendance := {
  employeeName : string;
  date : Z;
  inTime : cell;
  outTime : cell;
  workedHours : Q;
  isLeave : bool;
  isHoliday : bool;
  dayOfWeek : string;
  monthYear : string;
  expectedHours : Q;
  status : Status;
  employeeId : option nat
}.

Definition withEmployeeId (id : nat) (r : attendance) : attendance :=
  {| employeeName := employeeName r; date := date r; inTime := inTime r;
     outTime := outTime r; workedHours := workedHours r; isLeave := isLeave r;
     isHoliday := isHoliday r; dayOfWeek := dayOfWeek r; monthYear := monthYear r;
     expectedHours := expectedHours r; status := status r;
     employeeId := Some id |}.

Record employee := {
  _id : nat;
  name : string;
  leavesPerMonth : Z
}.

(** The query [{ monthYear }]. *)
Definition hasMonthYear (my : string) (a : attendance) : bool :=
  String.eqb (monthYear a) my.

(** The two collections. *)
Record store := {
  Attendance : list attendance;
  Employee : list employee
}.

(** What a handler sends: [res.status(code).json(payload)] for a failure,
    [res.json(a)] for an answer. *)
Inductive pval := PStr (s : string) | PNum (n : Z).

Inductive response (A : Type) :=
| Fail (code : Z) (payload : list (string * pval))
| Done (a : A).
Arguments Fail {A} code payload.
Arguments Done {A} a.

(** [list.sort(cmp)] / [.sort({...})]: a stable sort for the order [le]. *)
Section Sorting.
Context {A : Type} (le : A -> A -> bool).

Fixpoint insertSorted (x : A) (l : list A) : list A :=
  match l with
  | [] => [x]
  | y :: l' => if le x y then x :: y :: l' else y :: insertSorted x l'
  end.

Fixpoint sortBy (l : list A) : list A :=
  match l with
  | [] => []
  | x :: l' => insertSorted x (sortBy l')
  end.

End Sorting.

(** The distinct elements of a list in order of first occurrence, as a
    [Map] or a [Set] keeps its keys and as [$group] is taken to list its
    groups. *)
Section Distinct.
Context {K : Type} (eqb : K -> K -> bool).

Fixpoint distinct (seen : list K) (l : list K) : list K :=
  match l with
  | [] => []
  | k :: l' =>
      if existsb (eqb k) seen then distinct seen l'
      else k :: distinct (k :: seen) l'
  end.

End Distinct.

Definition Qlt_bool (a b : Q) : bool := negb (Qle_bool b a).

(** [reduce((sum, r) => sum + f(r), 0)] *)
Definition sumOf {A : Type} (f : A -> Q) (l : list A) : Q :=
  fold_left (fun sum r => (sum + f r)%Q) l 0%Q.

(** One line of a [dailyBreakdown]; [b_date] is printed as [YYYY-MM-DD]. *)
Record dayEntry := {
  b_date : Z;
  b_day : string;
  b_workedHours : Q;
  b_isLeave : bool;
  b_isHoliday : bool;
  b_expectedHours : Q;
  b_inTime : cell;
  b_outTime : cell;
  b_status : Status
}.

Definition dayEntryOf (r : attendance) : dayEntry :=
  {| b_date := date r; b_day := dayOfWeek r; b_workedHours := workedHours r;
     b_isLeave := isLeave r; b_isHoliday := isHoliday r;
     b_expectedHours := expectedHours r; b_inTime := inTime r;
     b_outTime := outTime r; b_status := status r |}.

Record statistic := {
  s_employeeName : string;
  totalExpectedHours : Q;
  totalWorkedHours : Q;
  leavesTaken : nat;
  leavesAllowed : Z;
  productivity : Q;
  dailyBreakdown : list dayEntry
}.

(** The productivity of [worked] hours out of [expected]. *)
Definition productivityOf (worked expected : Q) : Q :=
  if Qlt_le_dec 0 expected then (worked / expected * 100)%Q else 0%Q.

(* ================================================================== *)
(** ** api/controllers/uploadController.js *)
(* ================================================================== *)

Module Upload.

(** A worksheet row: cells 1 to 4.  The name column holds text; an empty
    name cell reads as the empty text. *)
Record row := {
  cell1 : string;
  cell2 : cell;
  cell3 : cell;
  cell4 : cell
}.

Definition formats : list (list Moment.token) :=
  [Moment.YYYY_MM_DD; Moment.DD_MM_YYYY_slash; Moment.MM_DD_YYYY_slash;
   Moment.DD_MM_YYYY_dash].

(** Excel date serial starts from 1899-12-30. *)
Definition excelEpoch : Z := JS.MakeDate (JS.MakeDay 1899 11 30) (JS.MakeTime 0 0 0 0).

(** Parse date correctly from Excel: [None] when the row is given up. *)
Definition parseDate (h : JS.Host) (dateValue : cell) : option Z :=
  match dateValue with
  | CDate (Some t) =>
      JS.Date_UTC (JS.getFullYear h t) (JS.getMonth h t) (JS.getDate h t)
  | CDate None => None
  | CString s =>
      match Moment.configFromStringAndArray h true formats s with
      | Some momentDate =>
          if Moment.a_valid momentDate then
            let u := Moment.a_units momentDate in
            JS.Date_UTC (Moment.year u) (Moment.month u) (Moment.date u)
          else None
      | None => None
      end
  | CNumber q =>
      let days := Qfloor q in
      JS.TimeClip (excelEpoch + days * 86400000)
  | _ => None
  end.

(** The status, leave flag and worked hours of a day. *)
Definition classify (h : JS.Host) (dayOfWeek : string) (inTime outTime : cell)
    : Status * bool * Q :=
  let isWeekend := String.eqb dayOfWeek "Saturday" || String.eqb dayOfWeek "Sunday" in
  let isHoliday := String.eqb dayOfWeek "Sunday" in
  if isHoliday then (Holiday, false, 0%Q)
  else if isWeekend && String.eqb dayOfWeek "Sunday" then (Weekend, false, 0%Q)
  else if negb (truthy inTime) || negb (truthy outTime) then (Leave, true, 0%Q)
  else
    let workedHours := Helpers.calculateWorkedHours h inTime outTime in
    if Qeq_bool workedHours 0 then (Leave, true, workedHours)
    else (Present, false, workedHours).

(** The body of the [eachRow] callback: the record pushed for a row, or
    [None] when the row is left out. *)
Definition processRow (h : JS.Host) (monthYear : string) (rowNumber : nat) (r : row)
    : option attendance :=
  if (rowNumber =? 1)%nat then None
  else
    let employeeName := cell1 r in
    let dateValue := cell2 r in
    let inTime := cell3 r in
    let outTime := cell4 r in
    if String.eqb employeeName "" || negb (truthy dateValue) then None
    else
      match parseDate h dateValue with
      | None => None
      | Some parsedDate =>
          let dayOfWeek := Moment.format_dddd parsedDate in
          let '(status, isLeave, workedHours) := classify h dayOfWeek inTime outTime in
          let expectedHours := Helpers.getExpectedHours dayOfWeek in
          Some {| employeeName := employeeName;
                  date := parsedDate;
                  inTime := orNull inTime;
                  outTime := orNull outTime;
                  workedHours := workedHours;
                  isLeave := isLeave;
                  isHoliday := String.eqb dayOfWeek "Sunday";
                  dayOfWeek := dayOfWeek;
                  monthYear := monthYear;
                  expectedHours := expectedHours;
                  status := status;
                  employeeId := None |}
      end.

(** [worksheet.eachRow]: the records pushed, in row order. *)
Fixpoint eachRow (h : JS.Host) (monthYear : string) (rows : list (nat * row))
    : list attendance :=
  match rows with
  | [] => []
  | (rowNumber, r) :: rows' =>
      match processRow h monthYear rowNumber r with
      | Some a => a :: eachRow h monthYear rows'
      | None => eachRow h monthYear rows'
      end
  end.

(** The keys of [employeesMap], in insertion order. *)
Definition employeesOf (data : list attendance) : list string :=
  distinct String.eqb [] (map employeeName data).

(** Find or create employees in database. *)
Definition findOrCreate (employees : list employee) (n : string)
    : nat * list employee :=
  match find (fun e => String.eqb (name e) n) employees with
  | Some dbEmployee => (_id dbEmployee, employees)
  | None =>
      let id := List.length employees in
      (id, employees ++ [{| _id := id; name := n; leavesPerMonth := 2 |}])
  end.

Definition attachEmployee (acc : list employee * list attendance) (n : string)
    : list employee * list attendance :=
  let '(employees, data) := acc in
  let '(id, employees') := findOrCreate employees n in
  (employees',
   map (fun record => if String.eqb (employeeName record) n
                      then withEmployeeId id record else record) data).

(** Calculate statistics. *)
Definition statisticOf (attendanceData : list attendance) (n : string) : statistic :=
  let employeeRecords :=
    filter (fun r => String.eqb (employeeName r) n) attendanceData in
  let totalExpected := sumOf expectedHours employeeRecords in
  let totalWorked := sumOf workedHours employeeRecords in
  {| s_employeeName := n;
     totalExpectedHours := JS.toFixed 2 totalExpected;
     totalWorkedHours := JS.toFixed 2 totalWorked;
     leavesTaken :=
       List.length (filter (fun r => isLeave r && negb (isHoliday r)) employeeRecords);
     leavesAllowed := 2;
     productivity := JS.toFixed 2 (productivityOf totalWorked totalExpected);
     dailyBreakdown :=
       map dayEntryOf (sortBy (fun a b => date a <=? date b) employeeRecords) |}.

Record request := {
  file : option (list (nat * row));
  month : option string;
  year : option string;
  override : option string
}.

Record summary := {
  totalRecords : nat;
  totalEmployees : nat;
  s_monthYear : string
}.

Record uploaded := {
  message : string;
  u_summary : summary;
  statistics : list statistic
}.

Definition given (o : option string) : bool :=
  match o with
  | Some s => negb (String.eqb s "")
  | None => false
  end.

Definition text (o : option string) : string :=
  match o with
  | Some s => s
  | None => "undefined"
  end.

Definition isTrue (o : option string) : bool :=
  match o with
  | Some s => String.eqb s "true"
  | None => false
  end.

Definition monthYearOf (req : request) : string :=
  (text (year req) ++ "-" ++ JS.padStart2 (text (month req)))%string.

Definition validMonth (m : option Z) : bool :=
  match m with
  | Some monthNum => negb ((monthNum <? 1) || (monthNum >? 12))
  | None => false
  end.

Definition uploadAttendance (h : JS.Host) (req : request) (db : store)
    : response uploaded * store :=
  match file req with
  | None =>
      (Fail 400 [("error", PStr "No file provided");
                 ("message", PStr "Please select an Excel file to upload")]%string, db)
  | Some worksheet =>
      if negb (given (month req)) || negb (given (year req)) then
        (Fail 400 [("error", PStr "Missing parameters");
                   ("message", PStr "Month and year are required")]%string, db)
      else if negb (validMonth (JS.parseInt (text (month req)))) then
        (Fail 400 [("error", PStr "Invalid month");
                   ("message", PStr "Month must be between 1 and 12")]%string, db)
      else
        let monthYear := monthYearOf req in
        (* Check if data already exists *)
        let existingData :=
          existsb (hasMonthYear monthYear) (Attendance db) in
        if existingData && negb (isTrue (override req)) then
          (Fail 409
             [("error", PStr "Data already exists");
              ("message", PStr ("Attendance data for " ++ monthYear
                                ++ " already exists. Use override=true to replace."));
              ("monthYear", PStr monthYear)]%string, db)
        else
          let attendanceData := eachRow h monthYear worksheet in
          match attendanceData with
          | [] =>
              (Fail 400
                 [("error", PStr "No valid data");
                  ("message", PStr "Excel file does not contain valid attendance data")]%string,
               db)
          | _ :: _ =>
              let employees := employeesOf attendanceData in
              let '(dbEmployees, attendanceData') :=
                fold_left attachEmployee employees (Employee db, attendanceData) in
              (* Delete existing data if overriding *)
              let kept :=
                if existingData && isTrue (override req)
                then filter (fun a => negb (hasMonthYear monthYear a)) (Attendance db)
                else Attendance db in
              (* Insert new attendance records *)
              let db' := {| Attendance := kept ++ attendanceData';
                            Employee := dbEmployees |} in
              (Done {| message := ("File uploaded successfully for " ++ monthYear)%string;
                       u_summary := {| totalRecords := List.length attendanceData';
                                       totalEmployees := List.length employees;
                                       s_monthYear := monthYear |};
                       statistics := map (statisticOf attendanceData') employees |},
               db')
          end
  end.

End Upload.

(* ================================================================== *)
(** ** api/routes/apiRoutes.js *)
(* ================================================================== *)

Module Routes.

(** [.sort({ employeeName: 1, date: 1 })] *)
Definition byNameThenDate (a b : attendance) : bool :=
  match String.compare (employeeName a) (employeeName b) with
  | Lt => true
  | Eq => date a <=? date b
  | Gt => false
  end.

(** [Attendance.find({ monthYear }).sort({ employeeName: 1, date: 1 })] *)
Definition findMonth (db : store) (my : string) : list attendance :=
  sortBy byNameThenDate (filter (hasMonthYear my) (Attendance db)).

Definition statisticOf (attendanceData : list attendance) (n : string) : statistic :=
  let employeeData :=
    filter (fun d => String.eqb (employeeName d) n) attendanceData in
  let totalExpected := sumOf expectedHours employeeData in
  let totalWorked := sumOf workedHours employeeData in
  {| s_employeeName := n;
     totalExpectedHours := JS.toFixed 2 totalExpected;
     totalWorkedHours := JS.toFixed 2 totalWorked;
     leavesTaken :=
       List.length (filter (fun d => isLeave d && negb (isHoliday d)) employeeData);
     leavesAllowed := 2;
     productivity := JS.toFixed 2 (productivityOf totalWorked totalExpected);
     dailyBreakdown := map dayEntryOf employeeData |}.

Definition noData (monthYear : string) (withLabel : bool) : list (string * pval) :=
  [("error", PStr "No data found");
   ("message", PStr ("No attendance data found for " ++ monthYear))]%string
  ++ (if withLabel then [("monthYear", PStr monthYear)]%string else []).

(** *** GET /month/:year/:month *)

Record monthly := {
  m_monthYear : string;
  m_statistics : list statistic;
  m_totalRecords : nat;
  m_totalEmployees : nat;
  m_month : option Z;
  m_year : option Z
}.

Definition month (db : store) (year month : string) : response monthly :=
  if String.eqb year "" || String.eqb month "" then
    Fail 400 [("error", PStr "Missing parameters");
              ("message", PStr "Year and month are required")]%string
  else
    let monthYear := (year ++ "-" ++ JS.padStart2 month)%string in
    let attendanceData := findMonth db monthYear in
    match attendanceData with
    | [] => Fail 404 (noData monthYear true)
    | _ :: _ =>
        let employees := distinct String.eqb [] (map employeeName attendanceData) in
        Done {| m_monthYear := monthYear;
                m_statistics := map (statisticOf attendanceData) employees;
                m_totalRecords := List.length attendanceData;
                m_totalEmployees := List.length employees;
                m_month := JS.parseInt month;
                m_year := JS.parseInt year |}
    end.

(** *** GET /previous-month/:year/:month *)

Record previous := {
  p_year : option Z;
  p_month : option Z;
  p_statistics : list statistic
}.

Definition numberText (n : option Z) : string :=
  match n with
  | Some z => JS.intToString z
  | None => "NaN"
  end.

(** The statistics of the previous month carry no daily breakdown. *)
Definition summaryOf (attendanceData : list attendance) (n : string) : statistic :=
  let s := statisticOf attendanceData n in
  {| s_employeeName := s_employeeName s;
     totalExpectedHours := totalExpectedHours s;
     totalWorkedHours := totalWorkedHours s;
     leavesTaken := leavesTaken s;
     leavesAllowed := leavesAllowed s;
     productivity := productivity s;
     dailyBreakdown := [] |}.

(** The month before [year]/[month], and its label. *)
Definition previousOf (year month : string) : option Z * option Z :=
  let prevYear := JS.parseInt year in
  let prevMonth := option_map (fun m => m - 1) (JS.parseInt month) in
  match prevMonth with
  | Some 0 => (option_map (fun y => y - 1) prevYear, Some 12)
  | _ => (prevYear, prevMonth)
  end.

Definition previousLabel (year month : string) : string :=
  let '(prevYear, prevMonth) := previousOf year month in
  (numberText prevYear ++ "-" ++ JS.padStart2 (numberText prevMonth))%string.

Definition previousMonth (db : store) (year month : string) : response previous :=
  let '(prevYear, prevMonth) := previousOf year month in
  let monthYear := previousLabel year month in
  let attendanceData := findMonth db monthYear in
  match attendanceData with
  | [] => Fail 404 (noData monthYear false)
  | _ :: _ =>
      let employees := distinct String.eqb [] (map employeeName attendanceData) in
      Done {| p_year := prevYear; p_month := prevMonth;
              p_statistics := map (summaryOf attendanceData) employees |}
  end.

(** *** Date ranges *)

(** [$match: { date: { $gte: startDate, $lt: endDate } }]; an invalid bound
    matches nothing. *)
Definition inRange (startDate endDate : option Z) (a : attendance) : bool :=
  match startDate, endDate with
  | Some s, Some e => (s <=? date a) && (date a <? e)
  | _, _ => false
  end.

(** [year < 2000 || year > new Date().getFullYear() + 1], for a year given
    as a numeral. *)
Definition invalidYear (h : JS.Host) (year : Z) : bool :=
  (year <? 2000) || (year >? JS.getFullYear h (JS.now h) + 1).

(** [new Date(`${year}-01-01`)] for a four-digit year: midnight UTC. *)
Definition newYear (year : Z) : option Z :=
  JS.TimeClip (JS.MakeDate (JS.MakeDay year 0 1) 0).

(** *** GET /year-aggregated/:year *)

(** The groups of the first [$group] stage. *)
Record monthGroup := {
  g_employeeId : option nat;
  g_employeeName : string;
  g_month : Z;
  g_totalWorkedHours : Q;
  g_leaveDays : nat;
  g_expectedHours : Q
}.

Definition idEqb (a b : option nat) : bool :=
  match a, b with
  | Some x, Some y => (x =? y)%nat
  | None, None => true
  | _, _ => false
  end.

Definition monthKey (a : attendance) : option nat * string * Z :=
  (employeeId a, employeeName a, JS.MonthFromTime (date a) + 1).

Definition monthKeyEqb (k1 k2 : option nat * string * Z) : bool :=
  let '(i1, n1, m1) := k1 in
  let '(i2, n2, m2) := k2 in
  idEqb i1 i2 && String.eqb n1 n2 && (m1 =? m2).

Definition groupByMonth (docs : list attendance) : list monthGroup :=
  map (fun k =>
         let members := filter (fun a => monthKeyEqb (monthKey a) k) docs in
         let '(i, n, m) := k in
         {| g_employeeId := i; g_employeeName := n; g_month := m;
            g_totalWorkedHours := sumOf workedHours members;
            g_leaveDays := List.length (filter isLeave members);
            g_expectedHours := sumOf expectedHours members |})
      (distinct monthKeyEqb [] (map monthKey docs)).

(** One element of [monthlyData]. *)
Record monthData := {
  md_month : Z;
  md_workedHours : Q;
  md_leavesTaken : nat;
  md_expectedHours : Q
}.

(** The groups of the second [$group] stage. *)
Record employeeYear := {
  e_employeeId : option nat;
  e_employeeName : string;
  monthlyData : list monthData;
  e_totalWorkedHours : Q;
  e_totalLeavesTaken : nat;
  e_totalExpectedHours : Q
}.

Definition employeeKeyEqb (k1 k2 : option nat * string) : bool :=
  idEqb (fst k1) (fst k2) && String.eqb (snd k1) (snd k2).

Definition groupByEmployee (groups : list monthGroup) : list employeeYear :=
  map (fun k =>
         let members :=
           filter (fun g => employeeKeyEqb (g_employeeId g, g_employeeName g) k) groups in
         {| e_employeeId := fst k; e_employeeName := snd k;
            monthlyData :=
              map (fun g => {| md_month := g_month g;
                               md_workedHours := g_totalWorkedHours g;
                               md_leavesTaken := g_leaveDays g;
                               md_expectedHours := g_expectedHours g |}) members;
            e_totalWorkedHours := sumOf g_totalWorkedHours members;
            e_totalLeavesTaken := fold_left (fun s g => (s + g_leaveDays g)%nat) members O;
            e_totalExpectedHours := sumOf g_expectedHours members |})
      (distinct employeeKeyEqb []
         (map (fun g => (g_employeeId g, g_employeeName g)) groups)).

Definition monthNames : list string :=
  ["January"; "February"; "March"; "April"; "May"; "June"; "July"; "August";
   "September"; "October"; "November"; "December"]%string.

(** One element of [monthlyProductivity]. *)
Record monthProductivity := {
  mp_month : Z;
  mp_productivity : Q;
  mp_leavesTaken : nat
}.

Definition monthlyProductivityOf (m : monthData) : monthProductivity :=
  {| mp_month := md_month m;
     mp_productivity := productivityOf (md_workedHours m) (md_expectedHours m);
     mp_leavesTaken := md_leavesTaken m |}.

(** The three variables the [forEach] over the months updates. *)
Record scan := {
  bestMonth : monthProductivity;
  worstMonth : monthProductivity;
  exceededLimitMonths : nat
}.

Definition scanStart : scan :=
  {| bestMonth := {| mp_month := 0; mp_productivity := 0; mp_leavesTaken := 0 |};
     worstMonth := {| mp_month := 0; mp_productivity := 100; mp_leavesTaken := 0 |};
     exceededLimitMonths := 0 |}.

Definition scanMonth (s : scan) (m : monthProductivity) : scan :=
  {| bestMonth :=
       if Qlt_bool (mp_productivity (bestMonth s)) (mp_productivity m)
       then m else bestMonth s;
     worstMonth :=
       if Qlt_bool (mp_productivity m) (mp_productivity (worstMonth s))
          && Qlt_bool 0 (mp_productivity m)
       then m else worstMonth s;
     exceededLimitMonths :=
       if (2 <? mp_leavesTaken m)%nat then S (exceededLimitMonths s)
       else exceededLimitMonths s |}.

(** A best or worst month as it is shown: ['N/A'], or the month's name with
    its productivity to one decimal. *)
Inductive monthLabel :=
| NA
| Named (monthName : string) (percent : Q).

Definition labelOf (m : monthProductivity) : monthLabel :=
  Named (nth (Z.to_nat (mp_month m - 1)) monthNames "undefined"%string)
        (JS.toFixed 1 (mp_productivity m)).

Record employeeSummary := {
  y_employeeId : option nat;
  y_employeeName : string;
  y_totalWorkedHours : Q;
  y_totalLeavesTaken : nat;
  y_totalLeavesAllowed : nat;
  y_avgProductivity : Q;
  y_avgMonthlyHours : Q;
  y_exceededLimitMonths : nat;
  y_bestMonth : monthLabel;
  y_worstMonth : monthLabel;
  y_monthlyData : list monthProductivity
}.

Definition countQ (n : nat) : Q := inject_Z (Z.of_nat n).

Definition employeeSummaryOf (emp : employeeYear) : employeeSummary :=
  let monthlyProductivity := map monthlyProductivityOf (monthlyData emp) in
  let validMonths :=
    filter (fun m => Qlt_bool 0 (mp_productivity m)) monthlyProductivity in
  let avgProductivity :=
    if (0 <? List.length validMonths)%nat
    then (sumOf mp_productivity validMonths / countQ (List.length validMonths))%Q
    else 0%Q in
  let s := fold_left scanMonth monthlyProductivity scanStart in
  {| y_employeeId := e_employeeId emp;
     y_employeeName := e_employeeName emp;
     y_totalWorkedHours := e_totalWorkedHours emp;
     y_totalLeavesTaken := e_totalLeavesTaken emp;
     y_totalLeavesAllowed := (List.length monthlyProductivity * 2)%nat;
     y_avgProductivity := avgProductivity;
     y_avgMonthlyHours :=
       (e_totalWorkedHours emp / countQ (List.length monthlyProductivity))%Q;
     y_exceededLimitMonths := exceededLimitMonths s;
     y_bestMonth :=
       if Qlt_bool 0 (mp_productivity (bestMonth s)) then labelOf (bestMonth s) else NA;
     y_worstMonth :=
       if Qlt_bool (mp_productivity (worstMonth s)) 100 then labelOf (worstMonth s) else NA;
     y_monthlyData := monthlyProductivity |}.

Record yearly := {
  ya_year : Z;
  ya_totalEmployees : nat;
  ya_totalHours : Q;
  ya_totalLeaves : nat;
  ya_avgProductivity : Q;
  ya_avgHours : Q;
  ya_employees : list employeeSummary;
  ya_monthCount : nat
}.

Definition yearAggregated (h : JS.Host) (db : store) (year : Z) : response yearly :=
  if invalidYear h year then Fail 400 [("error", PStr "Invalid year")]%string
  else
    let startDate := newYear year in
    let endDate := newYear (year + 1) in
    let yearResponse :=
      groupByEmployee (groupByMonth (filter (inRange startDate endDate) (Attendance db))) in
    match yearResponse with
    | [] => Fail 404 [("error", PStr "No data found for this year")]%string
    | _ :: _ =>
        let employees := map employeeSummaryOf yearResponse in
        let totalEmployees := List.length employees in
        let totalHours := sumOf y_totalWorkedHours employees in
        Done {| ya_year := year;
                ya_totalEmployees := totalEmployees;
                ya_totalHours := totalHours;
                ya_totalLeaves :=
                  fold_left (fun s e => (s + y_totalLeavesTaken e)%nat) employees O;
                ya_avgProductivity :=
                  (sumOf y_avgProductivity employees / countQ totalEmployees)%Q;
                ya_avgHours := (totalHours / countQ totalEmployees)%Q;
                ya_employees := employees;
                ya_monthCount :=
                  match employees with
                  | e :: _ => List.length (y_monthlyData e)
                  | [] => O
                  end |}
    end.

(** *** GET /workforce/:year/:month *)

Record workforceEmployee := {
  w_employeeId : option nat;
  w_employeeName : string;
  w_workedHours : Q;
  w_isLeave : bool;
  w_isHoliday : bool
}.

(** One day of the workforce breakdown; [w_date] is the UTC day number,
    printed as [%Y-%m-%d]. *)
Record workforceDay := {
  w_date : Z;
  w_employees : list workforceEmployee
}.

Record workforceAnswer := {
  wf_year : Z;
  wf_month : Z;
  wf_dailyBreakdown : list workforceDay
}.

Definition dayKey (a : attendance) : Z * option nat * string :=
  (JS.Day (date a), employeeId a, employeeName a).

Definition dayKeyEqb (k1 k2 : Z * option nat * string) : bool :=
  let '(d1, i1, n1) := k1 in
  let '(d2, i2, n2) := k2 in
  (d1 =? d2) && idEqb i1 i2 && String.eqb n1 n2.

Definition groupByDayAndEmployee (docs : list attendance)
    : list (Z * workforceEmployee) :=
  map (fun k =>
         let members := filter (fun a => dayKeyEqb (dayKey a) k) docs in
         let '(d, i, n) := k in
         (d, {| w_employeeId := i; w_employeeName := n;
                w_workedHours := sumOf workedHours members;
                w_isLeave := existsb isLeave members;
                w_isHoliday := existsb isHoliday members |}))
      (distinct dayKeyEqb [] (map dayKey docs)).

Definition groupByDay (groups : list (Z * workforceEmployee)) : list workforceDay :=
  map (fun d => {| w_date := d;
                   w_employees := map snd (filter (fun g => fst g =? d) groups) |})
      (distinct Z.eqb [] (map fst groups)).

Definition workforce (h : JS.Host) (db : store) (year month : Z)
    : response workforceAnswer :=
  if invalidYear h year then Fail 400 [("error", PStr "Invalid year")]%string
  else if (month <? 1) || (month >? 12) then
    Fail 400 [("error", PStr "Invalid month")]%string
  else
    let startDate := JS.Date_local h year (month - 1) 1 in
    let endDate := JS.Date_local h year month 1 in
    let dailyData :=
      sortBy (fun a b => w_date a <=? w_date b)
        (groupByDay (groupByDayAndEmployee
           (filter (inRange startDate endDate) (Attendance db)))) in
    Done {| wf_year := year; wf_month := month; wf_dailyBreakdown := dailyData |}.

(** *** GET /year-comparison *)

(** The groups of the first [$group] stage, one per year and employee. *)
Record yearGroup := {
  yg_year : Z;
  yg_totalWorkedHours : Q;
  yg_leaveDays : nat;
  yg_expectedHours : Q
}.

Definition yearKey (a : attendance) : Z * option nat :=
  (JS.YearFromTime (date a), employeeId a).

Definition yearKeyEqb (k1 k2 : Z * option nat) : bool :=
  (fst k1 =? fst k2) && idEqb (snd k1) (snd k2).

Definition groupByYearAndEmployee (docs : list attendance) : list yearGroup :=
  map (fun k =>
         let members := filter (fun a => yearKeyEqb (yearKey a) k) docs in
         {| yg_year := fst k;
            yg_totalWorkedHours := sumOf workedHours members;
            yg_leaveDays := List.length (filter isLeave members);
            yg_expectedHours := sumOf expectedHours members |})
      (distinct yearKeyEqb [] (map yearKey docs)).

(** The groups of the second [$group] stage, one per year. *)
Record yearTotals := {
  yt_year : Z;
  yt_totalWorkedHours : Q;
  yt_totalLeaves : nat;
  yt_totalExpectedHours : Q;
  yt_employeeCount : nat
}.

Definition groupByYear (groups : list yearGroup) : list yearTotals :=
  map (fun y =>
         let members := filter (fun g => yg_year g =? y) groups in
         {| yt_year := y;
            yt_totalWorkedHours := sumOf yg_totalWorkedHours members;
            yt_totalLeaves := fold_left (fun s g => (s + yg_leaveDays g)%nat) members O;
            yt_totalExpectedHours := sumOf yg_expectedHours members;
            yt_employeeCount := List.length members |})
      (distinct Z.eqb [] (map yg_year groups)).

Record comparison := {
  c_year : Z;
  c_totalWorkedHours : Q;
  c_totalLeaves : nat;
  c_employeeCount : nat;
  c_avgProductivity : Q;
  c_avgHours : Q;
  c_avgLeavesPerEmployee : Q
}.

Definition comparisonOf (item : yearTotals) : comparison :=
  let avgProductivity :=
    productivityOf (yt_totalWorkedHours item) (yt_totalExpectedHours item) in
  let avgHours :=
    if (0 <? yt_employeeCount item)%nat
    then (yt_totalWorkedHours item / countQ (yt_employeeCount item))%Q else 0%Q in
  let avgLeavesPerEmployee :=
    if (0 <? yt_employeeCount item)%nat
    then (countQ (yt_totalLeaves item) / countQ (yt_employeeCount item))%Q else 0%Q in
  {| c_year := yt_year item;
     c_totalWorkedHours := yt_totalWorkedHours item;
     c_totalLeaves := yt_totalLeaves item;
     c_employeeCount := yt_employeeCount item;
     c_avgProductivity := JS.toFixed 1 avgProductivity;
     c_avgHours := JS.toFixed 1 avgHours;
     c_avgLeavesPerEmployee := JS.toFixed 1 avgLeavesPerEmployee |}.

(** The two years compared are last year and this year. *)
Definition comparedRange (h : JS.Host) : option Z * option Z :=
  let currentYear := JS.getFullYear h (JS.now h) in
  (newYear (currentYear - 1), newYear (currentYear + 1)).

Definition yearComparison (h : JS.Host) (db : store) : response (list comparison) :=
  let '(startDate, endDate) := comparedRange h in
  let yearData :=
    sortBy (fun a b => yt_year a <=? yt_year b)
      (groupByYear (groupByYearAndEmployee
         (filter (inRange startDate endDate) (Attendance db)))) in
  Done (map comparisonOf yearData).

(** *** GET /employees/productivity/:year *)

Record employeeProductivity := {
  ep_employeeId : option nat;
  ep_employeeName : string;
  ep_totalWorkedHours : Q;
  ep_leaveDays : nat;
  ep_productivity : Q
}.

Definition groupByEmployeeOfYear (docs : list attendance) : list employeeProductivity :=
  map (fun k =>
         let members :=
           filter (fun a => employeeKeyEqb (employeeId a, employeeName a) k) docs in
         {| ep_employeeId := fst k; ep_employeeName := snd k;
            ep_totalWorkedHours := sumOf workedHours members;
            ep_leaveDays := List.length (filter isLeave members);
            ep_productivity :=
              productivityOf (sumOf workedHours members) (sumOf expectedHours members) |})
      (distinct employeeKeyEqb [] (map (fun a => (employeeId a, employeeName a)) docs)).

Record productivityAnswer := {
  pa_year : Z;
  pa_employees : list employeeProductivity
}.

Definition employeesProductivity (h : JS.Host) (db : store) (year : Z)
    : response productivityAnswer :=
  if invalidYear h year then Fail 400 [("error", PStr "Invalid year")]%string
  else
    let startDate := newYear year in
    let endDate := newYear (year + 1) in
    let productivityData :=
      sortBy (fun a b => String.leb (ep_employeeName a) (ep_employeeName b))
        (groupByEmployeeOfYear (filter (inRange startDate endDate) (Attendance db))) in
    Done {| pa_year := year; pa_employees := productivityData |}.

(** *** GET /months *)

Record monthInfo := {
  mi_monthYear : string;
  mi_recordCount : nat;
  mi_employeeCount : nat;
  mi_lastUpdated : option Z
}.

(** [$max]: a missing value is passed over. *)
Definition maxDate (a b : option Z) : option Z :=
  match a, b with
  | Some x, Some y => Some (Z.max x y)
  | Some x, None => Some x
  | None, _ => b
  end.

(** The [$group] by [monthYear] with its [$project]; [updatedAt] is the
    time stamp the collection keeps of a document, if it keeps one. *)
Definition groupByMonthYear (updatedAt : attendance -> option Z)
    (docs : list attendance) : list monthInfo :=
  map (fun k =>
         let members := filter (hasMonthYear k) docs in
         {| mi_monthYear := k;
            mi_recordCount := List.length members;
            mi_employeeCount :=
              List.length (distinct String.eqb [] (map employeeName members));
            mi_lastUpdated :=
              fold_left (fun m a => maxDate m (updatedAt a)) members None |})
      (distinct String.eqb [] (map monthYear docs)).

Record monthsAnswer := {
  ma_months : list monthInfo;
  ma_totalMonths : nat
}.

Definition months (updatedAt : attendance -> option Z) (db : store)
    : response monthsAnswer :=
  let months :=
    sortBy (fun a b => String.leb (mi_monthYear b) (mi_monthYear a))
      (groupByMonthYear updatedAt (Attendance db)) in
  Done {| ma_months := months; ma_totalMonths := List.length months |}.

(** *** GET /employees *)

Record employeesAnswer := {
  ea_employees : list employee;
  ea_totalEmployees : nat
}.

Definition employees (db : store) : response employeesAnswer :=
  let employees := sortBy (fun a b => String.leb (name a) (name b)) (Employee db) in
  Done {| ea_employees := employees; ea_totalEmployees := List.length employees |}.


End Routes.

(* ================================================================== *)
(** ** frontend/src/components/Charts/ProductivityChart.js *)
(* ================================================================== *)

Module Chart.

Inductive dayStatus := working | holiday | leave.

Definition dayStatus_eqb (a b : dayStatus) : bool :=
  match a, b with
  | working, working | holiday, holiday | leave, leave => true
  | _, _ => false
  end.

(** One element of [dailyProductivity]; [p_productivity] is [None] for
    [null], [p_day] the day of the month the browser shows. *)
Record point := {
  p_date : Z;
  p_day : Z;
  p_dayOfWeek : string;
  p_productivity : option Q;
  p_status : dayStatus;
  p_workedHours : Q;
  p_expectedHours : Q
}.

(** [new Date(day.date)] for the printed [YYYY-MM-DD]: midnight UTC of the
    day. *)
Definition dateOf (day : dayEntry) : Z := JS.Day (b_date day) * JS.msPerDay.

(** Calculate daily productivity. *)
Definition pointOf (h : JS.Host) (day : dayEntry) : point :=
  let status :=
    if b_isHoliday day then holiday
    else if b_isLeave day then leave
    else working in
  let productivity :=
    if b_isHoliday day then None
    else if b_isLeave day then None
    else if Qlt_bool 0 (b_expectedHours day)
    then Some (b_workedHours day / b_expectedHours day * 100)%Q
    else None in
  {| p_date := b_date day;
     p_day := JS.getDate h (dateOf day);
     p_dayOfWeek := b_day day;
     p_productivity := productivity;
     p_status := status;
     p_workedHours := b_workedHours day;
     p_expectedHours := b_expectedHours day |}.

Definition isValidDay (d : point) : bool :=
  match p_productivity d with Some _ => true | None => false end.

Definition productivityOfPoint (d : point) : Q :=
  match p_productivity d with Some p => p | None => 0%Q end.

(** What the component computes before it draws. *)
Record view := {
  dailyProductivity : list point;
  validDays : list point;
  avgProductivity : Q;
  peakProductivity : Q;
  lowestProductivity : Q;
  leaveDays : list point;
  holidayDays : list point
}.

(** [None] is the panel ["No productivity data available"]. *)
Definition productivityChart (h : JS.Host) (data : option statistic) : option view :=
  match data with
  | None => None
  | Some data =>
      match dailyBreakdown data with
      | [] => None
      | _ :: _ =>
          let dailyProductivity := map (pointOf h) (dailyBreakdown data) in
          (* Calculate statistics *)
          let validDays := filter isValidDay dailyProductivity in
          let some := (0 <? List.length validDays)%nat in
          Some {| dailyProductivity := dailyProductivity;
                  validDays := validDays;
                  avgProductivity :=
                    if some
                    then (sumOf productivityOfPoint validDays
                          / inject_Z (Z.of_nat (List.length validDays)))%Q
                    else 0%Q;
                  peakProductivity :=
                    if some then JS.maxOf (map productivityOfPoint validDays) else 0%Q;
                  lowestProductivity :=
                    if some then JS.minOf (map productivityOfPoint validDays) else 0%Q;
                  (* Get leave and holiday days *)
                  leaveDays :=
                    filter (fun d => dayStatus_eqb (p_status d) leave) dailyProductivity;
                  holidayDays :=
                    filter (fun d => dayStatus_eqb (p_status d) holiday) dailyProductivity |}
      end
  end.

(** The bar drawn for a day. *)
Inductive colour := green | blue | yellow.

Inductive bar :=
| HolidayBar
| LeaveBar
| NoDataBar
| Bar (height : Q) (color : colour).

Definition maxBarHeight : Q := 200.

Definition barOf (item : point) : bar :=
  match p_status item with
  | holiday => HolidayBar
  | leave => LeaveBar
  | working =>
      match p_productivity item with
      | None => NoDataBar
      | Some productivity =>
          let height := JS.Math_min (productivity / 120 * maxBarHeight) maxBarHeight in
          let color :=
            if Qle_bool 90 productivity then green
            else if Qle_bool 70 productivity then blue
            else yellow in
          Bar height color
      end
  end.

(** The width of a statistics gauge, in percent. *)
Definition gaugeWidth (p : Q) : Q := JS.Math_min p 100.

End Chart.

(* ================================================================== *)
(** ** What the properties are stated with *)
(* ================================================================== *)

(** A number of hours with at most two decimals. *)
Definition hundredths (q : Q) : Prop := exists z : Z, (q == z # 100)%Q.

(** The reading the specification gives of the format list: the formats
    are tried in order and the first that matches strictly is taken. *)
Fixpoint firstMatching (h : JS.Host) (fs : list (list Moment.token)) (s : string)
    : option Moment.units :=
  match fs with
  | [] => None
  | f :: fs' =>
      let t := Moment.configFromStringAndFormat h true f s in
      if Moment.a_valid t then Some (Moment.a_units t) else firstMatching h fs' s
  end.

(** The reading the specification gives of strict matching: the tokens of
    the format match one after the other from the first character on, and
    [matchesFrom] returns what is left of the text. *)
Fixpoint matchesFrom (f : list Moment.token) (s : list ascii) : option (list ascii) :=
  match f with
  | [] => Some s
  | t :: f' =>
      match Moment.matchHere (Moment.getParseRegexForToken t true) s with
      | Some m => matchesFrom f' (skipn (List.length m) s)
      | None => None
      end
  end.

(** The two states of the search over the formats: a valid attempt of
    score 0 is the best, or no valid attempt was met yet. *)
Definition settled (b : Moment.best) (t : Moment.attempt) : Prop :=
  Moment.bestFormatIsValid b = true /\ Moment.bestMoment b = Some t
  /\ Moment.scoreToBeat b = Some 0%nat.

Definition unsettled (b : Moment.best) : Prop :=
  Moment.bestFormatIsValid b = false
  /\ forall t, Moment.bestMoment b = Some t -> Moment.a_valid t = false.

(** A record without the employee key it is given once stored. *)
Definition unassigned (r : attendance) : attendance :=
  {| employeeName := employeeName r; date := date r; inTime := inTime r;
     outTime := outTime r; workedHours := workedHours r; isLeave := isLeave r;
     isHoliday := isHoliday r; dayOfWeek := dayOfWeek r; monthYear := monthYear r;
     expectedHours := expectedHours r; status := status r; employeeId := None |}.

(** A canonical record is one the record builder makes from some row. *)
Definition canonical (r : attendance) : Prop :=
  exists h monthYear rowNumber row,
    Upload.processRow h monthYear rowNumber row = Some (unassigned r).

(** What the specification asks of the monthly statistic [st] of the
    records [recs] of one employee and one month, the productivity being
    rounded to two decimals. *)
Definition monthStatisticOf (recs : list attendance) (st : statistic) : Prop :=
  (totalExpectedHours st == sumOf expectedHours recs)%Q
  /\ (totalWorkedHours st == sumOf workedHours recs)%Q
  /\ leavesTaken st
     = List.length (filter (fun r => Status_eqb (status r) Leave) recs)
  /\ ((0 < sumOf expectedHours recs)%Q ->
      (productivity st
       == JS.toFixed 2 (sumOf workedHours recs / sumOf expectedHours recs * 100))%Q)
  /\ ((sumOf expectedHours recs == 0)%Q -> (productivity st == 0)%Q)
  /\ Permutation (dailyBreakdown st) (map dayEntryOf recs)
  /\ StronglySorted (fun a b => b_date a <= b_date b) (dailyBreakdown st).

(** The records of employee [n] in month [my], as stored. *)
Definition recordsOf (db : store) (my n : string) : list attendance :=
  filter (fun r => hasMonthYear my r && String.eqb (employeeName r) n) (Attendance db).

(** The payload of a failure. *)
Definition payloadOf {A : Type} (r : response A) : list (string * pval) :=
  match r with
  | Fail _ payload => payload
  | Done _ => []
  end.

(** A payload that tells how many rows were seen and how many accepted. *)
Definition carriesCounts (payload : list (string * pval)) (seen accepted : Z) : Prop :=
  exists k1 k2, In (k1, PNum seen) payload /\ In (k2, PNum accepted) payload.

(** The state of the scan of a year after the months [l]. *)
Definition scanOf (l : list Routes.monthProductivity) : Routes.scan :=
  fold_left Routes.scanMonth l Routes.scanStart.

Definition employeesOfYear (r : response Routes.yearly) : list Routes.employeeSummary :=
  match r with
  | Done a => Routes.ya_employees a
  | Fail _ _ => []
  end.

(* ================================================================== *)
(** ** Sample host and inputs *)
(* ================================================================== *)

(** A host five and a half hours ahead of UTC, its clock at
    2024-03-04T07:30Z; integers print in decimal. *)
Definition ist : JS.Host :=
  {| JS.LocalTZA := fun _ _ => 19800000;
     JS.now := 1709537400000;
     JS.NumberToString := fun q => JS.intToString (Qfloor q) |}.

Definition noDocuments : store := {| Attendance := []; Employee := [] |}.

(** The stores that uploads can build, starting with no documents. *)
Inductive reachable : store -> Prop :=
| reach_empty : reachable noDocuments
| reach_upload (h : JS.Host) (req : Upload.request) (db : store) :
    reachable db -> reachable (snd (Upload.uploadAttendance h req db)).

Definition mkRow (n : string) (d i o : cell) : Upload.row :=
  {| Upload.cell1 := n; Upload.cell2 := d; Upload.cell3 := i; Upload.cell4 := o |}.

Definition header : nat * Upload.row :=
  (1%nat, mkRow "Name" (CString "Date") (CString "In") (CString "Out")).

Definition march2024 (rows : list (nat * Upload.row)) : Upload.request :=
  {| Upload.file := Some rows; Upload.month := Some "3"%string;
     Upload.year := Some "2024"%string; Upload.override := None |}.

(** A Date in the year 50, at local midnight of the tenth of March. *)
Definition year50 : Z := JS.MakeDate (JS.MakeDay 50 2 10) 0 - 19800000.

(** A Sunday row with punches, and its record. *)
Definition sundayRow : Upload.row :=
  mkRow "Asha" (CString "03/03/2024") (CString "09:00") (CString "10:00").

Definition sundayRecord : attendance :=
  {| employeeName := "Asha"; date := 1709424000000;
     inTime := CString "09:00"; outTime := CString "10:00";
     workedHours := 0; isLeave := false; isHoliday := true;
     dayOfWeek := "Sunday"; monthYear := "2024-03"; expectedHours := 0;
     status := Holiday; employeeId := None |}.

(** A Saturday row with punches, and its record. *)
Definition saturdayRow : Upload.row :=
  mkRow "Asha" (CString "2024-03-02") (CString "09:00") (CString "13:00").

Definition saturdayRecord : attendance :=
  {| employeeName := "Asha"; date := 1709337600000;
     inTime := CString "09:00"; outTime := CString "13:00";
     workedHours := 4.00; isLeave := false; isHoliday := false;
     dayOfWeek := "Saturday"; monthYear := "2024-03"; expectedHours := 4;
     status := Present; employeeId := None |}.

(** A row whose date is in none of the four formats. *)
Definition dottedRow : Upload.row :=
  mkRow "Asha" (CString "04.03.2024") (CString "09:00") (CString "17:30").

(** One employee, one Monday, one hour worked out of eight and a half. *)
Definition oneHourSheet : list (nat * Upload.row) :=
  [header; (2%nat, mkRow "Asha" (CString "2024-03-04") (CString "09:00") (CString "10:00"))].

Definition oneHourStore : store :=
  snd (Upload.uploadAttendance ist (march2024 oneHourSheet) noDocuments).

Definition oneHourStatistic : statistic :=
  {| s_employeeName := "Asha";
     totalExpectedHours := 8.50;
     totalWorkedHours := 1.00;
     leavesTaken := 0;
     leavesAllowed := 2;
     productivity := 11.76;
     dailyBreakdown :=
       [{| b_date := 1709510400000; b_day := "Monday"; b_workedHours := 1.00;
           b_isLeave := false; b_isHoliday := false; b_expectedHours := 8.5;
           b_inTime := CString "09:00"; b_outTime := CString "10:00";
           b_status := Present |}] |}.

Definition oneHourAnswer : Routes.monthly :=
  {| Routes.m_monthYear := "2024-03";
     Routes.m_statistics := [oneHourStatistic];
     Routes.m_totalRecords := 1;
     Routes.m_totalEmployees := 1;
     Routes.m_month := Some 3;
     Routes.m_year := Some 2024 |}.

(** One employee, one Monday, eight and a half hours worked out of eight
    and a half. *)
Definition fullDaySheet : list (nat * Upload.row) :=
  [header; (2%nat, mkRow "Asha" (CString "2024-03-04") (CString "09:00") (CString "17:30"))].

Definition fullDayStore : store :=
  snd (Upload.uploadAttendance ist (march2024 fullDaySheet) noDocuments).

Definition fullDayYear : list Routes.employeeSummary :=
  employeesOfYear (Routes.yearAggregated ist fullDayStore 2024).

(** Forty rows of one employee, stored under 2024-03. *)
Definition fortyRows : list (nat * Upload.row) :=
  header :: map (fun i => ((2 + i)%nat,
                           mkRow "Asha" (CString "2024-03-04") (CString "09:00")
                                 (CString "17:30")))
                (seq 0 40).

Definition fortyStore : store :=
  snd (Upload.uploadAttendance ist (march2024 fortyRows) noDocuments).

(** A sheet with no row that can be accepted: a date in no known format,
    and a row without a name. *)
Definition badSheet : list (nat * Upload.row) :=
  [header; (2%nat, dottedRow); (3%nat, mkRow "" (CString "2024-03-04") CNull CNull)].

(* ================================================================== *)
(** ** What the further properties are stated with *)
(* ================================================================== *)

(** The records an upload builds from the rows of its worksheet. *)
Definition batchOf (h : JS.Host) (req : Upload.request) : list attendance :=
  match Upload.file req with
  | Some worksheet => Upload.eachRow h (Upload.monthYearOf req) worksheet
  | None => []
  end.

(** The documents stored under another label than [my]. *)
Definition otherMonths (my : string) (l : list attendance) : list attendance :=
  filter (fun a => negb (hasMonthYear my a)) l.

(** What the fields of a record have to do with each other. *)
Definition wellFormed (r : attendance) : Prop :=
  employeeName r <> ""%string
  /\ JS.TimeWithinDay (date r) = 0
  /\ dayOfWeek r = Moment.format_dddd (date r)
  /\ expectedHours r = Helpers.getExpectedHours (dayOfWeek r)
  /\ (isHoliday r = true <-> JS.WeekDay (date r) = 0)
  /\ (status r = Holiday <-> isHoliday r = true)
  /\ (status r = Leave <-> isLeave r = true)
  /\ (status r = Present <-> (0 < workedHours r)%Q)
  /\ (status r <> Present -> (workedHours r == 0)%Q).

(** The employee document a record refers to. *)
Definition refersTo (emps : list employee) (r : attendance) : Prop :=
  exists e, In e emps /\ employeeId r = Some (_id e) /\ name e = employeeName r.

(** The key of the employee groups, and the documents of one employee and
    of one month of the year among [docs]. *)
Definition employeeKey (a : attendance) : option nat * string :=
  (employeeId a, employeeName a).

Definition ofEmployee (k : option nat * string) (docs : list attendance)
    : list attendance :=
  filter (fun a => Routes.employeeKeyEqb (employeeKey a) k) docs.

Definition ofMonth (m : Z) (docs : list attendance) : list attendance :=
  filter (fun a => JS.MonthFromTime (date a) + 1 =? m) docs.

(** The documents a query for [year] matches. *)
Definition inYear (year : Z) (db : store) : list attendance :=
  filter (Routes.inRange (Routes.newYear year) (Routes.newYear (year + 1)))
    (Attendance db).

(** The documents a workforce query for [year] and [month] matches, and
    the documents of one UTC day among [docs]. *)
Definition inMonthWindow (h : JS.Host) (year month : Z) (db : store) : list attendance :=
  filter (Routes.inRange (JS.Date_local h year (month - 1) 1)
                         (JS.Date_local h year month 1))
    (Attendance db).

Definition onDay (d : Z) (docs : list attendance) : list attendance :=
  filter (fun a => JS.Day (date a) =? d) docs.

(** The documents the year comparison matches, and the documents dated in
    one UTC year among [docs]. *)
Definition comparedDocs (h : JS.Host) (db : store) : list attendance :=
  filter (Routes.inRange (fst (Routes.comparedRange h)) (snd (Routes.comparedRange h)))
    (Attendance db).

Definition ofYear (y : Z) (docs : list attendance) : list attendance :=
  filter (fun a => JS.YearFromTime (date a) =? y) docs.

(** A statistic without its daily breakdown, as the previous-month query
    answers it, and the month before month [m] of year [y]. *)
Definition withoutDays (st : statistic) : statistic :=
  {| s_employeeName := s_employeeName st;
     totalExpectedHours := totalExpectedHours st;
     totalWorkedHours := totalWorkedHours st;
     leavesTaken := leavesTaken st;
     leavesAllowed := leavesAllowed st;
     productivity := productivity st;
     dailyBreakdown := [] |}.

Definition monthBefore (y m : Z) : Z * Z :=
  if m =? 1 then (y - 1, 12) else (y, m - 1).

(** What the upload of [oneHourSheet] answers. *)
Definition oneHourUploaded : Upload.uploaded :=
  {| Upload.message := "File uploaded successfully for 2024-03";
     Upload.u_summary :=
       {| Upload.totalRecords := 1; Upload.totalEmployees := 1;
          Upload.s_monthYear := "2024-03" |};
     Upload.statistics := [oneHourStatistic] |}.

(** A host five hours behind UTC, its clock at 2024-07-01T02:13:20Z;
    integers print in decimal. *)
Definition est : JS.Host :=
  {| JS.LocalTZA := fun _ _ => -18000000;
     JS.now := 1719800000000;
     JS.NumberToString := fun q => JS.intToString (Qfloor q) |}.


(* ================================================================== *)
(** ** Facts about the calendar arithmetic *)
(* ================================================================== *)

Module JSFacts.
Import JS.

Ltac split_leb :=
  repeat match goal with
         | |- context [?a <=? ?b] => destruct (Z.leb_spec a b)
         | |- context [?a <? ?b] => destruct (Z.ltb_spec a b)
         | |- context [?a =? ?b] => destruct (Z.eqb_spec a b)
         | |- context [?a >? ?b] => rewrite (Z.gtb_ltb a b)
         end.

(** [YearFromDay d] is the year that holds day [d]. *)
Lemma YearFromDay_spec (d : Z) :
  DayFromYear (YearFromDay d) <= d < DayFromYear (YearFromDay d + 1).
Proof.
  unfold YearFromDay, DayFromYear.
  split_leb; Z.div_mod_to_equations; lia.
Qed.

Lemma DayFromYear_succ (y : Z) :
  DayFromYear (y + 1) = DayFromYear y + DaysInYear y.
Proof.
  unfold DayFromYear, DaysInYear, isLeap.
  split_leb; cbn [andb orb negb]; Z.div_mod_to_equations; lia.
Qed.

Lemma DayFromYear_mono (a b : Z) : a <= b -> DayFromYear a <= DayFromYear b.
Proof.
  intros Hab. unfold DayFromYear. Z.div_mod_to_equations. lia.
Qed.

(** The year of a day is determined by the two bounds. *)
Lemma YearFromDay_unique (d y : Z) :
  DayFromYear y <= d < DayFromYear (y + 1) -> YearFromDay d = y.
Proof.
  intros [Hlo Hhi].
  pose proof (YearFromDay_spec d) as [Hlo' Hhi'].
  destruct (Z.lt_trichotomy (YearFromDay d) y) as [Hlt | [Heq | Hgt]]; auto.
  - pose proof (DayFromYear_mono (YearFromDay d + 1) y ltac:(lia)). lia.
  - pose proof (DayFromYear_mono (y + 1) (YearFromDay d) ltac:(lia)). lia.
Qed.

Lemma DayWithinYear_range (t : Z) :
  0 <= DayWithinYear t < DaysInYear (YearFromTime t).
Proof.
  unfold DayWithinYear, YearFromTime.
  pose proof (YearFromDay_spec (Day t)) as H.
  rewrite DayFromYear_succ in H. lia.
Qed.

Lemma monthOfDayWithinYear_range (leap dwy : Z) :
  0 <= monthOfDayWithinYear leap dwy <= 11.
Proof. unfold monthOfDayWithinYear. split_leb; lia. Qed.

Lemma MonthFromTime_range (t : Z) : 0 <= MonthFromTime t <= 11.
Proof. apply monthOfDayWithinYear_range. Qed.

(** The day number is rebuilt from the three calendar fields. *)
Lemma MakeDay_fields (t : Z) :
  MakeDay (YearFromTime t) (MonthFromTime t) (DateFromTime t) = Day t.
Proof.
  pose proof (MonthFromTime_range t) as Hm.
  unfold MakeDay.
  rewrite Z.div_small, Z.mod_small by lia.
  unfold DateFromTime, DayWithinYear, InLeapYear.
  rewrite Z.add_0_r. lia.
Qed.

(** [MakeDay] finds the first day of the month it is asked for. *)
Lemma MakeDay_finds (y m : Z) :
  0 <= m <= 11 ->
  let t := MakeDate (MakeDay y m 1) 0 in
  YearFromTime t = y /\ MonthFromTime t = m /\ DateFromTime t = 1.
Proof.
  intros Hm t.
  assert (Hday : Day t = MakeDay y m 1).
  { unfold t, MakeDate, Day. rewrite Z.add_0_r. apply Z.div_mul. discriminate. }
  assert (Hmk : MakeDay y m 1 = DayFromYear y + monthStart (if isLeap y then 1 else 0) m).
  { unfold MakeDay. rewrite Z.div_small, Z.mod_small by lia.
    rewrite Z.add_0_r. lia. }
  assert (Hy : YearFromTime t = y).
  { unfold YearFromTime. rewrite Hday, Hmk. apply YearFromDay_unique.
    rewrite DayFromYear_succ. unfold DaysInYear.
    assert (m = 0 \/ m = 1 \/ m = 2 \/ m = 3 \/ m = 4 \/ m = 5 \/ m = 6 \/ m = 7
            \/ m = 8 \/ m = 9 \/ m = 10 \/ m = 11) as Hc by lia.
    destruct (isLeap y); repeat (destruct Hc as [-> | Hc]; [simpl; lia|]);
      rewrite Hc; simpl; lia. }
  assert (Hdwy : DayWithinYear t = monthStart (if isLeap y then 1 else 0) m).
  { unfold DayWithinYear. rewrite Hy, Hday, Hmk. lia. }
  assert (Hmo : MonthFromTime t = m).
  { unfold MonthFromTime, InLeapYear. rewrite Hy, Hdwy.
    assert (m = 0 \/ m = 1 \/ m = 2 \/ m = 3 \/ m = 4 \/ m = 5 \/ m = 6 \/ m = 7
            \/ m = 8 \/ m = 9 \/ m = 10 \/ m = 11) as Hc by lia.
    destruct (isLeap y); repeat (destruct Hc as [-> | Hc]; [reflexivity|]);
      rewrite Hc; reflexivity. }
  repeat split; auto.
  unfold DateFromTime. rewrite Hmo, Hdwy. unfold InLeapYear. rewrite Hy. lia.
Qed.

Lemma Day_MakeDate (day : Z) : Day (MakeDate day (MakeTime 0 0 0 0)) = day.
Proof.
  unfold MakeDate, MakeTime, Day. simpl. rewrite Z.add_0_r.
  apply Z.div_mul. discriminate.
Qed.

Lemma TimeWithinDay_MakeDate (day : Z) :
  TimeWithinDay (MakeDate day (MakeTime 0 0 0 0)) = 0.
Proof.
  unfold MakeDate, MakeTime, TimeWithinDay. simpl. rewrite Z.add_0_r.
  apply Z.mod_mul. discriminate.
Qed.

Lemma TimeClip_Some (t d : Z) : TimeClip t = Some d -> d = t /\ Z.abs t <= maxTime.
Proof.
  unfold TimeClip. rewrite Z.gtb_ltb.
  destruct (Z.ltb_spec maxTime (Z.abs t)); intros E; inversion E; lia.
Qed.

(** The calendar fields of a time value depend on its day number only. *)
Lemma fields_of_Day (t t' : Z) :
  Day t = Day t' ->
  YearFromTime t = YearFromTime t' /\ MonthFromTime t = MonthFromTime t'
  /\ DateFromTime t = DateFromTime t'.
Proof.
  intros E.
  assert (Hy : YearFromTime t = YearFromTime t') by (unfold YearFromTime; now rewrite E).
  assert (Hm : MonthFromTime t = MonthFromTime t').
  { unfold MonthFromTime, InLeapYear, DayWithinYear. now rewrite Hy, E. }
  repeat split; auto.
  unfold DateFromTime, InLeapYear, DayWithinYear. now rewrite Hm, Hy, E.
Qed.

Lemma MakeFullYear_id (y : Z) : ~ (0 <= y <= 99) -> MakeFullYear y = y.
Proof. intros Hy. unfold MakeFullYear. split_leb; cbn [andb]; lia. Qed.

Lemma Date_UTC_Some (y m dt d : Z) :
  Date_UTC y m dt = Some d ->
  d = MakeDate (MakeDay (MakeFullYear y) m dt) (MakeTime 0 0 0 0).
Proof. unfold Date_UTC. intros H. apply TimeClip_Some in H. tauto. Qed.

(** What [Date.UTC] returns is a midnight, and its calendar fields are the
    ones it was given, as long as the year is not one of 0..99. *)
Lemma Date_UTC_fields (t d : Z) :
  ~ (0 <= YearFromTime t <= 99) ->
  Date_UTC (YearFromTime t) (MonthFromTime t) (DateFromTime t) = Some d ->
  YearFromTime d = YearFromTime t /\ MonthFromTime d = MonthFromTime t
  /\ DateFromTime d = DateFromTime t /\ TimeWithinDay d = 0.
Proof.
  intros Hy H. apply Date_UTC_Some in H.
  rewrite MakeFullYear_id in H by exact Hy.
  rewrite MakeDay_fields in H. rewrite H.
  destruct (fields_of_Day _ _ (Day_MakeDate (Day t))) as (Ey & Em & Ed).
  split; [exact Ey | split; [exact Em | split; [exact Ed |]]].
  apply TimeWithinDay_MakeDate.
Qed.

End JSFacts.
(* ================================================================== *)
(** ** Facts about rounding *)
(* ================================================================== *)

Module QFacts.
Import JS.
Local Open Scope Q_scope.

Lemma Qfloor_half (z : Z) : Qfloor (inject_Z z + (1 # 2)) = z.
Proof.
  unfold Qfloor, Qplus, inject_Z. simpl.
  Z.div_mod_to_equations. lia.
Qed.

Lemma roundHalfAway_Z (z : Z) : roundHalfAway (inject_Z z) = z.
Proof.
  unfold roundHalfAway.
  destruct (Qle_bool 0 (inject_Z z)) eqn:E.
  - apply Qfloor_half.
  - change (- inject_Z z) with (inject_Z (- z)).
    rewrite Qfloor_half. lia.
Qed.

#[export] Instance roundHalfAway_comp : Proper (Qeq ==> eq) roundHalfAway.
Proof.
  intros x y E. unfold roundHalfAway. rewrite E.
  destruct (Qle_bool 0 y); now rewrite E.
Qed.

#[export] Instance toFixed_comp (n : nat) : Proper (Qeq ==> Qeq) (toFixed n).
Proof. intros x y E. unfold toFixed. now rewrite E. Qed.

Lemma roundHalfAway_nonneg (q : Q) : 0 <= q -> (0 <= roundHalfAway q)%Z.
Proof.
  intros H. unfold roundHalfAway.
  apply Qle_bool_iff in H as H'. rewrite H'.
  change 0%Z with (Qfloor 0). apply Qfloor_resp_le. lra.
Qed.

Lemma roundHalfAway_nonpos (q : Q) : q <= 0 -> (roundHalfAway q <= 0)%Z.
Proof.
  intros H. unfold roundHalfAway.
  destruct (Qle_bool 0 q) eqn:E.
  - apply Qle_bool_iff in E.
    assert (Hq : q == 0) by lra.
    rewrite Hq. reflexivity.
  - assert (0 <= Qfloor (- q + (1 # 2)))%Z; [|lia].
    change 0%Z with (Qfloor 0). apply Qfloor_resp_le. lra.
Qed.

Lemma pow10_pos (n : nat) : 0 < inject_Z (10 ^ Z.of_nat n).
Proof.
  change 0 with (inject_Z 0). rewrite <- Zlt_Qlt.
  apply Z.pow_pos_nonneg; lia.
Qed.

Lemma toFixed_nonneg (n : nat) (q : Q) : 0 <= q -> 0 <= toFixed n q.
Proof.
  intros H. unfold toFixed.
  pose proof (pow10_pos n) as Hp.
  apply Qle_shift_div_l; [exact Hp|].
  rewrite Qmult_0_l. change 0 with (inject_Z 0). rewrite <- Zle_Qle.
  apply roundHalfAway_nonneg.
  apply Qmult_le_0_compat; lra.
Qed.

Lemma toFixed_nonpos (n : nat) (q : Q) : q <= 0 -> toFixed n q <= 0.
Proof.
  intros H. unfold toFixed.
  pose proof (pow10_pos n) as Hp.
  apply Qle_shift_div_r; [exact Hp|].
  rewrite Qmult_0_l. change 0 with (inject_Z 0). rewrite <- Zle_Qle.
  apply roundHalfAway_nonpos.
  assert (0 <= (- q) * inject_Z (10 ^ Z.of_nat n)) by (apply Qmult_le_0_compat; lra).
  lra.
Qed.

Lemma hundredths_0 : hundredths 0.
Proof. exists 0%Z. reflexivity. Qed.

Lemma hundredths_plus (a b : Q) : hundredths a -> hundredths b -> hundredths (a + b).
Proof.
  intros [x Hx] [y Hy]. exists (x + y)%Z. rewrite Hx, Hy.
  unfold Qeq, Qplus. simpl. lia.
Qed.

Lemma hundredths_toFixed (q : Q) : hundredths (toFixed 2 q).
Proof.
  exists (roundHalfAway (q * inject_Z (10 ^ Z.of_nat 2))).
  unfold toFixed. generalize (roundHalfAway (q * inject_Z (10 ^ Z.of_nat 2))).
  intros z. unfold Qeq, Qdiv, Qmult, Qinv, inject_Z. simpl. lia.
Qed.

Lemma toFixed_hundredths (q : Q) : hundredths q -> toFixed 2 q == q.
Proof.
  intros [z Hz]. rewrite Hz. unfold toFixed.
  assert (E : (z # 100) * inject_Z (10 ^ Z.of_nat 2) == inject_Z z).
  { unfold Qeq, Qmult, inject_Z. simpl. lia. }
  rewrite E, roundHalfAway_Z.
  unfold Qeq, Qdiv, Qmult, Qinv, inject_Z. simpl. lia.
Qed.

Lemma Math_max_0 (q : Q) :
  (q <= 0 -> Math_max 0 q == 0) /\ (0 <= q -> Math_max 0 q = q).
Proof.
  unfold Math_max. split; intros H.
  - destruct (Qle_bool 0 q) eqn:E; [|reflexivity].
    apply Qle_bool_iff in E. lra.
  - apply Qle_bool_iff in H. now rewrite H.
Qed.

Lemma Math_max_0_nonneg (q : Q) : 0 <= Math_max 0 q.
Proof.
  unfold Math_max. destruct (Qle_bool 0 q) eqn:E.
  - now apply Qle_bool_iff.
  - lra.
Qed.

End QFacts.

(* ================================================================== *)
(** ** The hours calculator *)
(* ================================================================== *)

Module HelpersFacts.
Import JS QFacts.
Local Open Scope Q_scope.

Lemma diffHours_sign (a b : Z) :
  ((b < a)%Z -> Moment.diffHours b a <= 0) /\ ((a <= b)%Z -> 0 <= Moment.diffHours b a).
Proof.
  unfold Moment.diffHours, Qdiv, Qmult, Qinv, Qle, inject_Z. simpl. split; lia.
Qed.


(** Worked hours always have at most two decimals. *)
Lemma calculateWorkedHours_hundredths (h : Host) (inTime outTime : cell) :
  hundredths (Helpers.calculateWorkedHours h inTime outTime).
Proof.
  unfold Helpers.calculateWorkedHours.
  destruct (negb (truthy inTime) || negb (truthy outTime)); [apply hundredths_0|].
  destruct (Moment.momentTime h inTime); [|apply hundredths_0].
  destruct (Moment.momentTime h outTime); [|apply hundredths_0].
  unfold Math_max. destruct (Qle_bool 0 _); [apply hundredths_toFixed | apply hundredths_0].
Qed.

Lemma getExpectedHours_cases (d : string) :
  Helpers.getExpectedHours d = 8.5 \/ Helpers.getExpectedHours d = 4
  \/ Helpers.getExpectedHours d = 0.
Proof.
  unfold Helpers.getExpectedHours, Helpers.workdayHours, Helpers.lookup.
  repeat (match goal with |- context [String.eqb ?a ?b] => destruct (String.eqb a b) end;
          [simpl; auto|]).
  auto.
Qed.

Lemma getExpectedHours_hundredths (d : string) :
  hundredths (Helpers.getExpectedHours d).
Proof.
  destruct (getExpectedHours_cases d) as [E | [E | E]]; rewrite E.
  - exists 850%Z. reflexivity.
  - exists 400%Z. reflexivity.
  - apply hundredths_0.
Qed.

Example scenario_A_hours :
  Helpers.calculateWorkedHours ist (CString "09:00") (CString "17:30") == 8.5.
Proof. vm_compute. reflexivity. Qed.

End HelpersFacts.


(* ================================================================== *)
(** ** The record builder *)
(* ================================================================== *)

Module UploadFacts.
Import JS JSFacts QFacts HelpersFacts.

(** *** Dates *)

(** A Date cell whose local day can be told (the local year is not one of
    0..99) is normalised to the UTC midnight of that local day. *)
Lemma parseDate_keeps_local_date (h : Host) (t d : Z) :
  ~ (0 <= getFullYear h t <= 99) ->
  Upload.parseDate h (CDate (Some t)) = Some d ->
  YearFromTime d = getFullYear h t /\ MonthFromTime d = getMonth h t
  /\ DateFromTime d = getDate h t /\ TimeWithinDay d = 0.
Proof.
  unfold getFullYear, getMonth, getDate. cbn [Upload.parseDate].
  apply Date_UTC_fields.
Qed.

(** Such a cell is normalised whenever its local day is within the range of
    time values. *)
Lemma parseDate_succeeds (h : Host) (t : Z) :
  ~ (0 <= getFullYear h t <= 99) ->
  Z.abs (Day (LocalTime h t) * msPerDay) <= maxTime ->
  Upload.parseDate h (CDate (Some t)) = Some (Day (LocalTime h t) * msPerDay).
Proof.
  intros Hy Hr. cbn [Upload.parseDate].
  unfold getFullYear, getMonth, getDate, Date_UTC.
  rewrite MakeFullYear_id by exact Hy.
  rewrite MakeDay_fields.
  unfold MakeDate, MakeTime, TimeClip. cbn [Z.mul Z.add].
  rewrite Z.add_0_r, Z.gtb_ltb.
  destruct (Z.ltb_spec maxTime (Z.abs (Day (LocalTime h t) * msPerDay))); [lia | reflexivity].
Qed.

(** The time-zone case: 2024-03-04 00:00 local is 2024-03-03 18:30 UTC, and
    is stored as 2024-03-04 00:00 UTC. *)
Example parseDate_local_midnight :
  YearFromTime 1709490600000 = 2024 /\ MonthFromTime 1709490600000 = 2
  /\ DateFromTime 1709490600000 = 3
  /\ Upload.parseDate ist (CDate (Some 1709490600000)) = Some 1709510400000
  /\ YearFromTime 1709510400000 = 2024 /\ MonthFromTime 1709510400000 = 2
  /\ DateFromTime 1709510400000 = 4.
Proof. vm_compute. repeat split; reflexivity. Qed.

(** C6. At a Date whose local year is 50 the normalised day is in 1950: the
    year is not kept. *)
Theorem parseDate_two_digit_year :
  getFullYear ist year50 = 50 /\ getMonth ist year50 = 2 /\ getDate ist year50 = 10
  /\ exists d, Upload.parseDate ist (CDate (Some year50)) = Some d
               /\ YearFromTime d = 1950 /\ MonthFromTime d = 2 /\ DateFromTime d = 10.
Proof.
  split; [vm_compute; reflexivity|].
  split; [vm_compute; reflexivity|].
  split; [vm_compute; reflexivity|].
  exists (MakeDate (MakeDay 1950 2 10) 0).
  vm_compute. repeat split.
Qed.

(** Scenario E: the serial 45000 is 2023-03-15 on every host. *)
Lemma serial_45000 (h : Host) :
  Upload.parseDate h (CNumber 45000) = Some (MakeDate (MakeDay 2023 2 15) 0).
Proof. reflexivity. Qed.

(** *** Classification *)

(** Scenario A: a Monday from 09:00 to 17:30. *)
Example scenario_A :
  option_map (fun a => (dayOfWeek a, status a, expectedHours a, workedHours a))
    (Upload.processRow ist "2024-03" 2
       (mkRow "Asha" (CString "2024-03-04") (CString "09:00") (CString "17:30")))
  = Some ("Monday"%string, Present, 8.5%Q, 8.50%Q).
Proof. vm_compute. reflexivity. Qed.

(** Scenario B: a Sunday without punches. *)
Example scenario_B :
  option_map (fun a => (dayOfWeek a, status a, expectedHours a, isLeave a))
    (Upload.processRow ist "2024-03" 2 (mkRow "Asha" (CString "2024-03-03") CNull CNull))
  = Some ("Sunday"%string, Holiday, 0%Q, false).
Proof. vm_compute. reflexivity. Qed.

(** Scenario C: a Wednesday without punches. *)
Example scenario_C :
  option_map (fun a => (dayOfWeek a, status a, expectedHours a, isLeave a))
    (Upload.processRow ist "2024-03" 2 (mkRow "Asha" (CString "2024-03-06") CNull CNull))
  = Some ("Wednesday"%string, Leave, 8.5%Q, true).
Proof. vm_compute. reflexivity. Qed.

Lemma format_dddd_cases (t : Z) :
  In (Moment.format_dddd t) Moment.weekdays.
Proof.
  unfold Moment.format_dddd, WeekDay.
  pose proof (Z.mod_pos_bound (Day t + 4) 7 ltac:(lia)) as Hb.
  assert (Hc : (Z.to_nat ((Day t + 4) mod 7) < 7)%nat) by lia.
  destruct (Z.to_nat ((Day t + 4) mod 7)) as [|[|[|[|[|[|[|n]]]]]]]; simpl; auto 10.
  lia.
Qed.

Lemma format_dddd_Sunday (t : Z) :
  Moment.format_dddd t = "Sunday"%string <-> WeekDay t = 0.
Proof.
  unfold Moment.format_dddd, WeekDay.
  pose proof (Z.mod_pos_bound (Day t + 4) 7 ltac:(lia)) as Hb.
  set (w := (Day t + 4) mod 7) in *.
  assert (Hc : w = 0 \/ w = 1 \/ w = 2 \/ w = 3 \/ w = 4 \/ w = 5 \/ w = 6) by lia.
  repeat (destruct Hc as [-> | Hc]; [simpl; split; intros E; (reflexivity || discriminate)|]).
  rewrite Hc. simpl; split; intros E; (reflexivity || discriminate).
Qed.

(** The branch that would assign [Weekend] asks for a Sunday that is not a
    holiday. *)
Lemma weekend_branch_unreachable (dayOfWeek : string) :
  let isWeekend := (String.eqb dayOfWeek "Saturday" || String.eqb dayOfWeek "Sunday")%bool in
  let isHoliday := String.eqb dayOfWeek "Sunday" in
  negb isHoliday && (isWeekend && String.eqb dayOfWeek "Sunday") = false.
Proof.
  simpl. destruct (String.eqb dayOfWeek "Sunday"); simpl.
  - reflexivity.
  - now rewrite andb_false_r.
Qed.

Lemma classify_status (h : Host) (d : string) (i o : cell) :
  let '(s, l, w) := Upload.classify h d i o in
  (s = Present \/ s = Leave \/ s = Holiday)
  /\ (l = true <-> s = Leave)
  /\ (String.eqb d "Sunday" = true -> s = Holiday /\ w = 0%Q)
  /\ (s = Holiday -> String.eqb d "Sunday" = true)
  /\ hundredths w.
Proof.
  unfold Upload.classify.
  destruct (String.eqb d "Sunday") eqn:E.
  - repeat split; auto; try discriminate. apply hundredths_0.
  - rewrite andb_false_r.
    destruct (negb (truthy i) || negb (truthy o)).
    + repeat split; auto; try discriminate. apply hundredths_0.
    + destruct (Qeq_bool (Helpers.calculateWorkedHours h i o) 0);
        repeat split; auto; try discriminate;
        apply calculateWorkedHours_hundredths.
Qed.

(** What [processRow] returns, field by field. *)
Lemma processRow_Some (h : Host) (my : string) (n : nat) (r : Upload.row) (a : attendance) :
  Upload.processRow h my n r = Some a ->
  exists parsedDate,
    Upload.parseDate h (Upload.cell2 r) = Some parsedDate
    /\ a = let dayOfWeek := Moment.format_dddd parsedDate in
           let '(status, isLeave, workedHours) :=
             Upload.classify h dayOfWeek (Upload.cell3 r) (Upload.cell4 r) in
           {| employeeName := Upload.cell1 r; date := parsedDate;
              inTime := orNull (Upload.cell3 r); outTime := orNull (Upload.cell4 r);
              workedHours := workedHours; isLeave := isLeave;
              isHoliday := String.eqb dayOfWeek "Sunday";
              dayOfWeek := dayOfWeek; monthYear := my;
              expectedHours := Helpers.getExpectedHours dayOfWeek;
              status := status; employeeId := None |}.
Proof.
  unfold Upload.processRow.
  destruct (n =? 1)%nat; [discriminate|].
  destruct (String.eqb (Upload.cell1 r) "" || negb (truthy (Upload.cell2 r))); [discriminate|].
  destruct (Upload.parseDate h (Upload.cell2 r)) as [d|]; [|discriminate].
  intros E. exists d. split; [reflexivity|].
  destruct (Upload.classify h (Moment.format_dddd d) (Upload.cell3 r) (Upload.cell4 r))
    as [[s l] w].
  now inversion E.
Qed.

(** C2. A row whose normalised day is a Sunday is stored as a holiday with
    no expected and no worked hours, whatever its punches are. *)
Theorem sunday_is_holiday (h : Host) (monthYear : string) (rowNumber : nat)
    (r : Upload.row) (a : attendance) :
  Upload.processRow h monthYear rowNumber r = Some a ->
  WeekDay (date a) = 0 ->
  status a = Holiday /\ expectedHours a = 0%Q /\ workedHours a = 0%Q
  /\ isHoliday a = true /\ isLeave a = false.
Proof.
  intros E Hsun. apply processRow_Some in E as (d & _ & ->).
  cbn zeta in *.
  destruct (Upload.classify h (Moment.format_dddd d) (Upload.cell3 r) (Upload.cell4 r))
    as [[s l] w] eqn:Ec.
  cbn [date] in Hsun. apply format_dddd_Sunday in Hsun.
  unfold Upload.classify in Ec. rewrite Hsun in Ec. cbn in Ec. inversion Ec; subst.
  cbn [status expectedHours workedHours isHoliday isLeave]. rewrite Hsun.
  repeat split.
Qed.

(** The three statuses a record can have. *)
Lemma processRow_status (h : Host) (monthYear : string) (rowNumber : nat)
    (r : Upload.row) (a : attendance) :
  Upload.processRow h monthYear rowNumber r = Some a ->
  status a = Present \/ status a = Leave \/ status a = Holiday.
Proof.
  intros E. apply processRow_Some in E as (d & _ & ->).
  cbn zeta.
  pose proof (classify_status h (Moment.format_dddd d) (Upload.cell3 r) (Upload.cell4 r)) as Hc.
  destruct (Upload.classify h (Moment.format_dddd d) (Upload.cell3 r) (Upload.cell4 r))
    as [[s l] w].
  destruct Hc as (Hs & _). exact Hs.
Qed.

(** C10. A record built from a row is [Present], [Leave] or [Holiday], never
    [Weekend]: the branch assigning [Weekend] cannot be taken. *)
Theorem status_never_weekend (h : Host) (monthYear : string) (rowNumber : nat)
    (r : Upload.row) (a : attendance) :
  Upload.processRow h monthYear rowNumber r = Some a ->
  (status a = Present \/ status a = Leave \/ status a = Holiday)
  /\ status a <> Weekend
  /\ (negb (String.eqb (dayOfWeek a) "Sunday")
      && ((String.eqb (dayOfWeek a) "Saturday" || String.eqb (dayOfWeek a) "Sunday")
          && String.eqb (dayOfWeek a) "Sunday") = false).
Proof.
  intros E. pose proof (processRow_status _ _ _ _ _ E) as Hs.
  split; [exact Hs|]. split.
  - destruct Hs as [-> | [-> | ->]]; discriminate.
  - apply weekend_branch_unreachable.
Qed.

End UploadFacts.

Lemma sunday_is_holiday_witness :
  Upload.processRow ist "2024-03" 2 sundayRow = Some sundayRecord
  /\ JS.WeekDay (date sundayRecord) = 0
  /\ status sundayRecord = Holiday /\ expectedHours sundayRecord = 0%Q
  /\ workedHours sundayRecord = 0%Q
  /\ isHoliday sundayRecord = true /\ isLeave sundayRecord = false.
Proof.
  split; [vm_compute; reflexivity|].
  split; [vm_compute; reflexivity|].
  apply (UploadFacts.sunday_is_holiday ist "2024-03" 2 sundayRow sundayRecord);
    vm_compute; reflexivity.
Defined.

Lemma status_never_weekend_witness :
  Upload.processRow ist "2024-03" 2 saturdayRow = Some saturdayRecord
  /\ status saturdayRecord <> Weekend.
Proof.
  split; [vm_compute; reflexivity|].
  apply (UploadFacts.status_never_weekend ist "2024-03" 2 saturdayRow saturdayRecord).
  vm_compute; reflexivity.
Defined.

(* ================================================================== *)
(** ** Strict parsing with a list of formats *)
(* ================================================================== *)

Module MomentFacts.
Import Moment.

(** A strict attempt that is valid has used every token and every
    character, so its score is 0. *)
Lemma strict_valid_score (h : JS.Host) (f : list token) (s : string) :
  a_valid (configFromStringAndFormat h true f s) = true ->
  a_score (configFromStringAndFormat h true f s) = 0%nat.
Proof.
  unfold configFromStringAndFormat. cbn [a_valid a_score negb orb].
  intros H.
  apply andb_true_iff in H as [_ H].
  apply andb_true_iff in H as [H1 H2].
  apply Nat.eqb_eq in H1. apply Nat.eqb_eq in H2.
  now rewrite H1, H2.
Qed.

(** Once a valid attempt of score 0 is the best, none replaces it. *)
Lemma settled_stays (ts : list attempt) (b : best) (t : attempt) :
  settled b t -> bestMoment (fold_left considerAttempt ts b) = Some t.
Proof.
  revert b. induction ts as [|x ts IH]; intros b (Hv & Hb & Hs); [exact Hb|].
  cbn [fold_left]. apply IH.
  unfold considerAttempt. rewrite Hv, Hs. cbn [negb beats].
  replace (a_score x <? 0)%nat with false by (symmetry; apply Nat.ltb_ge; lia).
  repeat split; assumption.
Qed.

(** Until then the best is an attempt that is not valid, and the first
    valid attempt becomes the best. *)
Lemma unsettled_fold (ts : list attempt) (b : best) :
  (forall t, In t ts -> a_valid t = true -> a_score t = 0%nat) ->
  unsettled b ->
  match find a_valid ts with
  | Some t => bestMoment (fold_left considerAttempt ts b) = Some t
  | None => forall t, bestMoment (fold_left considerAttempt ts b) = Some t ->
                      a_valid t = false
  end.
Proof.
  revert b. induction ts as [|x ts IH]; intros b Hsc (Hv & Hb).
  - exact Hb.
  - cbn [find fold_left].
    destruct (a_valid x) eqn:Ex.
    + apply settled_stays.
      unfold considerAttempt. rewrite Hv, Ex. cbn [negb].
      rewrite !orb_true_r. unfold settled.
      cbn [bestFormatIsValid bestMoment scoreToBeat].
      repeat split. f_equal. apply Hsc; [now left | exact Ex].
    + apply IH; [intros t Ht; apply Hsc; now right|].
      unfold considerAttempt. rewrite Hv, Ex. cbn [negb]. rewrite orb_false_r.
      destruct (_ || _).
      * split; [reflexivity|]. cbn [bestMoment]. intros t E. now inversion E; subst.
      * split; assumption.
Qed.

Lemma find_firstMatching (h : JS.Host) (fs : list (list token)) (s : string) :
  option_map a_units
    (find a_valid (map (fun f => configFromStringAndFormat h true f s) fs))
  = firstMatching h fs s.
Proof.
  induction fs as [|f fs IH]; [reflexivity|].
  cbn [map find firstMatching].
  destruct (a_valid (configFromStringAndFormat h true f s)); [reflexivity | exact IH].
Qed.

(** The search over the formats returns a valid result exactly when some
    format matches, and then it is the first one. *)
Lemma configFromStringAndArray_first (h : JS.Host) (fs : list (list token)) (s : string) :
  match firstMatching h fs s with
  | Some u =>
      exists t, configFromStringAndArray h true fs s = Some t
                /\ a_valid t = true /\ a_units t = u
  | None =>
      forall t, configFromStringAndArray h true fs s = Some t -> a_valid t = false
  end.
Proof.
  rewrite <- find_firstMatching. unfold configFromStringAndArray.
  set (ts := map (fun f => configFromStringAndFormat h true f s) fs).
  assert (Hsc : forall t, In t ts -> a_valid t = true -> a_score t = 0%nat).
  { intros t Ht Hv. apply in_map_iff in Ht as (f & <- & _).
    now apply strict_valid_score. }
  assert (Hu : unsettled noBest) by (split; [reflexivity | discriminate]).
  pose proof (unsettled_fold ts noBest Hsc Hu) as H.
  destruct (find a_valid ts) as [t|] eqn:E; cbn [option_map].
  - exists t. split; [exact H|]. split; [|reflexivity].
    now apply find_some in E.
  - exact H.
Qed.

End MomentFacts.

(** *** Strict matching *)

Module StrictFacts.
Import Moment.

Lemma takeDigits_prefix (n : nat) (s : list ascii) :
  firstn (List.length (takeDigits n s)) s = takeDigits n s.
Proof.
  revert s. induction n as [|n IH]; intros [|c s]; try reflexivity.
  cbn [takeDigits]. destruct (isDigit c); [|reflexivity].
  cbn [List.length firstn]. now rewrite IH.
Qed.

(** A match at the head is a prefix of the text. *)
Lemma matchHere_prefix (r : regex) (s m : list ascii) :
  matchHere r s = Some m -> firstn (List.length m) s = m.
Proof.
  destruct r as [lo hi | c]; cbn [matchHere].
  - destruct (lo <=? List.length (takeDigits hi s))%nat; [|discriminate].
    intros E. inversion E; subst. apply takeDigits_prefix.
  - destruct s as [|c' s]; [discriminate|].
    destruct (Ascii.eqb_spec c c'); [|discriminate].
    intros E. inversion E; subst. reflexivity.
Qed.

Lemma matchHere_length (r : regex) (s m : list ascii) :
  matchHere r s = Some m ->
  (List.length m + List.length (skipn (List.length m) s) = List.length s)%nat.
Proof.
  intros E. apply matchHere_prefix in E.
  pose proof (f_equal (@List.length ascii) (firstn_skipn (List.length m) s)) as H.
  rewrite length_app, E in H. exact H.
Qed.

(** A search never returns more than the text holds, and when nothing is
    skipped the match is at the head. *)
Lemma search_length (r : regex) (s m rest : list ascii) :
  search r s = Some (m, rest) ->
  (List.length m + List.length rest <= List.length s)%nat
  /\ ((List.length m + List.length rest = List.length s)%nat ->
      matchHere r s = Some m /\ rest = skipn (List.length m) s).
Proof.
  revert m rest. induction s as [|c s IH]; intros m rest; cbn [search].
  - destruct (matchHere r []) as [m0|] eqn:E; [|discriminate].
    intros H. inversion H; subst. pose proof (matchHere_length _ _ _ E). split; [lia|auto].
  - destruct (matchHere r (c :: s)) as [m0|] eqn:E.
    + intros H. inversion H; subst. pose proof (matchHere_length _ _ _ E).
      split; [lia|auto].
    + intros H. destruct (IH _ _ H) as [Hle _]. cbn [List.length]. split; [lia|lia].
Qed.

(** Walking the tokens strictly: unused tokens only grow, characters are
    only lost, and when neither happens the tokens matched one after the
    other from the head of the text. *)
Lemma parseTokens_strict (f : list token) (st : parsing) :
  (unusedTokens st <= unusedTokens (fold_left (parseToken true) f st))%nat
  /\ (totalParsedInputLength (fold_left (parseToken true) f st)
      + List.length (rest (fold_left (parseToken true) f st))
      <= totalParsedInputLength st + List.length (rest st))%nat
  /\ (unusedTokens (fold_left (parseToken true) f st) = unusedTokens st ->
      (totalParsedInputLength (fold_left (parseToken true) f st)
       + List.length (rest (fold_left (parseToken true) f st))
       = totalParsedInputLength st + List.length (rest st))%nat ->
      matchesFrom f (rest st) = Some (rest (fold_left (parseToken true) f st))).
Proof.
  revert st. induction f as [|t f IH]; intros st; cbn [fold_left matchesFrom].
  - repeat split; auto.
  - destruct (IH (parseToken true st t)) as (Hu & Hl & Hm).
    unfold parseToken in *.
    destruct (search (getParseRegexForToken t true) (rest st)) as [[m rest']|] eqn:E;
      cbn [unusedTokens totalParsedInputLength rest] in *.
    + destruct (search_length _ _ _ _ E) as (Hle & Heq).
      split; [exact Hu|]. split; [lia|].
      intros Eu El.
      destruct (Heq ltac:(lia)) as (Ehere & ->).
      rewrite Ehere. apply Hm; [exact Eu | lia].
    + rewrite orb_true_r in *.
      split; [lia|]. split; [exact Hl|].
      intros Eu _. lia.
Qed.

(** A strict attempt that is valid has matched the format from the first
    character to the last. *)
Lemma strict_valid_matches (h : JS.Host) (f : list token) (s : string) :
  a_valid (configFromStringAndFormat h true f s) = true ->
  matchesFrom f (list_ascii_of_string s) = Some [].
Proof.
  unfold configFromStringAndFormat. cbn [a_valid negb orb].
  intros H.
  apply andb_true_iff in H as [_ H].
  apply andb_true_iff in H as [H1 H2].
  apply Nat.eqb_eq in H1. apply Nat.eqb_eq in H2.
  unfold charsLeftOver, parseTokens in *.
  set (st0 := {| rest := list_ascii_of_string s; totalParsedInputLength := 0;
                 unusedTokens := 0; empty := true; _a := noFields |}) in *.
  destruct (parseTokens_strict f st0) as (_ & Hl & Hm).
  cbn [st0 totalParsedInputLength rest unusedTokens] in Hl, Hm.
  assert (Hrest : rest (fold_left (parseToken true) f st0) = []).
  { apply length_zero_iff_nil. lia. }
  rewrite Hrest in Hm. apply Hm; [exact H2|]. rewrite Hrest in *. cbn [List.length] in *. lia.
Qed.

End StrictFacts.



(* ================================================================== *)
(** ** Facts about lists: sorting, sums *)
(* ================================================================== *)

Module ListFacts.
Import QFacts.

Section SortFacts.
Context {A : Type} (le : A -> A -> bool).
Hypothesis le_total : forall a b, le a b = true \/ le b a = true.
Hypothesis le_trans : forall a b c, le a b = true -> le b c = true -> le a c = true.

Lemma insertSorted_perm (x : A) (l : list A) :
  Permutation (insertSorted le x l) (x :: l).
Proof.
  induction l as [|y l IH]; cbn [insertSorted]; [reflexivity|].
  destruct (le x y); [reflexivity|].
  rewrite IH. apply perm_swap.
Qed.

Lemma sortBy_perm (l : list A) : Permutation (sortBy le l) l.
Proof.
  induction l as [|x l IH]; cbn [sortBy]; [reflexivity|].
  rewrite insertSorted_perm. now constructor.
Qed.

Lemma insertSorted_sorted (x : A) (l : list A) :
  StronglySorted (fun a b => le a b = true) l ->
  StronglySorted (fun a b => le a b = true) (insertSorted le x l).
Proof.
  induction 1 as [|y l Hs IH Hy]; cbn [insertSorted].
  - repeat constructor.
  - destruct (le x y) eqn:E.
    + constructor; [now constructor|].
      constructor; [exact E|].
      eapply Forall_impl; [|exact Hy]. intros b Hb. now apply le_trans with y.
    + constructor; [exact IH|].
      apply (Permutation_Forall (Permutation_sym (insertSorted_perm x l))).
      constructor; [|exact Hy].
      destruct (le_total x y) as [C | C]; [congruence | exact C].
Qed.

Lemma sortBy_sorted (l : list A) :
  StronglySorted (fun a b => le a b = true) (sortBy le l).
Proof.
  induction l as [|x l IH]; cbn [sortBy]; [constructor|].
  now apply insertSorted_sorted.
Qed.

End SortFacts.

Lemma StronglySorted_filter {A : Type} (R : A -> A -> Prop) (p : A -> bool) (l : list A) :
  StronglySorted R l -> StronglySorted R (filter p l).
Proof.
  induction 1 as [|x l Hs IH Hx]; cbn [filter]; [constructor|].
  destruct (p x); [|exact IH].
  constructor; [exact IH|].
  apply Forall_forall. intros y Hy. apply filter_In in Hy as [Hy _].
  now apply (proj1 (Forall_forall _ _) Hx).
Qed.

Lemma StronglySorted_weaken {A : Type} (R R' : A -> A -> Prop) (P : A -> Prop)
    (l : list A) :
  (forall a b, P a -> P b -> R a b -> R' a b) ->
  Forall P l -> StronglySorted R l -> StronglySorted R' l.
Proof.
  intros HR HP. induction 1 as [|x l Hs IH Hx]; [constructor|].
  inversion HP as [|? ? Px Pl]; subst.
  constructor; [now apply IH|].
  apply Forall_forall. intros y Hy.
  apply HR; [exact Px | now apply (proj1 (Forall_forall _ _) Pl) |
             now apply (proj1 (Forall_forall _ _) Hx)].
Qed.

Lemma StronglySorted_map {A B : Type} (R : B -> B -> Prop) (f : A -> B) (l : list A) :
  StronglySorted (fun a b => R (f a) (f b)) l -> StronglySorted R (map f l).
Proof.
  induction 1 as [|x l Hs IH Hx]; cbn [map]; constructor; [exact IH|].
  apply Forall_map. exact Hx.
Qed.

Lemma filter_perm {A : Type} (p : A -> bool) (l l' : list A) :
  Permutation l l' -> Permutation (filter p l) (filter p l').
Proof.
  induction 1 as [| x l l' Hp IH | x y l | l l' l'' H1 IH1 H2 IH2]; cbn [filter].
  - constructor.
  - destruct (p x); [now constructor | exact IH].
  - destruct (p x), (p y); try reflexivity. apply perm_swap.
  - now transitivity (filter p l').
Qed.

Lemma filter_filter {A : Type} (p q : A -> bool) (l : list A) :
  filter p (filter q l) = filter (fun x => q x && p x) l.
Proof.
  induction l as [|x l IH]; [reflexivity|]. cbn [filter].
  destruct (q x); cbn [filter andb]; [|exact IH].
  destruct (p x); now rewrite IH.
Qed.

Local Open Scope Q_scope.

Lemma sumOf_from {A : Type} (f : A -> Q) (l : list A) (a : Q) :
  fold_left (fun sum r => sum + f r) l a == a + sumOf f l.
Proof.
  unfold sumOf. revert a.
  induction l as [|x l IH]; intros a; cbn [fold_left]; [ring|].
  rewrite (IH (a + f x)), (IH (0 + f x)). ring.
Qed.

Lemma sumOf_cons {A : Type} (f : A -> Q) (x : A) (l : list A) :
  sumOf f (x :: l) == f x + sumOf f l.
Proof.
  unfold sumOf at 1. cbn [fold_left]. rewrite sumOf_from. ring.
Qed.

Lemma sumOf_perm {A : Type} (f : A -> Q) (l l' : list A) :
  Permutation l l' -> sumOf f l == sumOf f l'.
Proof.
  induction 1 as [| x l l' Hp IH | x y l | l l' l'' H1 IH1 H2 IH2].
  - reflexivity.
  - rewrite !sumOf_cons, IH. reflexivity.
  - rewrite !sumOf_cons. ring.
  - now rewrite IH1.
Qed.

Lemma sumOf_hundredths {A : Type} (f : A -> Q) (l : list A) :
  Forall (fun r => hundredths (f r)) l -> hundredths (sumOf f l).
Proof.
  induction 1 as [|x l Hx Hl IH].
  - apply hundredths_0.
  - destruct (hundredths_plus _ _ Hx IH) as [z Hz].
    exists z. now rewrite sumOf_cons.
Qed.

End ListFacts.

(* ================================================================== *)
(** ** The monthly statistic *)
(* ================================================================== *)

Module AggregatorFacts.
Import JS QFacts ListFacts HelpersFacts UploadFacts.

Lemma canonical_unassigned (r r' : attendance) :
  unassigned r' = unassigned r -> canonical r -> canonical r'.
Proof. unfold canonical. now intros ->. Qed.

Lemma canonical_fields (r : attendance) :
  canonical r ->
  hundredths (workedHours r) /\ hundredths (expectedHours r)
  /\ isLeave r && negb (isHoliday r) = Status_eqb (status r) Leave.
Proof.
  intros (h & my & n & row & E).
  apply processRow_Some in E as (d & _ & E). cbn zeta in E.
  pose proof (classify_status h (Moment.format_dddd d) (Upload.cell3 row) (Upload.cell4 row))
    as Hc.
  destruct (Upload.classify h (Moment.format_dddd d) (Upload.cell3 row) (Upload.cell4 row))
    as [[s l] w].
  destruct Hc as (_ & Hl & Hsun & _ & Hw).
  pose proof (f_equal workedHours E) as Ew.
  pose proof (f_equal expectedHours E) as Ee.
  pose proof (f_equal isLeave E) as El.
  pose proof (f_equal isHoliday E) as Eh.
  pose proof (f_equal status E) as Es.
  cbn [unassigned workedHours expectedHours isLeave isHoliday status] in *.
  rewrite Ew, Ee, El, Eh, Es.
  split; [exact Hw|]. split; [apply getExpectedHours_hundredths|].
  destruct l.
  - rewrite (proj1 Hl eq_refl).
    destruct (String.eqb (Moment.format_dddd d) "Sunday"); [|reflexivity].
    destruct (Hsun eq_refl) as [C _]. rewrite (proj1 Hl eq_refl) in C. discriminate.
  - destruct s; try reflexivity. discriminate (proj2 Hl eq_refl).
Qed.

Local Open Scope Q_scope.

Lemma productivityOf_cases (W E : Q) :
  (0 < E -> toFixed 2 (productivityOf W E) == toFixed 2 (W / E * 100))
  /\ (E == 0 -> toFixed 2 (productivityOf W E) == 0).
Proof.
  unfold productivityOf.
  destruct (Qlt_le_dec 0 E) as [Hpos | Hle]; split; intros H;
    try reflexivity; lra.
Qed.

(** The numbers of a statistic, for either way of computing it. *)
Lemma statistic_numbers (recs : list attendance) :
  Forall canonical recs ->
  toFixed 2 (sumOf expectedHours recs) == sumOf expectedHours recs
  /\ toFixed 2 (sumOf workedHours recs) == sumOf workedHours recs
  /\ List.length (filter (fun r => isLeave r && negb (isHoliday r)) recs)
     = List.length (filter (fun r => Status_eqb (status r) Leave) recs).
Proof.
  intros Hc. split; [|split].
  - apply toFixed_hundredths, sumOf_hundredths.
    eapply Forall_impl; [|exact Hc]. intros r Hr. now apply canonical_fields.
  - apply toFixed_hundredths, sumOf_hundredths.
    eapply Forall_impl; [|exact Hc]. intros r Hr. now apply canonical_fields.
  - f_equal. apply filter_ext_in. intros r Hr.
    apply canonical_fields. now apply (proj1 (Forall_forall _ _) Hc).
Qed.

Local Open Scope Z_scope.

Lemma Forall_filter {A : Type} (P : A -> Prop) (p : A -> bool) (l : list A) :
  Forall P l -> Forall P (filter p l).
Proof.
  intros H. apply Forall_forall. intros x Hx. apply filter_In in Hx as [Hx _].
  now apply (proj1 (Forall_forall _ _) H).
Qed.

(** *** The statistic of an upload *)

Lemma upload_statistic (data : list attendance) (n : string) :
  Forall canonical data ->
  monthStatisticOf (filter (fun r => String.eqb (employeeName r) n) data)
                   (Upload.statisticOf data n).
Proof.
  intros Hc. unfold Upload.statisticOf.
  set (recs := filter (fun r => String.eqb (employeeName r) n) data).
  assert (Hr : Forall canonical recs) by now apply Forall_filter.
  destruct (statistic_numbers recs Hr) as (He & Hw & Hl).
  destruct (productivityOf_cases (sumOf workedHours recs) (sumOf expectedHours recs))
    as (Hp & Hz).
  unfold monthStatisticOf.
  cbn [totalExpectedHours totalWorkedHours leavesTaken productivity dailyBreakdown].
  repeat (split; [assumption|]). split.
  - apply Permutation_map, sortBy_perm.
  - apply StronglySorted_map.
    eapply StronglySorted_weaken with (P := fun _ => True);
      [| apply Forall_forall; intros; exact I | apply sortBy_sorted].
    + intros a b _ _ H. cbn. now apply Z.leb_le.
    + intros a b. destruct (Z.leb_spec (date a) (date b)); [now left | right].
      apply Z.leb_le. lia.
    + intros a b c H1 H2. apply Z.leb_le in H1, H2. apply Z.leb_le. lia.
Qed.

Lemma unassigned_withEmployeeId (id : nat) (r : attendance) :
  unassigned (withEmployeeId id r) = unassigned r.
Proof. reflexivity. Qed.

Lemma attachEmployee_unassigned (names : list string) (emps : list employee)
    (data : list attendance) :
  map unassigned (snd (fold_left Upload.attachEmployee names (emps, data)))
  = map unassigned data.
Proof.
  revert emps data. induction names as [|n names IH]; intros emps data; [reflexivity|].
  cbn [fold_left]. unfold Upload.attachEmployee at 2.
  destruct (Upload.findOrCreate emps n) as [id emps'].
  rewrite IH, map_map. apply map_ext. intros r.
  now destruct (String.eqb (employeeName r) n).
Qed.

Lemma eachRow_canonical (h : Host) (my : string) (rows : list (nat * Upload.row)) :
  Forall canonical (Upload.eachRow h my rows).
Proof.
  induction rows as [|[n r] rows IH]; cbn [Upload.eachRow]; [constructor|].
  destruct (Upload.processRow h my n r) as [a|] eqn:E; [|exact IH].
  constructor; [|exact IH].
  exists h, my, n, r. rewrite E. f_equal.
  apply processRow_Some in E as (d & _ & ->). cbn zeta.
  now destruct (Upload.classify _ _ _ _) as [[s l] w].
Qed.

Lemma canonical_map_unassigned (l l' : list attendance) :
  map unassigned l' = map unassigned l -> Forall canonical l -> Forall canonical l'.
Proof.
  revert l'. induction l as [|x l IH]; intros [|x' l'] E H; try discriminate;
    [constructor|].
  cbn [map] in E.
  pose proof (f_equal (hd (unassigned x)) E) as Ex.
  pose proof (f_equal (@tl _) E) as El. cbn [hd tl] in Ex, El.
  apply Forall_cons_iff in H as [Hx Hl].
  constructor; [exact (canonical_unassigned x x' Ex Hx) | exact (IH l' El Hl)].
Qed.

(** What a successful upload stores and answers. *)
Lemma uploadAttendance_Done (h : Host) (req : Upload.request) (db db' : store)
    (u : Upload.uploaded) :
  Upload.uploadAttendance h req db = (Done u, db') ->
  exists data kept,
    Forall canonical data
    /\ Attendance db' = kept ++ data
    /\ Forall (fun r => In r (Attendance db)) kept
    /\ Upload.statistics u
       = map (Upload.statisticOf data) (Upload.employeesOf
              (Upload.eachRow h (Upload.monthYearOf req)
                 (match Upload.file req with Some w => w | None => [] end))).
Proof.
  unfold Upload.uploadAttendance.
  destruct (Upload.file req) as [worksheet|]; [|discriminate].
  destruct (negb (Upload.given (Upload.month req)) || negb (Upload.given (Upload.year req)));
    [discriminate|].
  destruct (negb (Upload.validMonth _)); [discriminate|].
  destruct (existsb _ _ && negb _); [discriminate|].
  pose proof (eachRow_canonical h (Upload.monthYearOf req) worksheet) as Hc.
  destruct (Upload.eachRow h (Upload.monthYearOf req) worksheet) as [|a data0] eqn:E;
    [discriminate|].
  pose proof (attachEmployee_unassigned (Upload.employeesOf (a :: data0))
                (Employee db) (a :: data0)) as Hu.
  destruct (fold_left Upload.attachEmployee _ _) as [emps data] eqn:Ef.
  cbn [snd] in Hu.
  intros H. inversion H; subst; clear H.
  cbn [Upload.statistics Attendance].
  exists data. eexists. split; [now apply canonical_map_unassigned with (a :: data0)|].
  split; [reflexivity|]. split; [|reflexivity].
  destruct (existsb _ _ && _).
  - apply Forall_forall. intros r Hr. now apply filter_In in Hr.
  - apply Forall_forall. auto.
Qed.

(** *** The statistic of the month query *)

Lemma compare_refl (s : string) : String.compare s s = Eq.
Proof.
  pose proof (String.compare_antisym s s) as H.
  destruct (String.compare s s); try reflexivity; discriminate.
Qed.

Lemma byNameThenDate_total (a b : attendance) :
  Routes.byNameThenDate a b = true \/ Routes.byNameThenDate b a = true.
Proof.
  unfold Routes.byNameThenDate.
  rewrite (String.compare_antisym (employeeName b) (employeeName a)).
  destruct (String.compare (employeeName a) (employeeName b)); cbn [CompOpp]; auto.
  destruct (Z.leb_spec (date a) (date b)); [now left | right]. apply Z.leb_le. lia.
Qed.

Lemma byNameThenDate_trans (a b c : attendance) :
  Routes.byNameThenDate a b = true -> Routes.byNameThenDate b c = true ->
  Routes.byNameThenDate a c = true.
Proof.
  unfold Routes.byNameThenDate.
  destruct (String.compare (employeeName a) (employeeName b)) eqn:Eab; try discriminate;
    destruct (String.compare (employeeName b) (employeeName c)) eqn:Ebc; try discriminate;
    intros H1 H2.
  - apply String.compare_eq_iff in Eab, Ebc. rewrite Eab, Ebc, compare_refl.
    apply Z.leb_le in H1, H2. apply Z.leb_le. lia.
  - apply String.compare_eq_iff in Eab. now rewrite Eab, Ebc.
  - apply String.compare_eq_iff in Ebc. now rewrite <- Ebc, Eab.
  - assert (E : String.compare (employeeName a) (employeeName c) = Lt).
    { apply (@StrictOrder_Transitive _ _ OrdersEx.String_as_OT.lt_strorder
               _ (employeeName b)); assumption. }
    now rewrite E.
Qed.

Lemma route_statistic (db : store) (my n : string) :
  Forall canonical (Attendance db) ->
  monthStatisticOf (recordsOf db my n) (Routes.statisticOf (Routes.findMonth db my) n).
Proof.
  intros Hc. unfold Routes.statisticOf.
  set (employeeData :=
         filter (fun d => String.eqb (employeeName d) n) (Routes.findMonth db my)).
  assert (Hperm : Permutation employeeData (recordsOf db my n)).
  { unfold employeeData, recordsOf, Routes.findMonth.
    rewrite <- filter_filter. apply filter_perm, sortBy_perm. }
  assert (Hr : Forall canonical (recordsOf db my n)) by now apply Forall_filter.
  assert (Hd : Forall canonical employeeData).
  { apply (Permutation_Forall (Permutation_sym Hperm)). exact Hr. }
  destruct (statistic_numbers employeeData Hd) as (He & Hw & Hl).
  destruct (productivityOf_cases (sumOf workedHours employeeData)
              (sumOf expectedHours employeeData)) as (Hp & Hz).
  pose proof (sumOf_perm expectedHours _ _ Hperm) as Se.
  pose proof (sumOf_perm workedHours _ _ Hperm) as Sw.
  unfold monthStatisticOf.
  cbn [totalExpectedHours totalWorkedHours leavesTaken productivity dailyBreakdown].
  split; [now rewrite He|]. split; [now rewrite Hw|]. split.
  { rewrite Hl. apply Permutation_length, filter_perm, Hperm. }
  split; [intros H; rewrite <- Se, <- Sw in *; now apply Hp|].
  split; [intros H; rewrite <- Se in H; now apply Hz|].
  split; [now apply Permutation_map|].
  apply StronglySorted_map.
  apply StronglySorted_weaken
    with (R := fun a b => Routes.byNameThenDate a b = true)
         (P := fun d => String.eqb (employeeName d) n = true).
  - intros a b Ha Hb H. apply String.eqb_eq in Ha, Hb.
    unfold Routes.byNameThenDate in H. rewrite Ha, Hb, compare_refl in H.
    cbn. now apply Z.leb_le.
  - apply Forall_forall. intros d Hd'. now apply filter_In in Hd'.
  - apply StronglySorted_filter, sortBy_sorted.
    + exact byNameThenDate_total.
    + exact byNameThenDate_trans.
Qed.

End AggregatorFacts.

(* ================================================================== *)
(** ** The upload handler *)
(* ================================================================== *)

Module HandlerFacts.
Import AggregatorFacts.

(** A batch that fails leaves both collections as they were. *)
Lemma uploadAttendance_Fail (h : JS.Host) (req : Upload.request) (db db' : store)
    (code : Z) (payload : list (string * pval)) :
  Upload.uploadAttendance h req db = (Fail code payload, db') -> db' = db.
Proof.
  unfold Upload.uploadAttendance.
  destruct (Upload.file req) as [worksheet|]; [|now inversion 1].
  destruct (negb (Upload.given (Upload.month req)) || negb (Upload.given (Upload.year req)));
    [now inversion 1|].
  destruct (negb (Upload.validMonth _)); [now inversion 1|].
  destruct (existsb _ _ && negb _); [now inversion 1|].
  destruct (Upload.eachRow h (Upload.monthYearOf req) worksheet); [now inversion 1|].
  destruct (fold_left Upload.attachEmployee _ _). discriminate.
Qed.

(** Every stored record is canonical. *)
Lemma reachable_canonical (db : store) :
  reachable db -> Forall canonical (Attendance db).
Proof.
  induction 1 as [|h req db Hr IH]; [constructor|].
  destruct (Upload.uploadAttendance h req db) as [[code payload | u] db'] eqn:E;
    cbn [snd].
  - apply uploadAttendance_Fail in E. now subst.
  - apply uploadAttendance_Done in E as (data & kept & Hc & -> & Hk & _).
    apply Forall_app. split; [|exact Hc].
    apply Forall_forall. intros r Hr'.
    apply (proj1 (Forall_forall _ _) IH).
    now apply (proj1 (Forall_forall _ _) Hk).
Qed.

(** No stored record has the status [Weekend]. *)
Lemma stored_status_never_weekend (db : store) :
  reachable db -> Forall (fun r => status r <> Weekend) (Attendance db).
Proof.
  intros Hr. apply reachable_canonical in Hr.
  eapply Forall_impl; [|exact Hr].
  intros r (h & my & n & row & E).
  apply UploadFacts.processRow_status in E. cbn [unassigned status] in E.
  destruct E as [-> | [-> | ->]]; discriminate.
Qed.

End HandlerFacts.




(* ================================================================== *)
(** ** Batches that are turned down *)
(* ================================================================== *)

(** C4. A batch for a month that already has records, without the
    override, fails with the duplicate-data error that carries the month
    label, and the store is unchanged. *)
Theorem duplicate_partition_rejected (h : JS.Host) (req : Upload.request) (db : store)
    (worksheet : list (nat * Upload.row)) :
  Upload.file req = Some worksheet ->
  Upload.given (Upload.month req) = true ->
  Upload.given (Upload.year req) = true ->
  Upload.validMonth (JS.parseInt (Upload.text (Upload.month req))) = true ->
  existsb (hasMonthYear (Upload.monthYearOf req)) (Attendance db) = true ->
  Upload.isTrue (Upload.override req) = false ->
  exists msg,
    Upload.uploadAttendance h req db
    = (Fail 409 [("error", PStr "Data already exists"); ("message", PStr msg);
                 ("monthYear", PStr (Upload.monthYearOf req))]%string,
       db).
Proof.
  intros Hf Hm Hy Hv He Ho. unfold Upload.uploadAttendance.
  rewrite Hf, Hm, Hy, Hv, He, Ho. cbn [negb orb andb].
  eexists. reflexivity.
Qed.

(** The witness of C4 (scenario D): a second batch for 2024-03 over the
    forty stored records. *)
Lemma duplicate_partition_witness :
  List.length (Attendance fortyStore) = 40%nat
  /\ exists msg,
       Upload.uploadAttendance ist (march2024 oneHourSheet) fortyStore
       = (Fail 409 [("error", PStr "Data already exists"); ("message", PStr msg);
                    ("monthYear", PStr "2024-03")]%string,
          fortyStore).
Proof.
  split; [vm_compute; reflexivity|].
  apply (duplicate_partition_rejected ist (march2024 oneHourSheet) fortyStore oneHourSheet);
    vm_compute; reflexivity.
Defined.

(** C8, as amended. A batch none of whose rows is accepted fails with the
    error [No valid data] and its message, and the store is unchanged; the
    payload holds these two texts only. *)
Theorem empty_batch_rejected (h : JS.Host) (req : Upload.request) (db : store)
    (worksheet : list (nat * Upload.row)) :
  Upload.file req = Some worksheet ->
  Upload.given (Upload.month req) = true ->
  Upload.given (Upload.year req) = true ->
  Upload.validMonth (JS.parseInt (Upload.text (Upload.month req))) = true ->
  existsb (hasMonthYear (Upload.monthYearOf req)) (Attendance db)
  && negb (Upload.isTrue (Upload.override req)) = false ->
  Upload.eachRow h (Upload.monthYearOf req) worksheet = [] ->
  Upload.uploadAttendance h req db
  = (Fail 400 [("error", PStr "No valid data");
               ("message", PStr "Excel file does not contain valid attendance data")]%string,
     db).
Proof.
  intros Hf Hm Hy Hv He Hr. unfold Upload.uploadAttendance.
  rewrite Hf, Hm, Hy, Hv, He, Hr. reflexivity.
Qed.

Lemma empty_batch_witness :
  Upload.uploadAttendance ist (march2024 badSheet) noDocuments
  = (Fail 400 [("error", PStr "No valid data");
               ("message", PStr "Excel file does not contain valid attendance data")]%string,
     noDocuments).
Proof.
  apply (empty_batch_rejected ist (march2024 badSheet) noDocuments badSheet);
    vm_compute; reflexivity.
Defined.

(** C8 as first stated asks the payload for the number of rows
    seen and accepted; the payload of [badSheet] holds no number. *)
Lemma empty_batch_carries_no_count :
  Upload.eachRow ist "2024-03" badSheet = []
  /\ forall seen accepted : Z,
       ~ carriesCounts
           (payloadOf (fst (Upload.uploadAttendance ist (march2024 badSheet) noDocuments)))
           seen accepted.
Proof.
  split; [vm_compute; reflexivity|].
  intros seen accepted (k1 & k2 & H1 & _).
  assert (E : payloadOf (fst (Upload.uploadAttendance ist (march2024 badSheet) noDocuments))
              = [("error", PStr "No valid data");
                 ("message", PStr "Excel file does not contain valid attendance data")]%string)
    by (vm_compute; reflexivity).
  rewrite E in H1.
  destruct H1 as [H1 | [H1 | []]]; discriminate H1.
Qed.

(* ================================================================== *)
(** ** Queries over a period without records *)
(* ================================================================== *)

Module RoutesFacts.

Lemma findMonth_nil (db : store) (my : string) :
  filter (hasMonthYear my) (Attendance db) = [] -> Routes.findMonth db my = [].
Proof. unfold Routes.findMonth. now intros ->. Qed.

End RoutesFacts.

(** C9, as amended. Over a period that has no stored record the month, the
    previous-month and the year-aggregated queries fail with status 404 and
    a no-data payload; the workforce, the year-comparison and the
    employee-productivity queries answer, with an empty list. *)
Theorem no_data_answers (h : JS.Host) (db : store) :
  (forall year month : string,
      year <> ""%string -> month <> ""%string ->
      filter (hasMonthYear (year ++ "-" ++ JS.padStart2 month)) (Attendance db) = [] ->
      Routes.month db year month
      = Fail 404 (Routes.noData (year ++ "-" ++ JS.padStart2 month) true))
  /\ (forall year month : string,
         filter (hasMonthYear (Routes.previousLabel year month)) (Attendance db) = [] ->
         Routes.previousMonth db year month
         = Fail 404 (Routes.noData (Routes.previousLabel year month) false))
  /\ (forall year : Z,
         Routes.invalidYear h year = false ->
         filter (Routes.inRange (Routes.newYear year) (Routes.newYear (year + 1)))
                (Attendance db) = [] ->
         Routes.yearAggregated h db year
         = Fail 404 [("error", PStr "No data found for this year")]%string)
  /\ (forall year month : Z,
         Routes.invalidYear h year = false -> 1 <= month <= 12 ->
         filter (Routes.inRange (JS.Date_local h year (month - 1) 1)
                                (JS.Date_local h year month 1))
                (Attendance db) = [] ->
         Routes.workforce h db year month
         = Done {| Routes.wf_year := year; Routes.wf_month := month;
                   Routes.wf_dailyBreakdown := [] |})
  /\ (filter (Routes.inRange (fst (Routes.comparedRange h)) (snd (Routes.comparedRange h)))
             (Attendance db) = [] ->
      Routes.yearComparison h db = Done [])
  /\ (forall year : Z,
         Routes.invalidYear h year = false ->
         filter (Routes.inRange (Routes.newYear year) (Routes.newYear (year + 1)))
                (Attendance db) = [] ->
         Routes.employeesProductivity h db year
         = Done {| Routes.pa_year := year; Routes.pa_employees := [] |}).
Proof.
  split; [|split; [|split; [|split; [|split]]]].
  - intros year month Hy Hm Hn. unfold Routes.month.
    apply String.eqb_neq in Hy, Hm. rewrite Hy, Hm. cbn [orb].
    now rewrite (RoutesFacts.findMonth_nil _ _ Hn).
  - intros year month Hn. unfold Routes.previousMonth.
    destruct (Routes.previousOf year month) as [prevYear prevMonth].
    now rewrite (RoutesFacts.findMonth_nil _ _ Hn).
  - intros year Hv Hn. unfold Routes.yearAggregated. now rewrite Hv, Hn.
  - intros year month Hv Hm Hn. unfold Routes.workforce. rewrite Hv, Hn.
    replace ((month <? 1) || (month >? 12)) with false; [reflexivity|].
    symmetry. apply orb_false_iff. rewrite Z.gtb_ltb.
    split; apply Z.ltb_ge; lia.
  - intros Hn. unfold Routes.yearComparison.
    destruct (Routes.comparedRange h) as [startDate endDate].
    cbn [fst snd] in Hn. now rewrite Hn.
  - intros year Hv Hn. unfold Routes.employeesProductivity. now rewrite Hv, Hn.
Qed.

Lemma no_data_witness :
  Routes.month noDocuments "2024" "3" = Fail 404 (Routes.noData "2024-03" true)
  /\ Routes.workforce ist noDocuments 2024 3
     = Done {| Routes.wf_year := 2024; Routes.wf_month := 3;
               Routes.wf_dailyBreakdown := [] |}.
Proof.
  destruct (no_data_answers ist noDocuments) as (Hmonth & _ & _ & Hwork & _).
  split.
  - apply (Hmonth "2024" "3")%string; [discriminate | discriminate | reflexivity].
  - apply (Hwork 2024 3); [vm_compute; reflexivity | lia | reflexivity].
Defined.

(** C9 as first stated asks every query over a period without
    records for a failure; the workforce query for March 2024 over an empty
    store answers, with an empty list. *)
Lemma workforce_answers_empty :
  Attendance noDocuments = []
  /\ Routes.workforce ist noDocuments 2024 3
     = Done {| Routes.wf_year := 2024; Routes.wf_month := 3;
               Routes.wf_dailyBreakdown := [] |}
  /\ ~ (exists code payload,
          Routes.workforce ist noDocuments 2024 3 = Fail code payload).
Proof.
  split; [reflexivity|].
  assert (E : Routes.workforce ist noDocuments 2024 3
              = Done {| Routes.wf_year := 2024; Routes.wf_month := 3;
                        Routes.wf_dailyBreakdown := [] |})
    by (vm_compute; reflexivity).
  split; [exact E|].
  intros (code & payload & H). rewrite E in H. discriminate H.
Qed.

(* ================================================================== *)
(** ** Best and worst month of a year *)
(* ================================================================== *)

Module YearFacts.
Import Routes.
Local Open Scope Q_scope.

Lemma Qlt_bool_iff (a b : Q) : Qlt_bool a b = true <-> a < b.
Proof.
  unfold Qlt_bool. rewrite negb_true_iff. split; intros H.
  - apply Qnot_le_lt. intros C. apply Qle_bool_iff in C. congruence.
  - destruct (Qle_bool b a) eqn:E; [|reflexivity].
    apply Qle_bool_iff in E. lra.
Qed.

Lemma scanOf_snoc (l : list monthProductivity) (m : monthProductivity) :
  scanOf (l ++ [m]) = scanMonth (scanOf l) m.
Proof. unfold scanOf. now rewrite fold_left_app. Qed.

(** The best month is a month of greatest productivity, once some month has
    a productivity above 0. *)
Lemma bestMonth_spec (l : list monthProductivity) :
  (forall m, In m l -> mp_productivity m <= mp_productivity (bestMonth (scanOf l)))
  /\ 0 <= mp_productivity (bestMonth (scanOf l))
  /\ (0 < mp_productivity (bestMonth (scanOf l)) -> In (bestMonth (scanOf l)) l).
Proof.
  induction l as [|x l (Hmax & Hpos & Hin)] using rev_ind.
  - cbn. repeat split; [intros m [] | lra | lra].
  - rewrite scanOf_snoc. cbn [scanMonth bestMonth].
    destruct (Qlt_bool (mp_productivity (bestMonth (scanOf l))) (mp_productivity x)) eqn:E.
    + apply Qlt_bool_iff in E. repeat split.
      * intros m Hm. apply in_app_iff in Hm as [Hm | [<- | []]]; [|lra].
        specialize (Hmax m Hm). lra.
      * lra.
      * intros _. apply in_app_iff. right. now left.
    + assert (Hle : mp_productivity x <= mp_productivity (bestMonth (scanOf l))).
      { apply Qnot_lt_le. intros C. apply Qlt_bool_iff in C. congruence. }
      repeat split.
      * intros m Hm. apply in_app_iff in Hm as [Hm | [<- | []]]; auto.
      * exact Hpos.
      * intros H. apply in_app_iff. left. now apply Hin.
Qed.

(** The worst month is a month of least productivity among those whose
    productivity is above 0 and below 100. *)
Lemma worstMonth_spec (l : list monthProductivity) :
  (forall m, In m l -> 0 < mp_productivity m -> mp_productivity m < 100 ->
             mp_productivity (worstMonth (scanOf l)) <= mp_productivity m)
  /\ mp_productivity (worstMonth (scanOf l)) <= 100
  /\ (mp_productivity (worstMonth (scanOf l)) < 100 ->
      In (worstMonth (scanOf l)) l /\ 0 < mp_productivity (worstMonth (scanOf l))).
Proof.
  induction l as [|x l (Hmin & Hle & Hin)] using rev_ind.
  - cbn. repeat split; try lra. intros m [].
  - rewrite scanOf_snoc. cbn [scanMonth worstMonth].
    destruct (Qlt_bool (mp_productivity x) (mp_productivity (worstMonth (scanOf l)))
              && Qlt_bool 0 (mp_productivity x)) eqn:E.
    + apply andb_true_iff in E as [E1 E2].
      apply Qlt_bool_iff in E1, E2. repeat split; try lra.
      * intros m Hm H0 H100. apply in_app_iff in Hm as [Hm | [<- | []]]; [|lra].
        specialize (Hmin m Hm H0 H100). lra.
      * apply in_app_iff. right. now left.
    + repeat split.
      * intros m Hm H0 H100. apply in_app_iff in Hm as [Hm | [<- | []]]; auto.
        apply andb_false_iff in E as [E | E].
        -- apply Qnot_lt_le. intros C. apply Qlt_bool_iff in C. congruence.
        -- apply Qlt_bool_iff in H0. congruence.
      * exact Hle.
      * apply in_app_iff. left. now apply Hin.
      * now apply Hin.
Qed.

(** When every month above 0 is at 100 or more, no worst month is found. *)
Lemma worstMonth_none (l : list monthProductivity) :
  (forall m, In m l -> 0 < mp_productivity m -> 100 <= mp_productivity m) ->
  worstMonth (scanOf l) = worstMonth scanStart.
Proof.
  induction l as [|x l IH] using rev_ind; intros H; [reflexivity|].
  rewrite scanOf_snoc. cbn [scanMonth worstMonth].
  rewrite IH by (intros m Hm; apply H, in_app_iff; now left).
  cbn [scanStart worstMonth mp_productivity].
  destruct (Qlt_bool (mp_productivity x) 100 && Qlt_bool 0 (mp_productivity x)) eqn:E;
    [|reflexivity].
  apply andb_true_iff in E as [E1 E2]. apply Qlt_bool_iff in E1, E2.
  assert (100 <= mp_productivity x) by (apply H; [apply in_app_iff; right; now left | exact E2]).
  lra.
Qed.

(** The best month shown is a month of greatest productivity among the
    months above 0. *)
Lemma y_bestMonth_spec (emp : employeeYear) :
  (exists m, In m (map monthlyProductivityOf (monthlyData emp)) /\ 0 < mp_productivity m) ->
  exists b,
    In b (map monthlyProductivityOf (monthlyData emp))
    /\ y_bestMonth (employeeSummaryOf emp) = labelOf b
    /\ 0 < mp_productivity b
    /\ forall m, In m (map monthlyProductivityOf (monthlyData emp)) ->
                 mp_productivity m <= mp_productivity b.
Proof.
  intros (m & Hm & Hp).
  destruct (bestMonth_spec (map monthlyProductivityOf (monthlyData emp)))
    as (Hmax & _ & Hin).
  set (s := scanOf (map monthlyProductivityOf (monthlyData emp))) in *.
  assert (Hb : 0 < mp_productivity (bestMonth s)) by (specialize (Hmax m Hm); lra).
  exists (bestMonth s). split; [now apply Hin|]. split; [|split; assumption].
  cbn [employeeSummaryOf y_bestMonth].
  change (fold_left scanMonth (map monthlyProductivityOf (monthlyData emp)) scanStart)
    with s.
  apply Qlt_bool_iff in Hb. now rewrite Hb.
Qed.

(** The worst month shown is a month of least productivity among the months
    above 0, as long as one of them is below 100; without such a month it is
    ['N/A']. *)
Lemma y_worstMonth_spec (emp : employeeYear) :
  ((exists m, In m (map monthlyProductivityOf (monthlyData emp))
              /\ 0 < mp_productivity m /\ mp_productivity m < 100) ->
   exists w,
     In w (map monthlyProductivityOf (monthlyData emp))
     /\ y_worstMonth (employeeSummaryOf emp) = labelOf w
     /\ 0 < mp_productivity w
     /\ forall m, In m (map monthlyProductivityOf (monthlyData emp)) ->
                  0 < mp_productivity m -> mp_productivity w <= mp_productivity m)
  /\ ((forall m, In m (map monthlyProductivityOf (monthlyData emp)) ->
                 0 < mp_productivity m -> 100 <= mp_productivity m) ->
      y_worstMonth (employeeSummaryOf emp) = NA).
Proof.
  split.
  - intros (m & Hm & Hp & Hq).
    destruct (worstMonth_spec (map monthlyProductivityOf (monthlyData emp)))
      as (Hmin & _ & Hin).
    set (s := scanOf (map monthlyProductivityOf (monthlyData emp))) in *.
    assert (Hw : mp_productivity (worstMonth s) < 100)
      by (specialize (Hmin m Hm Hp Hq); lra).
    destruct (Hin Hw) as (Hi & H0).
    exists (worstMonth s). split; [exact Hi|]. split; [|split; [exact H0|]].
    + cbn [employeeSummaryOf y_worstMonth].
      change (fold_left scanMonth (map monthlyProductivityOf (monthlyData emp)) scanStart)
        with s.
      apply Qlt_bool_iff in Hw. now rewrite Hw.
    + intros m' Hm' Hp'.
      destruct (Qlt_le_dec (mp_productivity m') 100) as [Hlt | Hge];
        [now apply Hmin | lra].
  - intros H. cbn [employeeSummaryOf y_worstMonth].
    change (fold_left scanMonth (map monthlyProductivityOf (monthlyData emp)) scanStart)
      with (scanOf (map monthlyProductivityOf (monthlyData emp))).
    rewrite (worstMonth_none _ H). reflexivity.
Qed.

End YearFacts.

(** C5. In a year whose only month has a productivity of 100 the best month
    is that month and the worst month is ['N/A'], although that month is the
    one of least productivity above 0. *)
Theorem worstMonth_of_a_full_month :
  map (fun e => map Routes.mp_month (Routes.y_monthlyData e)) fullDayYear = [[3]]
  /\ Forall (fun e => Forall (fun m => (Routes.mp_productivity m == 100)%Q)
                             (Routes.y_monthlyData e)) fullDayYear
  /\ map Routes.y_bestMonth fullDayYear = [Routes.Named "March" 100.0]
  /\ map Routes.y_worstMonth fullDayYear = [Routes.NA].
Proof.
  vm_compute. repeat split; repeat constructor.
Qed.

(* ================================================================== *)
(** ** Groups and their members *)
(* ================================================================== *)

Module GroupFacts.
Import QFacts ListFacts.

Section DistinctFacts.
Context {K : Type} (eqb : K -> K -> bool).
Hypothesis eqb_eq : forall a b, eqb a b = true <-> a = b.

Lemma existsb_eqb (k : K) (l : list K) : existsb (eqb k) l = true <-> In k l.
Proof.
  rewrite existsb_exists. split.
  - intros (x & Hx & E). apply eqb_eq in E. now subst.
  - intros H. exists k. split; [exact H | now apply eqb_eq].
Qed.

Lemma distinct_In (k : K) (seen l : list K) :
  In k (distinct eqb seen l) <-> In k l /\ ~ In k seen.
Proof.
  revert seen. induction l as [|x l IH]; intros seen; cbn [distinct].
  - cbn. tauto.
  - destruct (existsb (eqb x) seen) eqn:E.
    + apply existsb_eqb in E. rewrite IH. cbn [In]. split.
      * intros [H1 H2]. auto.
      * intros [[-> | H1] H2]; [contradiction | auto].
    + assert (Hx : ~ In x seen).
      { intros C. apply existsb_eqb in C. congruence. }
      cbn [In]. rewrite IH. cbn [In]. split.
      * intros [<- | [H1 H2]]; [auto|]. split; [auto|]. intros C. apply H2. auto.
      * intros [[<- | H1] H2]; [auto|].
        destruct (eqb x k) eqn:Exk.
        -- left. now apply eqb_eq.
        -- right. split; [exact H1|]. intros [C | C]; [|contradiction].
           apply eqb_eq in C. congruence.
Qed.

Lemma distinct_NoDup (seen l : list K) : NoDup (distinct eqb seen l).
Proof.
  revert seen. induction l as [|x l IH]; intros seen; cbn [distinct]; [constructor|].
  destruct (existsb (eqb x) seen); [apply IH|].
  constructor; [|apply IH].
  rewrite distinct_In. cbn [In]. intros [_ C]. apply C. now left.
Qed.

Lemma distinct_all (k : K) (l : list K) : In k (distinct eqb [] l) <-> In k l.
Proof. rewrite distinct_In. cbn. tauto. Qed.

(** Two lists with the same elements have as many distinct elements. *)
Lemma distinct_length (l l' : list K) :
  (forall k, In k l <-> In k l') ->
  List.length (distinct eqb [] l) = List.length (distinct eqb [] l').
Proof.
  intros H. apply Permutation_length, NoDup_Permutation; try apply distinct_NoDup.
  intros k. rewrite !distinct_all. apply H.
Qed.

End DistinctFacts.

Lemma filter_true {A : Type} (p : A -> bool) (l : list A) :
  (forall a, In a l -> p a = true) -> filter p l = l.
Proof.
  induction l as [|x l IH]; intros H; [reflexivity|]. cbn [filter].
  rewrite (H x (or_introl eq_refl)), IH; [reflexivity|].
  intros a Ha. apply H. now right.
Qed.

Lemma filter_false {A : Type} (p : A -> bool) (l : list A) :
  (forall a, In a l -> p a = false) -> filter p l = [].
Proof.
  induction l as [|x l IH]; intros H; [reflexivity|]. cbn [filter].
  rewrite (H x (or_introl eq_refl)), IH; [reflexivity|].
  intros a Ha. apply H. now right.
Qed.

Lemma filter_either {A : Type} (p q : A -> bool) (l : list A) :
  (forall a, In a l -> p a = true -> q a = false) ->
  Permutation (filter p l ++ filter q l) (filter (fun a => p a || q a) l).
Proof.
  induction l as [|x l IH]; intros H; [reflexivity|]. cbn [filter].
  assert (IH' : Permutation (filter p l ++ filter q l) (filter (fun a => p a || q a) l)).
  { apply IH. intros a Ha. apply H. now right. }
  destruct (p x) eqn:Ep; cbn [orb].
  - rewrite (H x (or_introl eq_refl) Ep). cbn [app]. now constructor.
  - destruct (q x); [|exact IH'].
    rewrite <- Permutation_middle. now constructor.
Qed.

Section Groups.
Context {A K : Type} (key : A -> K) (eqb : K -> K -> bool).
Hypothesis eqb_eq : forall a b, eqb a b = true <-> a = b.

(** The groups of the distinct keys [ks] hold, between them, each
    element whose key is one of [ks] once. *)
Lemma groups_perm (ks : list K) (l : list A) :
  NoDup ks ->
  Permutation (flat_map (fun k => filter (fun a => eqb (key a) k) l) ks)
              (filter (fun a => existsb (eqb (key a)) ks) l).
Proof.
  induction 1 as [|k ks Hk Hks IH]; cbn [flat_map existsb].
  - rewrite filter_false; [reflexivity | reflexivity].
  - rewrite IH. apply filter_either.
    intros a _ E. apply eqb_eq in E.
    destruct (existsb (eqb (key a)) ks) eqn:C; [|reflexivity].
    apply (existsb_eqb eqb eqb_eq) in C. congruence.
Qed.

(** The groups of a [$group] stage hold each document once. *)
Lemma groups_all (l : list A) :
  Permutation
    (flat_map (fun k => filter (fun a => eqb (key a) k) l) (distinct eqb [] (map key l)))
    l.
Proof.
  rewrite groups_perm by apply (distinct_NoDup eqb eqb_eq).
  rewrite filter_true; [reflexivity|].
  intros a Ha. apply (existsb_eqb eqb eqb_eq), (distinct_all eqb eqb_eq).
  now apply in_map.
Qed.

(** No group is empty. *)
Lemma group_inhabited (k : K) (l : list A) :
  In k (distinct eqb [] (map key l)) ->
  exists a, In a (filter (fun a => eqb (key a) k) l).
Proof.
  intros H. apply (proj1 (distinct_all eqb eqb_eq _ _)) in H.
  apply in_map_iff in H as (a & <- & Ha).
  exists a. apply filter_In. split; [exact Ha | now apply eqb_eq].
Qed.

End Groups.

Local Open Scope Q_scope.

Lemma sumOf_app {A : Type} (f : A -> Q) (l l' : list A) :
  sumOf f (l ++ l') == sumOf f l + sumOf f l'.
Proof.
  induction l as [|x l IH]; cbn [app].
  - unfold sumOf at 2. cbn. ring.
  - rewrite !sumOf_cons, IH. ring.
Qed.

Lemma sumOf_flat_map {A B : Type} (f : A -> Q) (g : B -> list A) (ks : list B) :
  sumOf f (flat_map g ks) == sumOf (fun k => sumOf f (g k)) ks.
Proof.
  induction ks as [|k ks IH]; cbn [flat_map]; [reflexivity|].
  now rewrite sumOf_app, sumOf_cons, IH.
Qed.

Lemma sumOf_ext {A : Type} (f g : A -> Q) (l : list A) :
  (forall a, In a l -> f a == g a) -> sumOf f l == sumOf g l.
Proof.
  induction l as [|x l IH]; intros H; [reflexivity|].
  rewrite !sumOf_cons, IH, (H x (or_introl eq_refl)); [reflexivity|].
  intros a Ha. apply H. now right.
Qed.

Lemma sumOf_map {A B : Type} (f : B -> Q) (g : A -> B) (l : list A) :
  sumOf f (map g l) == sumOf (fun a => f (g a)) l.
Proof.
  induction l as [|x l IH]; [reflexivity|].
  cbn [map]. now rewrite !sumOf_cons, IH.
Qed.

Local Open Scope nat_scope.

(** [reduce((s, x) => s + f(x), 0)] over natural numbers. *)
Lemma count_from {A : Type} (f : A -> nat) (l : list A) (n : nat) :
  fold_left (fun s a => s + f a) l n = n + fold_left (fun s a => s + f a) l 0.
Proof.
  revert n. induction l as [|x l IH]; intros n; cbn [fold_left]; [lia|].
  rewrite (IH (n + f x)), (IH (0 + f x)). lia.
Qed.

Lemma count_flat_map {A B : Type} (g : B -> list A) (ks : list B) :
  List.length (flat_map g ks) = fold_left (fun s k => s + List.length (g k)) ks 0.
Proof.
  induction ks as [|k ks IH]; [reflexivity|].
  cbn [flat_map fold_left]. rewrite length_app, count_from, IH. lia.
Qed.

Lemma count_map {A B : Type} (f : B -> nat) (g : A -> B) (l : list A) (n : nat) :
  fold_left (fun s b => s + f b) (map g l) n = fold_left (fun s a => s + f (g a)) l n.
Proof.
  revert n. induction l as [|x l IH]; intros n; [reflexivity|].
  cbn [map fold_left]. apply IH.
Qed.

Local Open Scope Z_scope.

(** Rounding gives the same number for equal rationals. *)
Lemma toFixed_eq (n : nat) (x y : Q) : (x == y)%Q -> JS.toFixed n x = JS.toFixed n y.
Proof.
  intros H. unfold JS.toFixed.
  assert (E : JS.roundHalfAway (x * inject_Z (10 ^ Z.of_nat n))
              = JS.roundHalfAway (y * inject_Z (10 ^ Z.of_nat n))).
  { apply roundHalfAway_comp. now rewrite H. }
  now rewrite E.
Qed.

Lemma string_eqb_eq (a b : string) : String.eqb a b = true <-> a = b.
Proof. apply String.eqb_eq. Qed.

End GroupFacts.

(* ================================================================== *)
(** ** What an upload stores *)
(* ================================================================== *)

Module UploadMore.
Import JS JSFacts QFacts ListFacts HelpersFacts UploadFacts AggregatorFacts HandlerFacts.
Import GroupFacts.

Lemma eachRow_monthYear (h : Host) (my : string) (rows : list (nat * Upload.row)) :
  Forall (fun a => monthYear a = my) (Upload.eachRow h my rows).
Proof.
  induction rows as [|[n r] rows IH]; cbn [Upload.eachRow]; [constructor|].
  destruct (Upload.processRow h my n r) as [a|] eqn:E; [|exact IH].
  constructor; [|exact IH].
  apply processRow_Some in E as (d & _ & ->). cbn zeta.
  now destruct (Upload.classify _ _ _ _) as [[s l] w].
Qed.

Lemma eachRow_unassigned (h : Host) (my : string) (rows : list (nat * Upload.row)) :
  map unassigned (Upload.eachRow h my rows) = Upload.eachRow h my rows.
Proof.
  induction rows as [|[n r] rows IH]; cbn [Upload.eachRow]; [reflexivity|].
  destruct (Upload.processRow h my n r) as [a|] eqn:E; [|exact IH].
  cbn [map]. rewrite IH. f_equal.
  apply processRow_Some in E as (d & _ & ->). cbn zeta.
  now destruct (Upload.classify _ _ _ _) as [[s l] w].
Qed.

Lemma no_existing (my : string) (l : list attendance) :
  existsb (hasMonthYear my) l = false -> otherMonths my l = l.
Proof.
  intros H. apply filter_true. intros a Ha.
  destruct (hasMonthYear my a) eqn:E; [|reflexivity].
  assert (C : existsb (hasMonthYear my) l = true).
  { apply existsb_exists. now exists a. }
  congruence.
Qed.

(** What a successful upload stores and answers, in full. *)
Lemma uploadAttendance_stores (h : Host) (req : Upload.request) (db db' : store)
    (u : Upload.uploaded) :
  Upload.uploadAttendance h req db = (Done u, db') ->
  exists data,
    batchOf h req <> []
    /\ Upload.given (Upload.month req) = true /\ Upload.given (Upload.year req) = true
    /\ fold_left Upload.attachEmployee (Upload.employeesOf (batchOf h req))
         (Employee db, batchOf h req) = (Employee db', data)
    /\ Attendance db' = otherMonths (Upload.monthYearOf req) (Attendance db) ++ data
    /\ Upload.u_summary u
       = {| Upload.totalRecords := List.length data;
            Upload.totalEmployees := List.length (Upload.employeesOf (batchOf h req));
            Upload.s_monthYear := Upload.monthYearOf req |}
    /\ Upload.statistics u
       = map (Upload.statisticOf data) (Upload.employeesOf (batchOf h req)).
Proof.
  unfold Upload.uploadAttendance, batchOf.
  destruct (Upload.file req) as [worksheet|]; [|discriminate].
  destruct (Upload.given (Upload.month req)); [|discriminate].
  destruct (Upload.given (Upload.year req)); [|discriminate].
  cbn [negb orb].
  destruct (negb (Upload.validMonth _)); [discriminate|].
  destruct (existsb (hasMonthYear (Upload.monthYearOf req)) (Attendance db)) eqn:Eex;
    destruct (Upload.isTrue (Upload.override req)); cbn [andb negb];
    try discriminate;
    (destruct (Upload.eachRow h (Upload.monthYearOf req) worksheet) as [|a data0];
     [discriminate|]);
    (destruct (fold_left Upload.attachEmployee _ _) as [emps data] eqn:Ef);
    intros H; inversion H; subst; clear H;
    exists data; cbn [Attendance Employee Upload.u_summary Upload.statistics];
    (split; [discriminate|]); repeat (split; [reflexivity|]);
    try reflexivity.
  all: split; [now rewrite no_existing | split; reflexivity].
Qed.

Lemma batch_of_data (h : Host) (req : Upload.request) (emps emps' : list employee)
    (data : list attendance) :
  fold_left Upload.attachEmployee (Upload.employeesOf (batchOf h req))
    (emps, batchOf h req) = (emps', data) ->
  map unassigned data = map unassigned (batchOf h req).
Proof.
  intros E.
  pose proof (attachEmployee_unassigned (Upload.employeesOf (batchOf h req)) emps
                (batchOf h req)) as H.
  now rewrite E in H.
Qed.

Lemma batchOf_unassigned (h : Host) (req : Upload.request) :
  map unassigned (batchOf h req) = batchOf h req.
Proof.
  unfold batchOf. destruct (Upload.file req); [apply eachRow_unassigned | reflexivity].
Qed.

Lemma batchOf_canonical (h : Host) (req : Upload.request) :
  Forall canonical (batchOf h req).
Proof.
  unfold batchOf. destruct (Upload.file req); [apply eachRow_canonical | constructor].
Qed.

Lemma batchOf_monthYear (h : Host) (req : Upload.request) :
  Forall (fun a => monthYear a = Upload.monthYearOf req) (batchOf h req).
Proof.
  unfold batchOf. destruct (Upload.file req); [apply eachRow_monthYear | constructor].
Qed.

(** Two lists of records that differ in the employee keys only. *)
Lemma same_but_keys {B : Type} (f : attendance -> B) (l l' : list attendance) :
  (forall r, f (unassigned r) = f r) ->
  map unassigned l = map unassigned l' -> map f l = map f l'.
Proof.
  intros Hf E. transitivity (map f (map unassigned l)).
  - rewrite map_map. apply map_ext. intros r. symmetry. apply Hf.
  - rewrite E, map_map. apply map_ext, Hf.
Qed.

Lemma data_monthYear (h : Host) (req : Upload.request) (data : list attendance) :
  map unassigned data = map unassigned (batchOf h req) ->
  forall r, In r data -> hasMonthYear (Upload.monthYearOf req) r = true.
Proof.
  intros E r Hr.
  pose proof (same_but_keys monthYear _ _ (fun _ => eq_refl) E) as Em.
  assert (Hm : In (monthYear r) (map monthYear (batchOf h req))).
  { rewrite <- Em. now apply in_map. }
  apply in_map_iff in Hm as (b & Eb & Hb).
  pose proof (proj1 (Forall_forall _ _) (batchOf_monthYear h req) b Hb) as Hlabel.
  cbn beta in Hlabel. unfold hasMonthYear. apply String.eqb_eq. congruence.
Qed.

(** *** Employees *)

Lemma findOrCreate_finds (emps : list employee) (n : string) :
  exists e, In e (snd (Upload.findOrCreate emps n))
            /\ _id e = fst (Upload.findOrCreate emps n) /\ name e = n.
Proof.
  unfold Upload.findOrCreate.
  destruct (find (fun e => String.eqb (name e) n) emps) as [e|] eqn:E; cbn [fst snd].
  - apply find_some in E as [Hin He]. exists e. apply String.eqb_eq in He. auto.
  - eexists. split; [apply in_or_app; right; left; reflexivity|]. split; reflexivity.
Qed.

Lemma findOrCreate_keeps (emps : list employee) (n : string) :
  exists created, snd (Upload.findOrCreate emps n) = emps ++ created.
Proof.
  unfold Upload.findOrCreate.
  destruct (find _ emps); cbn [snd]; [exists []; now rewrite app_nil_r | eauto].
Qed.

Lemma findOrCreate_NoDup (emps : list employee) (n : string) :
  NoDup (map name emps) -> NoDup (map name (snd (Upload.findOrCreate emps n))).
Proof.
  intros H. unfold Upload.findOrCreate.
  destruct (find (fun e => String.eqb (name e) n) emps) as [e|] eqn:E; cbn [snd];
    [exact H|].
  rewrite map_app. cbn [map name].
  apply NoDup_app_remove_l with (l := []). cbn [app].
  apply (Permutation_NoDup (l := n :: map name emps)).
  - apply Permutation_cons_append.
  - constructor; [|exact H]. intros C. apply in_map_iff in C as (e & He & Hin).
    pose proof (find_none _ _ E e Hin) as Hn. cbn beta in Hn.
    rewrite He, String.eqb_refl in Hn. discriminate.
Qed.

Lemma findOrCreate_leaves (emps : list employee) (n : string) :
  Forall (fun e => leavesPerMonth e = 2) emps ->
  Forall (fun e => leavesPerMonth e = 2) (snd (Upload.findOrCreate emps n)).
Proof.
  intros H. unfold Upload.findOrCreate.
  destruct (find _ emps); cbn [snd]; [exact H|].
  apply Forall_app. split; [exact H|]. now constructor.
Qed.

Lemma refersTo_more (emps created : list employee) (r : attendance) :
  refersTo emps r -> refersTo (emps ++ created) r.
Proof.
  intros (e & He & H). exists e. split; [apply in_or_app; now left | exact H].
Qed.

Lemma attachEmployee_step (emps emps' : list employee) (data data' : list attendance)
    (n : string) (done : list string) :
  Upload.attachEmployee (emps, data) n = (emps', data') ->
  (forall r, In r data -> In (employeeName r) done -> refersTo emps r) ->
  forall r, In r data' -> In (employeeName r) (n :: done) -> refersTo emps' r.
Proof.
  unfold Upload.attachEmployee.
  destruct (findOrCreate_finds emps n) as (e & He & Hid & Hn).
  destruct (findOrCreate_keeps emps n) as (created & Hk).
  destruct (Upload.findOrCreate emps n) as [id emps1]. cbn [fst snd] in *.
  intros E P r1 Hr1 Hname. inversion E; subst emps' data'; clear E.
  apply in_map_iff in Hr1 as (r & <- & Hr).
  destruct (String.eqb (employeeName r) n) eqn:En.
  - apply String.eqb_eq in En. exists e. cbn [withEmployeeId employeeId employeeName].
    split; [exact He|]. split; congruence.
  - rewrite Hk. apply refersTo_more. apply P; [exact Hr|].
    destruct Hname as [C | C]; [|exact C].
    rewrite C, String.eqb_refl in En. discriminate.
Qed.

Lemma attachEmployee_fold (names : list string) (emps emps' : list employee)
    (data data' : list attendance) (done : list string) :
  fold_left Upload.attachEmployee names (emps, data) = (emps', data') ->
  (forall r, In r data -> In (employeeName r) done -> refersTo emps r) ->
  (exists created, emps' = emps ++ created)
  /\ (NoDup (map name emps) -> NoDup (map name emps'))
  /\ (Forall (fun e => leavesPerMonth e = 2) emps ->
      Forall (fun e => leavesPerMonth e = 2) emps')
  /\ forall r, In r data' ->
       In (employeeName r) done \/ In (employeeName r) names -> refersTo emps' r.
Proof.
  revert emps data done.
  induction names as [|n names IH]; intros emps data done E P; cbn [fold_left] in E.
  - inversion E; subst. split; [exists []; now rewrite app_nil_r|].
    split; [auto|]. split; [auto|]. intros r Hr [H | []]. now apply P.
  - destruct (Upload.attachEmployee (emps, data) n) as [emps1 data1] eqn:E1.
    pose proof (attachEmployee_step _ _ _ _ _ done E1 P) as P1.
    destruct (IH emps1 data1 (n :: done) E P1) as ((created & Hc) & Hnd & Hlv & Hr).
    unfold Upload.attachEmployee in E1.
    destruct (findOrCreate_keeps emps n) as (created1 & Hk).
    pose proof (findOrCreate_NoDup emps n) as Hnd1.
    pose proof (findOrCreate_leaves emps n) as Hlv1.
    destruct (Upload.findOrCreate emps n) as [id emps2]. cbn [snd] in *.
    inversion E1; subst emps1 data1; clear E1. subst emps2.
    split; [exists (created1 ++ created); now rewrite app_assoc|].
    split; [auto|]. split; [auto|].
    intros r Hin Hname. apply Hr; [exact Hin|].
    cbn [In]. destruct Hname as [H | [H | H]]; auto.
Qed.

(** *** Well-formed records *)

Lemma calculateWorkedHours_nonneg (h : Host) (i o : cell) :
  (0 <= Helpers.calculateWorkedHours h i o)%Q.
Proof.
  unfold Helpers.calculateWorkedHours.
  destruct (negb (truthy i) || negb (truthy o)); [apply Qle_refl|].
  destruct (Moment.momentTime h i); [|apply Qle_refl].
  destruct (Moment.momentTime h o); [|apply Qle_refl].
  apply Math_max_0_nonneg.
Qed.

Lemma classify_hours (h : Host) (d : string) (i o : cell) :
  let '(s, l, w) := Upload.classify h d i o in
  (s = Present <-> (0 < w)%Q) /\ (s <> Present -> (w == 0)%Q).
Proof.
  unfold Upload.classify.
  destruct (String.eqb d "Sunday").
  - split; [split; [discriminate | intros C; now apply Qlt_irrefl in C] | reflexivity].
  - rewrite andb_false_r.
    destruct (negb (truthy i) || negb (truthy o)).
    + split; [split; [discriminate | intros C; now apply Qlt_irrefl in C] | reflexivity].
    + pose proof (calculateWorkedHours_nonneg h i o) as Hn.
      destruct (Qeq_bool (Helpers.calculateWorkedHours h i o) 0) eqn:E.
      * apply Qeq_bool_iff in E. split; [|intros _; exact E].
        split; [discriminate|]. intros C. rewrite E in C. now apply Qlt_irrefl in C.
      * apply Qeq_bool_neq in E. split; [|intros C; now contradiction C].
        split; [|reflexivity]. intros _.
        apply Qle_lteq in Hn as [Hn | Hn]; [exact Hn|]. symmetry in Hn. contradiction.
Qed.

Lemma parseDate_midnight (h : Host) (v : cell) (d : Z) :
  Upload.parseDate h v = Some d -> TimeWithinDay d = 0.
Proof.
  destruct v as [|q|s|[t|]|b|]; cbn [Upload.parseDate]; try discriminate.
  - intros E. apply TimeClip_Some in E as [-> _].
    change Upload.excelEpoch with (-25569 * msPerDay).
    change 86400000 with msPerDay.
    unfold TimeWithinDay. rewrite <- Z.mul_add_distr_r. apply Z.mod_mul. discriminate.
  - destruct (Moment.configFromStringAndArray h true Upload.formats s) as [m|];
      [|discriminate].
    destruct (Moment.a_valid m); [|discriminate].
    intros E. apply Date_UTC_Some in E. rewrite E. apply TimeWithinDay_MakeDate.
  - intros E. apply Date_UTC_Some in E. rewrite E. apply TimeWithinDay_MakeDate.
Qed.

Lemma processRow_name (h : Host) (my : string) (n : nat) (r : Upload.row) (a : attendance) :
  Upload.processRow h my n r = Some a -> Upload.cell1 r <> ""%string.
Proof.
  unfold Upload.processRow.
  destruct (n =? 1)%nat; [discriminate|].
  destruct (String.eqb (Upload.cell1 r) "") eqn:E; [discriminate|].
  intros _ C. rewrite C in E. discriminate.
Qed.

Lemma canonical_wellFormed (r : attendance) : canonical r -> wellFormed r.
Proof.
  intros (h & my & n & row & E).
  pose proof (processRow_name _ _ _ _ _ E) as Hname.
  apply processRow_Some in E as (d & Hd & E). cbn zeta in E.
  apply parseDate_midnight in Hd.
  pose proof (classify_status h (Moment.format_dddd d) (Upload.cell3 row) (Upload.cell4 row))
    as Hc.
  pose proof (classify_hours h (Moment.format_dddd d) (Upload.cell3 row) (Upload.cell4 row))
    as Hh.
  destruct (Upload.classify h (Moment.format_dddd d) (Upload.cell3 row) (Upload.cell4 row))
    as [[s l] w].
  destruct Hc as (_ & Hl & Hsun & Hhol & _). destruct Hh as (Hp & Hz).
  pose proof (f_equal employeeName E) as En.
  pose proof (f_equal date E) as Edate.
  pose proof (f_equal dayOfWeek E) as Eday.
  pose proof (f_equal workedHours E) as Ew.
  pose proof (f_equal expectedHours E) as Ee.
  pose proof (f_equal isLeave E) as El.
  pose proof (f_equal isHoliday E) as Eh.
  pose proof (f_equal status E) as Es.
  cbn [unassigned employeeName date dayOfWeek workedHours expectedHours isLeave
       isHoliday status] in *.
  unfold wellFormed. rewrite En, Edate, Eday, Ew, Ee, El, Eh, Es.
  split; [exact Hname|]. split; [exact Hd|]. split; [reflexivity|].
  split; [reflexivity|].
  split; [rewrite String.eqb_eq; apply format_dddd_Sunday|].
  split; [split; [exact Hhol | intros C; now apply Hsun]|].
  split; [split; intros C; now apply Hl|].
  split; [exact Hp | exact Hz].
Qed.

(** *** The employees of a store that uploads built *)

Lemma reachable_employees (db : store) :
  reachable db ->
  NoDup (map name (Employee db))
  /\ Forall (fun e => leavesPerMonth e = 2) (Employee db)
  /\ Forall (refersTo (Employee db)) (Attendance db).
Proof.
  induction 1 as [|h req db Hr (IHn & IHl & IHr)]; [repeat split; constructor|].
  destruct (Upload.uploadAttendance h req db) as [[code payload | u] db'] eqn:E;
    cbn [snd].
  - apply uploadAttendance_Fail in E. subst. now repeat split.
  - apply uploadAttendance_stores in E as (data & _ & _ & _ & Ef & Ea & _).
    pose proof (batch_of_data _ _ _ _ _ Ef) as Eu.
    destruct (attachEmployee_fold _ _ _ _ _ [] Ef)
      as ((created & Hc) & Hn & Hl & Hd); [intros r _ []|].
    split; [now apply Hn|]. split; [now apply Hl|].
    rewrite Ea. apply Forall_app. split.
    + apply Forall_forall. intros r Hin. apply filter_In in Hin as [Hin _].
      rewrite Hc. apply refersTo_more.
      now apply (proj1 (Forall_forall _ _) IHr).
    + apply Forall_forall. intros r Hin. apply Hd; [exact Hin|]. right.
      apply (distinct_all String.eqb String.eqb_eq).
      rewrite <- (same_but_keys employeeName _ _ (fun _ => eq_refl) Eu).
      now apply in_map.
Qed.

(** Two employee documents of the same name are one. *)
Lemma same_name_same_employee (emps : list employee) (e1 e2 : employee) :
  NoDup (map name emps) -> In e1 emps -> In e2 emps -> name e1 = name e2 -> e1 = e2.
Proof.
  induction emps as [|e emps IH]; intros Hn H1 H2 E; [contradiction|].
  cbn [map] in Hn. apply NoDup_cons_iff in Hn as [Hx Hn].
  destruct H1 as [<- | H1], H2 as [<- | H2]; auto.
  - exfalso. apply Hx. rewrite E. now apply in_map.
  - exfalso. apply Hx. rewrite <- E. now apply in_map.
Qed.

(** In such a store the name of a document tells its employee key. *)
Lemma reachable_keys (db : store) (r1 r2 : attendance) :
  reachable db -> In r1 (Attendance db) -> In r2 (Attendance db) ->
  employeeName r1 = employeeName r2 -> employeeId r1 = employeeId r2.
Proof.
  intros H H1 H2 E. destruct (reachable_employees db H) as (Hn & _ & Hr).
  destruct (proj1 (Forall_forall _ _) Hr r1 H1) as (e1 & He1 & -> & N1).
  destruct (proj1 (Forall_forall _ _) Hr r2 H2) as (e2 & He2 & -> & N2).
  f_equal. f_equal. apply (same_name_same_employee (Employee db)); congruence.
Qed.

End UploadMore.



(** X2. A successful upload replaces its month and nothing else: the
    documents stored under the label of the request are afterwards the
    records built from the accepted rows, in row order and differing from
    them in the employee key only; the documents of every other label are
    the ones stored before, in their order; and the employee documents
    stored before are kept, new ones being added after them. *)
Theorem upload_replaces_its_month (h : JS.Host) (req : Upload.request)
    (db db' : store) (u : Upload.uploaded) :
  Upload.uploadAttendance h req db = (Done u, db') ->
  map unassigned (filter (hasMonthYear (Upload.monthYearOf req)) (Attendance db'))
  = batchOf h req
  /\ otherMonths (Upload.monthYearOf req) (Attendance db')
     = otherMonths (Upload.monthYearOf req) (Attendance db)
  /\ exists created, Employee db' = Employee db ++ created.
Proof.
  intros E.
  apply UploadMore.uploadAttendance_stores in E as (data & _ & _ & _ & Ef & Ea & _).
  pose proof (UploadMore.batch_of_data _ _ _ _ _ Ef) as Eu.
  pose proof (UploadMore.data_monthYear _ _ _ Eu) as Hm.
  rewrite UploadMore.batchOf_unassigned in Eu.
  rewrite Ea. unfold otherMonths. rewrite !filter_app. split; [|split].
  - rewrite (GroupFacts.filter_false (hasMonthYear (Upload.monthYearOf req))
               (filter _ (Attendance db))).
    + cbn [app]. rewrite GroupFacts.filter_true by exact Hm. now rewrite Eu.
    + intros a Ha. apply filter_In in Ha as [_ Ha]. now apply negb_true_iff in Ha.
  - rewrite (GroupFacts.filter_false _ data).
    + rewrite app_nil_r. apply GroupFacts.filter_true.
      intros a Ha. now apply filter_In in Ha.
    + intros a Ha. now rewrite (Hm a Ha).
  - destruct (UploadMore.attachEmployee_fold _ _ _ _ _ [] Ef) as (Hc & _); [|exact Hc].
    intros r _ [].
Qed.

Lemma upload_replaces_witness :
  map unassigned (filter (hasMonthYear "2024-03") (Attendance oneHourStore))
  = batchOf ist (march2024 oneHourSheet)
  /\ otherMonths "2024-03" (Attendance oneHourStore)
     = otherMonths "2024-03" (Attendance noDocuments)
  /\ exists created, Employee oneHourStore = Employee noDocuments ++ created.
Proof.
  apply (upload_replaces_its_month ist (march2024 oneHourSheet) noDocuments oneHourStore
           oneHourUploaded).
  vm_compute. reflexivity.
Defined.

(** X3. In every store that uploads can build, each attendance document
    carries the key of a stored employee document of the same name, no two
    employee documents have the same name, and so two attendance documents
    of the same name carry the same key: grouping by key and name is
    grouping by name. *)
Theorem stored_records_refer_to_employees (db : store) :
  reachable db ->
  NoDup (map name (Employee db))
  /\ Forall (refersTo (Employee db)) (Attendance db)
  /\ (forall r1 r2, In r1 (Attendance db) -> In r2 (Attendance db) ->
        employeeName r1 = employeeName r2 -> employeeId r1 = employeeId r2).
Proof.
  intros H. destruct (UploadMore.reachable_employees db H) as (Hn & _ & Hr).
  split; [exact Hn|]. split; [exact Hr|].
  intros r1 r2. now apply UploadMore.reachable_keys.
Qed.

Lemma stored_records_refer_witness :
  NoDup (map name (Employee oneHourStore))
  /\ Forall (refersTo (Employee oneHourStore)) (Attendance oneHourStore)
  /\ (forall r1 r2, In r1 (Attendance oneHourStore) -> In r2 (Attendance oneHourStore) ->
        employeeName r1 = employeeName r2 -> employeeId r1 = employeeId r2).
Proof.
  apply (stored_records_refer_to_employees oneHourStore).
  apply reach_upload, reach_empty.
Defined.

(** X4. In every store that uploads can build, each attendance document is
    well formed: it has a name, its date is a midnight UTC, its day name
    and its expected hours are those of that date, it is a holiday exactly
    when the date is a Sunday, its status is Holiday, Leave or Present
    exactly as it is a holiday, a leave or has hours worked, and no hours
    are worked on a day that is not Present. *)
Theorem stored_records_are_wellFormed (db : store) :
  reachable db -> Forall wellFormed (Attendance db).
Proof.
  intros H. apply HandlerFacts.reachable_canonical in H.
  eapply Forall_impl; [|exact H]. exact UploadMore.canonical_wellFormed.
Qed.

Lemma stored_records_wellFormed_witness :
  Forall wellFormed (Attendance oneHourStore).
Proof.
  apply (stored_records_are_wellFormed oneHourStore).
  apply reach_upload, reach_empty.
Defined.

(* ================================================================== *)
(** ** The answer of an upload and the month query *)
(* ================================================================== *)

Module SummaryFacts.
Import JS QFacts ListFacts AggregatorFacts GroupFacts UploadMore.

Section FilterSort.
Context {A : Type} (le le' : A -> A -> bool) (p : A -> bool).
Hypothesis le_total : forall a b, le a b = true \/ le b a = true.
Hypothesis le_trans : forall a b c, le a b = true -> le b c = true -> le a c = true.
Hypothesis le_le' : forall a b, p a = true -> p b = true -> le a b = le' a b.

Lemma insertSorted_first (x : A) (l : list A) :
  Forall (fun z => le' x z = true) l -> insertSorted le' x l = x :: l.
Proof.
  destruct l as [|y l]; [reflexivity|]. intros H. cbn [insertSorted].
  now rewrite (Forall_inv H).
Qed.

Lemma filter_insertSorted (x : A) (s : list A) :
  StronglySorted (fun a b => le a b = true) s ->
  filter p (insertSorted le x s)
  = if p x then insertSorted le' x (filter p s) else filter p s.
Proof.
  induction 1 as [|y s Hs IH Hy]; cbn [insertSorted filter].
  - now destruct (p x).
  - destruct (le x y) eqn:E.
    + cbn [filter]. destruct (p x) eqn:Px; [|reflexivity].
      symmetry. apply insertSorted_first.
      apply Forall_forall. intros z Hz.
      assert (Hxz : le x z = true).
      { change (In z (filter p (y :: s))) in Hz. apply filter_In in Hz as [[<- | Hz] _].
        - exact E.
        - apply le_trans with y; [exact E|].
          now apply (proj1 (Forall_forall _ _) Hy). }
      rewrite <- le_le'; [exact Hxz | exact Px |].
      change (In z (filter p (y :: s))) in Hz. now apply filter_In in Hz.
    + cbn [filter]. rewrite IH.
      destruct (p y) eqn:Py; [|reflexivity].
      destruct (p x) eqn:Px; [|reflexivity].
      cbn [insertSorted]. now rewrite <- le_le', E.
Qed.

(** Sorting and then keeping the elements of [p] is sorting the elements
    of [p], when the two orders agree on them. *)
Lemma filter_sortBy (l : list A) :
  filter p (sortBy le l) = sortBy le' (filter p l).
Proof.
  induction l as [|x l IH]; [reflexivity|]. cbn [sortBy filter].
  rewrite filter_insertSorted by now apply sortBy_sorted.
  rewrite IH. now destruct (p x).
Qed.

End FilterSort.

Local Open Scope Q_scope.

Lemma productivityOf_comp (W W' E E' : Q) :
  W == W' -> E == E' -> productivityOf W E == productivityOf W' E'.
Proof.
  intros HW HE. unfold productivityOf.
  destruct (Qlt_le_dec 0 E), (Qlt_le_dec 0 E'); try reflexivity.
  - now rewrite HW, HE.
  - exfalso. rewrite HE in q. now apply (Qlt_irrefl 0), Qlt_le_trans with E'.
  - exfalso. rewrite <- HE in q0. now apply (Qlt_irrefl 0), Qlt_le_trans with E.
Qed.

Lemma sumOf_same {A : Type} (f : A -> Q) (l l' : list A) :
  map f l = map f l' -> sumOf f l == sumOf f l'.
Proof.
  intros E.
  rewrite <- (sumOf_map (fun q => q) f l), <- (sumOf_map (fun q => q) f l').
  now rewrite E.
Qed.

Local Open Scope Z_scope.

(** The month query computes, of the sorted records, the statistic the
    upload computes of the records as they are. *)
Lemma statisticOf_sorted (data : list attendance) (n : string) :
  Routes.statisticOf (sortBy Routes.byNameThenDate data) n = Upload.statisticOf data n.
Proof.
  unfold Routes.statisticOf, Upload.statisticOf.
  set (p := fun d : attendance => String.eqb (employeeName d) n).
  assert (Hs : filter p (sortBy Routes.byNameThenDate data)
               = sortBy (fun a b => date a <=? date b) (filter p data)).
  { apply filter_sortBy.
    - exact byNameThenDate_total.
    - exact byNameThenDate_trans.
    - intros a b Ha Hb. unfold p in Ha, Hb. apply String.eqb_eq in Ha, Hb.
      unfold Routes.byNameThenDate. now rewrite Ha, Hb, compare_refl. }
  assert (Hp : Permutation (filter p (sortBy Routes.byNameThenDate data)) (filter p data)).
  { apply filter_perm, sortBy_perm. }
  pose proof (sumOf_perm expectedHours _ _ Hp) as Se.
  pose proof (sumOf_perm workedHours _ _ Hp) as Sw.
  f_equal.
  - now apply toFixed_eq.
  - now apply toFixed_eq.
  - apply Permutation_length, filter_perm, Hp.
  - apply toFixed_eq. now apply productivityOf_comp.
  - now rewrite Hs.
Qed.

Lemma count_ext {A : Type} (f g : A -> nat) (l : list A) (n : nat) :
  (forall a, In a l -> f a = g a) ->
  fold_left (fun s a => (s + f a)%nat) l n = fold_left (fun s a => (s + g a)%nat) l n.
Proof.
  revert n. induction l as [|x l IH]; intros n H; [reflexivity|]. cbn [fold_left].
  rewrite (H x (or_introl eq_refl)). apply IH. intros a Ha. apply H. now right.
Qed.

Lemma stored_month (h : Host) (req : Upload.request) (db db' : store)
    (data : list attendance) :
  map unassigned data = map unassigned (batchOf h req) ->
  Attendance db' = otherMonths (Upload.monthYearOf req) (Attendance db) ++ data ->
  filter (hasMonthYear (Upload.monthYearOf req)) (Attendance db') = data.
Proof.
  intros Eu ->. rewrite filter_app.
  rewrite (filter_false (hasMonthYear (Upload.monthYearOf req)) (otherMonths _ _)).
  - cbn [app]. apply filter_true. exact (data_monthYear _ _ _ Eu).
  - intros a Ha. apply filter_In in Ha as [_ Ha]. now apply negb_true_iff in Ha.
Qed.

(** The month query over what an upload stored: the records of the upload
    sorted, and of them the statistics the upload answered. *)
Lemma queried_statistics (h : Host) (req : Upload.request) (db db' : store)
    (u : Upload.uploaded) :
  Upload.uploadAttendance h req db = (Done u, db') ->
  Routes.findMonth db' (Upload.monthYearOf req) <> []
  /\ List.length (Routes.findMonth db' (Upload.monthYearOf req))
     = Upload.totalRecords (Upload.u_summary u)
  /\ List.length (distinct String.eqb []
                    (map employeeName (Routes.findMonth db' (Upload.monthYearOf req))))
     = Upload.totalEmployees (Upload.u_summary u)
  /\ Permutation
       (map (Routes.statisticOf (Routes.findMonth db' (Upload.monthYearOf req)))
          (distinct String.eqb []
             (map employeeName (Routes.findMonth db' (Upload.monthYearOf req)))))
       (Upload.statistics u).
Proof.
  intros E.
  apply uploadAttendance_stores in E as (data & Hne & _ & _ & Ef & Ea & Es & Et).
  pose proof (batch_of_data _ _ _ _ _ Ef) as Eu.
  pose proof (stored_month _ _ _ _ _ Eu Ea) as Ed.
  assert (Hnames : map employeeName data = map employeeName (batchOf h req)).
  { exact (same_but_keys employeeName _ _ (fun _ => eq_refl) Eu). }
  unfold Routes.findMonth. rewrite Ed. clear Ed.
  assert (Hperm : Permutation (sortBy Routes.byNameThenDate data) data)
    by apply sortBy_perm.
  assert (Hsame : forall k, In k (map employeeName (sortBy Routes.byNameThenDate data))
                            <-> In k (map employeeName (batchOf h req))).
  { intros k. rewrite <- Hnames. split; apply Permutation_in.
    - now apply Permutation_map.
    - now apply Permutation_map, Permutation_sym. }
  rewrite Es, Et. cbn [Upload.totalRecords Upload.totalEmployees].
  split.
  { intros C. rewrite C in Hperm. apply Permutation_nil in Hperm.
    rewrite Hperm, batchOf_unassigned in Eu. cbn [map] in Eu. apply Hne. now symmetry. }
  split; [now apply Permutation_length|].
  split.
  { unfold Upload.employeesOf. now apply (distinct_length String.eqb String.eqb_eq). }
  rewrite (map_ext _ _ (statisticOf_sorted data)).
  apply Permutation_map, NoDup_Permutation.
  - apply (distinct_NoDup String.eqb String.eqb_eq).
  - apply (distinct_NoDup String.eqb String.eqb_eq).
  - intros k. unfold Upload.employeesOf.
    rewrite !(distinct_all String.eqb String.eqb_eq). apply Hsame.
Qed.

End SummaryFacts.



(** X6. The summary an upload answers counts what it stored: the number
    of records is the number of rows accepted, the number of employees is
    the number of statistics, no two statistics are of the same name, the
    daily breakdowns hold as many days as there are records, and the
    worked and the expected hours of the statistics add up to those of the
    accepted rows. *)
Theorem upload_summary_counts (h : JS.Host) (req : Upload.request)
    (db db' : store) (u : Upload.uploaded) :
  Upload.uploadAttendance h req db = (Done u, db') ->
  Upload.totalRecords (Upload.u_summary u) = List.length (batchOf h req)
  /\ Upload.totalEmployees (Upload.u_summary u) = List.length (Upload.statistics u)
  /\ NoDup (map s_employeeName (Upload.statistics u))
  /\ fold_left (fun s st => (s + List.length (dailyBreakdown st))%nat)
       (Upload.statistics u) 0%nat
     = Upload.totalRecords (Upload.u_summary u)
  /\ (sumOf totalWorkedHours (Upload.statistics u) == sumOf workedHours (batchOf h req))%Q
  /\ (sumOf totalExpectedHours (Upload.statistics u)
      == sumOf expectedHours (batchOf h req))%Q.
Proof.
  intros E.
  apply UploadMore.uploadAttendance_stores in E
    as (data & Hne & Gm & Gy & Ef & Ea & Es & Et).
  pose proof (UploadMore.batch_of_data _ _ _ _ _ Ef) as Eu.
  assert (Hnames : map employeeName (batchOf h req) = map employeeName data).
  { symmetry. exact (UploadMore.same_but_keys employeeName _ _ (fun _ => eq_refl) Eu). }
  assert (Hc : Forall canonical data).
  { apply (AggregatorFacts.canonical_map_unassigned (batchOf h req)); [exact Eu|].
    apply UploadMore.batchOf_canonical. }
  pose proof (GroupFacts.groups_all employeeName String.eqb String.eqb_eq data) as Hg.
  rewrite Es, Et. cbn [Upload.totalRecords Upload.totalEmployees].
  unfold Upload.employeesOf. rewrite Hnames.
  set (names := distinct String.eqb [] (map employeeName data)) in *.
  split.
  { rewrite <- (length_map unassigned data), Eu. now rewrite length_map. }
  split; [now rewrite length_map|].
  split.
  { rewrite map_map. cbn [Upload.statisticOf s_employeeName]. rewrite map_id.
    apply (GroupFacts.distinct_NoDup String.eqb String.eqb_eq). }
  split.
  { rewrite GroupFacts.count_map.
    rewrite <- (Permutation_length Hg), GroupFacts.count_flat_map.
    apply SummaryFacts.count_ext. intros n _.
    cbn [Upload.statisticOf dailyBreakdown]. rewrite length_map.
    apply Permutation_length, ListFacts.sortBy_perm. }
  assert (Hsum : forall f : attendance -> Q,
             Forall (fun r => hundredths (f r)) data ->
             (forall r, f (unassigned r) = f r) ->
             (sumOf (fun n => JS.toFixed 2
                                (sumOf f (filter (fun r => String.eqb (employeeName r) n)
                                            data))) names
              == sumOf f (batchOf h req))%Q).
  { intros f Hf Hu.
    rewrite <- (SummaryFacts.sumOf_same f data (batchOf h req))
      by exact (UploadMore.same_but_keys f _ _ Hu Eu).
    rewrite <- (ListFacts.sumOf_perm f _ _ Hg), GroupFacts.sumOf_flat_map.
    apply GroupFacts.sumOf_ext. intros n _.
    apply QFacts.toFixed_hundredths, ListFacts.sumOf_hundredths.
    now apply AggregatorFacts.Forall_filter. }
  split.
  - rewrite GroupFacts.sumOf_map. cbn [Upload.statisticOf totalWorkedHours].
    apply Hsum; [|reflexivity].
    eapply Forall_impl; [|exact Hc]. intros r Hr.
    now apply AggregatorFacts.canonical_fields.
  - rewrite GroupFacts.sumOf_map. cbn [Upload.statisticOf totalExpectedHours].
    apply Hsum; [|reflexivity].
    eapply Forall_impl; [|exact Hc]. intros r Hr.
    now apply AggregatorFacts.canonical_fields.
Qed.

Lemma upload_summary_witness :
  Upload.totalRecords (Upload.u_summary oneHourUploaded)
  = List.length (batchOf ist (march2024 oneHourSheet))
  /\ Upload.totalEmployees (Upload.u_summary oneHourUploaded)
     = List.length (Upload.statistics oneHourUploaded)
  /\ NoDup (map s_employeeName (Upload.statistics oneHourUploaded))
  /\ fold_left (fun s st => (s + List.length (dailyBreakdown st))%nat)
       (Upload.statistics oneHourUploaded) 0%nat
     = Upload.totalRecords (Upload.u_summary oneHourUploaded)
  /\ (sumOf totalWorkedHours (Upload.statistics oneHourUploaded)
      == sumOf workedHours (batchOf ist (march2024 oneHourSheet)))%Q
  /\ (sumOf totalExpectedHours (Upload.statistics oneHourUploaded)
      == sumOf expectedHours (batchOf ist (march2024 oneHourSheet)))%Q.
Proof.
  apply (upload_summary_counts ist (march2024 oneHourSheet) noDocuments oneHourStore
           oneHourUploaded).
  vm_compute. reflexivity.
Defined.

(* ================================================================== *)
(** ** Days, months and local time *)
(* ================================================================== *)

Module CalendarMore.
Import JS JSFacts.

Lemma daysInMonth_table (y m : Z) :
  0 <= m <= 11 ->
  Moment.daysInMonth y m
  = monthStart (if isLeap y then 1 else 0) (m + 1)
    - monthStart (if isLeap y then 1 else 0) m.
Proof.
  intros Hm. unfold Moment.daysInMonth.
  rewrite (Z.mod_small m 12), Z.sub_diag by lia.
  change (0 / 12) with 0. rewrite Z.add_0_r.
  assert (H : m = 0 \/ m = 1 \/ m = 2 \/ m = 3 \/ m = 4 \/ m = 5 \/ m = 6 \/ m = 7
              \/ m = 8 \/ m = 9 \/ m = 10 \/ m = 11) by lia.
  repeat (destruct H as [-> | H]; [destruct (isLeap y); reflexivity|]).
  subst m. destruct (isLeap y); reflexivity.
Qed.

Lemma monthOfDayWithinYear_bounds (leap dwy : Z) :
  0 <= dwy < 365 + leap ->
  monthStart leap (monthOfDayWithinYear leap dwy) <= dwy
  /\ dwy < monthStart leap (monthOfDayWithinYear leap dwy + 1).
Proof.
  intros H. unfold monthOfDayWithinYear.
  split_leb;
    match goal with
    | |- context [monthStart _ (?m + 1)] =>
        let v := eval vm_compute in (m + 1) in change (m + 1) with v
    end;
    cbn [monthStart]; lia.
Qed.

(** The date of a time value is a day of its month. *)
Lemma DateFromTime_range (t : Z) :
  1 <= DateFromTime t <= Moment.daysInMonth (YearFromTime t) (MonthFromTime t).
Proof.
  pose proof (DayWithinYear_range t) as Hr.
  rewrite daysInMonth_table by apply MonthFromTime_range.
  unfold DateFromTime, MonthFromTime, InLeapYear.
  unfold DaysInYear in Hr.
  destruct (isLeap (YearFromTime t)).
  - pose proof (monthOfDayWithinYear_bounds 1 (DayWithinYear t) ltac:(lia)). lia.
  - pose proof (monthOfDayWithinYear_bounds 0 (DayWithinYear t) ltac:(lia)). lia.
Qed.

(** A midnight UTC is the same day in local time east of Greenwich, and
    the day before west of it. *)
Lemma Day_shift (t c : Z) :
  TimeWithinDay t = 0 -> 0 <= c < msPerDay -> Day (t + c) = Day t.
Proof.
  unfold TimeWithinDay, Day, msPerDay. intros H Hc. Z.div_mod_to_equations. lia.
Qed.

Lemma Day_shift_back (t c : Z) :
  TimeWithinDay t = 0 -> - msPerDay <= c < 0 -> Day (t + c) = Day (t - msPerDay).
Proof.
  unfold TimeWithinDay, Day, msPerDay. intros H Hc. Z.div_mod_to_equations. lia.
Qed.

Lemma weekdays_inj (i j : nat) :
  (i < 7)%nat -> (j < 7)%nat ->
  nth i Moment.weekdays ""%string = nth j Moment.weekdays ""%string -> i = j.
Proof.
  intros Hi Hj.
  do 7 (destruct i as [|i];
        [do 7 (destruct j as [|j];
               [cbn; intros E; try reflexivity; discriminate E|]); lia|]).
  lia.
Qed.

Lemma WeekDay_range (t : Z) : 0 <= WeekDay t < 7.
Proof. unfold WeekDay. apply Z.mod_pos_bound. lia. Qed.

(** Two time values of the same day name are on the same day of the week. *)
Lemma format_dddd_inj (a b : Z) :
  Moment.format_dddd a = Moment.format_dddd b -> WeekDay a = WeekDay b.
Proof.
  unfold Moment.format_dddd. intros E.
  pose proof (WeekDay_range a). pose proof (WeekDay_range b).
  apply weekdays_inj in E; lia.
Qed.

Lemma format_dddd_of_Day (a b : Z) :
  Day a = Day b -> Moment.format_dddd a = Moment.format_dddd b.
Proof. unfold Moment.format_dddd, WeekDay. now intros ->. Qed.

Lemma format_of_Day (h1 h2 : Host) (t1 t2 : Z) (f : list Moment.token) :
  Day (LocalTime h1 t1) = Day (LocalTime h2 t2) ->
  Forall (fun k => k <> Moment.HH /\ k <> Moment.mm) f ->
  Moment.format h1 (Some t1) f = Moment.format h2 (Some t2) f.
Proof.
  intros E Hf. cbn [Moment.format]. f_equal.
  apply map_ext_in. intros k Hk.
  destruct (fields_of_Day _ _ E) as (Ey & Em & Ed).
  pose proof (proj1 (Forall_forall _ _) Hf k Hk) as [H1 H2].
  destruct k; cbn [Moment.formatToken]; try congruence.
Qed.

End CalendarMore.

(** X7. The date helpers read a stored date in local time.  A stored date
    is a midnight UTC; on a host whose offset at that instant is zero or
    east of Greenwich (and less than a day) the helpers give the day name,
    the weekend flag, the month label and the printed date of that UTC day,
    and on a host west of Greenwich they give those of the day before, so
    that the day name differs from the one stored. *)
Theorem helpers_read_the_local_day (h : JS.Host) (t : Z) :
  JS.TimeWithinDay t = 0 ->
  - JS.msPerDay <= JS.LocalTZA h t true < JS.msPerDay ->
  let shown := if 0 <=? JS.LocalTZA h t true then t else t - JS.msPerDay in
  let utc := {| JS.LocalTZA := fun _ _ => 0; JS.now := JS.now h;
                JS.NumberToString := JS.NumberToString h |} in
  Helpers.getDayName h (Some t) = Moment.format_dddd shown
  /\ Helpers.isWeekend h (Some t) = ((JS.WeekDay shown =? 0) || (JS.WeekDay shown =? 6))
  /\ Helpers.getMonthYear h (Some t) = Helpers.getMonthYear utc (Some shown)
  /\ Helpers.formatDate h (CDate (Some t)) = Helpers.formatDate utc (CDate (Some shown))
  /\ (Helpers.getDayName h (Some t) = Moment.format_dddd t <-> 0 <= JS.LocalTZA h t true).
Proof.
  intros Ht Hc shown utc.
  assert (Hd : JS.Day (JS.LocalTime h t) = JS.Day shown).
  { unfold shown, JS.LocalTime. destruct (Z.leb_spec 0 (JS.LocalTZA h t true)).
    - apply CalendarMore.Day_shift; [exact Ht | lia].
    - apply CalendarMore.Day_shift_back; [exact Ht | lia]. }
  assert (Hu : JS.Day (JS.LocalTime h t) = JS.Day (JS.LocalTime utc shown)).
  { rewrite Hd. unfold JS.LocalTime. cbn [JS.LocalTZA utc]. now rewrite Z.add_0_r. }
  assert (Hname : Helpers.getDayName h (Some t) = Moment.format_dddd shown).
  { cbn [Helpers.getDayName]. now apply CalendarMore.format_dddd_of_Day. }
  split; [exact Hname|]. split.
  { unfold Helpers.isWeekend, Moment.day. cbn [option_map].
    unfold JS.WeekDay. now rewrite Hd. }
  split.
  { unfold Helpers.getMonthYear. apply CalendarMore.format_of_Day; [exact Hu|].
    repeat constructor; discriminate. }
  split.
  { unfold Helpers.formatDate. cbn [truthy negb].
    unfold JS.getFullYear, JS.getMonth, JS.getDate.
    destruct (JSFacts.fields_of_Day _ _ Hu) as (-> & -> & ->). reflexivity. }
  rewrite Hname. unfold shown.
  destruct (Z.leb_spec 0 (JS.LocalTZA h t true)) as [Hpos | Hneg].
  - split; [intros _; exact Hpos | intros _; reflexivity].
  - split; [|lia]. intros E. exfalso.
    apply CalendarMore.format_dddd_inj in E. revert E.
    unfold JS.WeekDay, JS.Day, JS.TimeWithinDay, JS.msPerDay in *.
    Z.div_mod_to_equations. lia.
Qed.

Lemma helpers_read_witness :
  Helpers.getDayName ist (Some 1709510400000) = Moment.format_dddd 1709510400000
  /\ Helpers.isWeekend ist (Some 1709510400000)
     = ((JS.WeekDay 1709510400000 =? 0) || (JS.WeekDay 1709510400000 =? 6))
  /\ Helpers.getMonthYear ist (Some 1709510400000) = "2024-03"%string
  /\ Helpers.formatDate ist (CDate (Some 1709510400000)) = Some "2024-03-04"%string.
Proof.
  destruct (helpers_read_the_local_day ist 1709510400000) as (H1 & H2 & H3 & H4 & _).
  - reflexivity.
  - vm_compute. split; [discriminate | reflexivity].
  - split; [exact H1|]. split; [exact H2|]. split.
    + rewrite H3. vm_compute. reflexivity.
    + rewrite H4. vm_compute. reflexivity.
Defined.

(* ================================================================== *)
(** ** A printed date read back *)
(* ================================================================== *)

Module ReadBack.
Import JS JSFacts Moment.

Lemma digit_ten (d : Z) :
  0 <= d <= 9 -> isDigit (digitChar d) = true /\ digitVal (digitChar d) = d.
Proof.
  intros Hd.
  assert (H : d = 0 \/ d = 1 \/ d = 2 \/ d = 3 \/ d = 4 \/ d = 5 \/ d = 6 \/ d = 7
              \/ d = 8 \/ d = 9) by lia.
  repeat (destruct H as [-> | H]; [split; reflexivity|]).
  subst d. split; reflexivity.
Qed.

Lemma intToString_four (y : Z) :
  1000 <= y <= 9999 ->
  intToString y
  = String (digitChar (y / 10 / 10 / 10 mod 10))
      (String (digitChar (y / 10 / 10 mod 10))
         (String (digitChar (y / 10 mod 10)) (String (digitChar (y mod 10)) ""))).
Proof.
  intros Hy. unfold intToString.
  rewrite Z.abs_eq by lia.
  assert (Hlog : 9 <= Z.log2 y)
    by (change 9 with (Z.log2 512); apply Z.log2_le_mono; lia).
  destruct (Z.to_nat (Z.log2 y)) as [|[|[|k]]] eqn:E; try lia.
  cbn [digitsOf].
  destruct (Z.ltb_spec y 0) as [H0|_]; [lia|].
  destruct (Z.ltb_spec y 10) as [H1|_]; [lia|].
  destruct (Z.ltb_spec (y / 10) 10) as [H2|_]; [Z.div_mod_to_equations; lia|].
  destruct (Z.ltb_spec (y / 10 / 10) 10) as [H3|_]; [Z.div_mod_to_equations; lia|].
  destruct (Z.ltb_spec (y / 10 / 10 / 10) 10) as [_|H4]; [|Z.div_mod_to_equations; lia].
  reflexivity.
Qed.

Lemma four_digits (y : Z) :
  1000 <= y <= 9999 ->
  exists a b c d,
    intToString y = String a (String b (String c (String d "")))
    /\ isDigit a = true /\ isDigit b = true /\ isDigit c = true /\ isDigit d = true
    /\ toInt [a; b; c; d] = y.
Proof.
  intros Hy.
  destruct (digit_ten (y / 10 / 10 / 10 mod 10)) as [Ha Va];
    [Z.div_mod_to_equations; lia|].
  destruct (digit_ten (y / 10 / 10 mod 10)) as [Hb Vb]; [Z.div_mod_to_equations; lia|].
  destruct (digit_ten (y / 10 mod 10)) as [Hc Vc]; [Z.div_mod_to_equations; lia|].
  destruct (digit_ten (y mod 10)) as [Hd Vd]; [Z.div_mod_to_equations; lia|].
  eexists _, _, _, _. split; [exact (intToString_four y Hy)|].
  repeat (split; [assumption|]).
  unfold toInt. cbn [toIntFrom]. rewrite Va, Vb, Vc, Vd.
  Z.div_mod_to_equations. lia.
Qed.

Lemma two_digits (n : Z) :
  0 <= n <= 99 ->
  exists a b,
    padStart2 (intToString n) = String a (String b "")
    /\ isDigit a = true /\ isDigit b = true /\ toInt [a; b] = n.
Proof.
  intros Hn.
  assert (H : forallb
                (fun n => match padStart2 (intToString (Z.of_nat n)) with
                          | String a (String b EmptyString) =>
                              isDigit a && isDigit b && (toInt [a; b] =? Z.of_nat n)
                          | _ => false
                          end) (seq 0 100) = true) by (vm_compute; reflexivity).
  rewrite forallb_forall in H. specialize (H (Z.to_nat n)).
  rewrite Z2Nat.id in H by lia.
  assert (Hin : In (Z.to_nat n) (seq 0 100)) by (apply in_seq; lia).
  specialize (H Hin).
  destruct (padStart2 (intToString n)) as [|a [|b [|]]]; try discriminate.
  do 2 (apply andb_true_iff in H as [H ?]).
  exists a, b. repeat (split; [assumption || reflexivity|]). now apply Z.eqb_eq.
Qed.

Lemma search_here (r : regex) (s m : list ascii) :
  matchHere r s = Some m -> search r s = Some (m, skipn (List.length m) s).
Proof. intros H. destruct s; cbn [search]; now rewrite H. Qed.

Lemma parseToken_here (strict : bool) (st : parsing) (t : token) (m : list ascii) :
  matchHere (getParseRegexForToken t strict) (rest st) = Some m ->
  parseToken strict st t
  = {| rest := skipn (List.length m) (rest st);
       totalParsedInputLength := totalParsedInputLength st + List.length m;
       unusedTokens := unusedTokens st;
       empty := if isFormatToken t then false else empty st;
       _a := addTimeToArrayFromToken t m (_a st) |}.
Proof. intros H. unfold parseToken. now rewrite (search_here _ _ _ H). Qed.

Lemma matchHere_four (a b c d : ascii) (s : list ascii) :
  isDigit a = true -> isDigit b = true -> isDigit c = true -> isDigit d = true ->
  matchHere (Digits 4 4) (a :: b :: c :: d :: s) = Some [a; b; c; d].
Proof. intros Ha Hb Hc Hd. cbn [matchHere takeDigits]. now rewrite Ha, Hb, Hc, Hd. Qed.

Lemma matchHere_two (a b : ascii) (s : list ascii) :
  isDigit a = true -> isDigit b = true ->
  matchHere (Digits 2 2) (a :: b :: s) = Some [a; b].
Proof. intros Ha Hb. cbn [matchHere takeDigits]. now rewrite Ha, Hb. Qed.

Lemma matchHere_literal (c : ascii) (s : list ascii) :
  matchHere (Literal c) (c :: s) = Some [c].
Proof. cbn [matchHere]. now rewrite Ascii.eqb_refl. Qed.

(** The first of the four formats reads a text of four digits, a dash, two
    digits, a dash and two digits as year, month and day. *)
Lemma parse_YYYY_MM_DD (h : Host) (a b c d m1 m2 d1 d2 : ascii) :
  isDigit a = true -> isDigit b = true -> isDigit c = true -> isDigit d = true ->
  isDigit m1 = true -> isDigit m2 = true -> isDigit d1 = true -> isDigit d2 = true ->
  let t := configFromStringAndFormat h true YYYY_MM_DD
             (String a (String b (String c (String d (String "-"
                (String m1 (String m2 (String "-" (String d1 (String d2 "")))))))))) in
  a_units t = {| year := toInt [a; b; c; d]; month := toInt [m1; m2] - 1;
                 date := toInt [d1; d2]; hour := 0; minute := 0 |}
  /\ a_valid t = negb (overflow (a_units t)).
Proof.
  intros Ha Hb Hc Hd Hm1 Hm2 Hd1 Hd2.
  unfold configFromStringAndFormat, parseTokens, YYYY_MM_DD.
  cbn [list_ascii_of_string fold_left].
  rewrite (parseToken_here true (Build_parsing _ _ _ _ _) YYYY [a; b; c; d])
    by (now apply matchHere_four).
  cbn [rest totalParsedInputLength unusedTokens empty _a List.length skipn
       isFormatToken Nat.add].
  rewrite (parseToken_here true (Build_parsing _ _ _ _ _) (Lit "-") ["-"%char]) by apply matchHere_literal.
  cbn [rest totalParsedInputLength unusedTokens empty _a List.length skipn
       isFormatToken Nat.add].
  rewrite (parseToken_here true (Build_parsing _ _ _ _ _) MM [m1; m2]) by (now apply matchHere_two).
  cbn [rest totalParsedInputLength unusedTokens empty _a List.length skipn
       isFormatToken Nat.add].
  rewrite (parseToken_here true (Build_parsing _ _ _ _ _) (Lit "-") ["-"%char]) by apply matchHere_literal.
  cbn [rest totalParsedInputLength unusedTokens empty _a List.length skipn
       isFormatToken Nat.add].
  rewrite (parseToken_here true (Build_parsing _ _ _ _ _) DD [d1; d2]) by (now apply matchHere_two).
  cbn [rest totalParsedInputLength unusedTokens empty _a List.length skipn
       isFormatToken Nat.add a_units a_valid].
  split; [reflexivity|].
  unfold charsLeftOver.
  cbn [totalParsedInputLength unusedTokens List.length Nat.sub Nat.eqb negb andb orb].
  now rewrite !andb_true_r.
Qed.

Lemma valid_date (y m d : Z) :
  0 <= m <= 11 -> 1 <= d <= daysInMonth y m ->
  overflow {| year := y; month := m; date := d; hour := 0; minute := 0 |} = false.
Proof.
  intros Hm Hd. unfold overflow. cbn [year month date hour minute].
  split_leb; cbn [orb andb negb]; try reflexivity; lia.
Qed.

Lemma daysInMonth_le_31 (y m : Z) : daysInMonth y m <= 31.
Proof.
  unfold daysInMonth.
  destruct (m mod 12 =? 1); [destruct (isLeap _); lia|].
  pose proof (Z.mod_pos_bound ((m mod 12) mod 7) 2 ltac:(lia)). lia.
Qed.

(** A text date is read with the first format that is valid. *)
Lemma parseDate_text (h : Host) (s : string) :
  Upload.parseDate h (CString s)
  = match firstMatching h Upload.formats s with
    | Some u => Date_UTC (year u) (month u) (date u)
    | None => None
    end.
Proof.
  cbn [Upload.parseDate].
  pose proof (MomentFacts.configFromStringAndArray_first h Upload.formats s) as H.
  destruct (firstMatching h Upload.formats s) as [u|].
  - destruct H as (t & -> & -> & ->). reflexivity.
  - destruct (configFromStringAndArray h true Upload.formats s) as [t|]; [|reflexivity].
    now rewrite (H t eq_refl).
Qed.

End ReadBack.

(** X8. A printed date is read back: the text [formatDate] prints of a
    Date whose local year has four digits is read by the upload as the
    same day the Date itself would be, the midnight UTC of its local
    day. *)
Theorem printed_date_is_read_back (h : JS.Host) (t : Z) (s : string) :
  1000 <= JS.getFullYear h t <= 9999 ->
  Helpers.formatDate h (CDate (Some t)) = Some s ->
  Upload.parseDate h (CString s) = Upload.parseDate h (CDate (Some t))
  /\ Upload.parseDate h (CString s)
     = Some (JS.Day (JS.LocalTime h t) * JS.msPerDay).
Proof.
  intros Hy E. unfold Helpers.formatDate in E. cbn [truthy negb] in E.
  inversion E; subst s; clear E.
  pose proof (JSFacts.MonthFromTime_range (JS.LocalTime h t)) as Hm.
  pose proof (CalendarMore.DateFromTime_range (JS.LocalTime h t)) as Hd.
  pose proof (ReadBack.daysInMonth_le_31 (JS.YearFromTime (JS.LocalTime h t))
                (JS.MonthFromTime (JS.LocalTime h t))) as H31.
  fold (JS.getFullYear h t) (JS.getMonth h t) (JS.getDate h t) in Hm, Hd, H31.
  destruct (ReadBack.four_digits _ Hy) as (a & b & c & d & Ey & Ha & Hb & Hc & Hd' & Ty).
  destruct (ReadBack.two_digits (JS.getMonth h t + 1) ltac:(lia))
    as (m1 & m2 & Em & Hm1 & Hm2 & Tm).
  destruct (ReadBack.two_digits (JS.getDate h t) ltac:(lia))
    as (d1 & d2 & Ed & Hd1 & Hd2 & Td).
  assert (Hsame : Upload.parseDate h
                    (CString (JS.intToString (JS.getFullYear h t) ++ "-"
                              ++ JS.padStart2 (JS.intToString (JS.getMonth h t + 1)) ++ "-"
                              ++ JS.padStart2 (JS.intToString (JS.getDate h t))))
                  = Upload.parseDate h (CDate (Some t))).
  { rewrite Ey, Em, Ed. cbn [append].
    rewrite ReadBack.parseDate_text. unfold Upload.formats. cbn [firstMatching].
    destruct (ReadBack.parse_YYYY_MM_DD h a b c d m1 m2 d1 d2 Ha Hb Hc Hd' Hm1 Hm2 Hd1 Hd2)
      as [Hu Hv].
    cbn zeta in Hu, Hv. rewrite Hv, Hu, Ty, Tm, Td, Z.add_simpl_r.
    rewrite ReadBack.valid_date; [| exact Hm | exact Hd].
    cbn [negb Moment.year Moment.month Moment.date Upload.parseDate]. reflexivity. }
  split; [exact Hsame|].
  transitivity (Upload.parseDate h (CDate (Some t))); [exact Hsame|].
  apply UploadFacts.parseDate_succeeds; [lia|].
  assert (Hyear : 1000 <= JS.YearFromDay (JS.Day (JS.LocalTime h t)) <= 9999) by exact Hy.
  pose proof (JSFacts.YearFromDay_spec (JS.Day (JS.LocalTime h t))) as Hs.
  pose proof (JSFacts.DayFromYear_mono 1000 _ (proj1 Hyear)) as Hlo.
  pose proof (JSFacts.DayFromYear_mono
                (JS.YearFromDay (JS.Day (JS.LocalTime h t)) + 1) 10000 ltac:(lia)) as Hhi.
  change (JS.DayFromYear 1000) with (-354285) in Hlo.
  change (JS.DayFromYear 10000) with 2932897 in Hhi.
  unfold JS.msPerDay, JS.maxTime. lia.
Qed.

Lemma printed_date_witness :
  Upload.parseDate ist (CString "2024-03-04") = Upload.parseDate ist (CDate (Some 1709490600000))
  /\ Upload.parseDate ist (CString "2024-03-04")
     = Some (JS.Day (JS.LocalTime ist 1709490600000) * JS.msPerDay).
Proof.
  apply (printed_date_is_read_back ist 1709490600000 "2024-03-04"%string).
  - vm_compute. split; discriminate.
  - vm_compute. reflexivity.
Defined.

(* ================================================================== *)
(** ** Punches given as text *)
(* ================================================================== *)

Module PunchFacts.
Import JS JSFacts Moment.

Lemma parseToken_keeps_date (strict : bool) (st : parsing) (t : token) :
  t <> YYYY -> t <> MM -> t <> DD ->
  YEAR (_a st) = None /\ MONTH (_a st) = None /\ DATE (_a st) = None ->
  YEAR (_a (parseToken strict st t)) = None
  /\ MONTH (_a (parseToken strict st t)) = None
  /\ DATE (_a (parseToken strict st t)) = None.
Proof.
  intros H1 H2 H3 H. unfold parseToken.
  destruct (search _ _) as [[m r]|]; cbn [_a]; [|exact H].
  destruct t; cbn [addTimeToArrayFromToken YEAR MONTH DATE]; congruence.
Qed.

Lemma HH_mm_fields (s : list ascii) :
  YEAR (_a (parseTokens false HH_mm s)) = None
  /\ MONTH (_a (parseTokens false HH_mm s)) = None
  /\ DATE (_a (parseTokens false HH_mm s)) = None.
Proof.
  unfold parseTokens, HH_mm. cbn [fold_left].
  repeat (apply parseToken_keeps_date; try discriminate).
  cbn. auto.
Qed.

(** A time of day is read onto the current local day, which is a day of
    its month: only the hour and the minute can be out of range. *)
Lemma overflow_today (h : Host) (a : fields) :
  YEAR a = None -> MONTH a = None -> DATE a = None ->
  configFromArray h a
  = {| year := getFullYear h (now h); month := getMonth h (now h);
       date := getDate h (now h);
       hour := orElse (HOUR a) 0; minute := orElse (MINUTE a) 0 |}
  /\ overflow (configFromArray h a)
     = ((orElse (HOUR a) 0 <? 0) || (orElse (HOUR a) 0 >? 24)
        || ((orElse (HOUR a) 0 =? 24) && negb (orElse (MINUTE a) 0 =? 0))
        || (orElse (MINUTE a) 0 <? 0) || (orElse (MINUTE a) 0 >? 59)).
Proof.
  intros Hy Hm Hd. unfold configFromArray. rewrite Hy, Hm, Hd.
  split; [reflexivity|].
  unfold overflow. cbn [year month date hour minute].
  pose proof (MonthFromTime_range (LocalTime h (now h))) as Rm.
  pose proof (CalendarMore.DateFromTime_range (LocalTime h (now h))) as Rd.
  fold (getFullYear h (now h)) (getMonth h (now h)) (getDate h (now h)) in Rm, Rd.
  assert (E1 : (getMonth h (now h) <? 0) = false) by (apply Z.ltb_ge; lia).
  assert (E2 : (getMonth h (now h) >? 11) = false) by (rewrite Z.gtb_ltb; apply Z.ltb_ge; lia).
  assert (E3 : (getDate h (now h) <? 1) = false) by (apply Z.ltb_ge; lia).
  assert (E4 : (getDate h (now h)
                >? daysInMonth (getFullYear h (now h)) (getMonth h (now h))) = false)
    by (rewrite Z.gtb_ltb; apply Z.ltb_ge; lia).
  now rewrite E1, E2, E3, E4.
Qed.

(** On two hosts of constant offset a text is the same time of day, on
    days that are a fixed time apart. *)
Lemma momentTime_text (h1 h2 : Host) (c1 c2 : Z) (s : string) :
  (forall t b, LocalTZA h1 t b = c1) ->
  (forall t b, LocalTZA h2 t b = c2) ->
  momentTime h2 (CString s)
  = option_map
      (fun x => x + ((Day (LocalTime h2 (now h2)) - Day (LocalTime h1 (now h1))) * msPerDay
                     - c2 + c1))
      (momentTime h1 (CString s)).
Proof.
  intros H1 H2. unfold momentTime. cbn [cellToString].
  unfold configFromStringAndFormat. cbn [a_valid a_units].
  destruct (HH_mm_fields (list_ascii_of_string s)) as (Ey & Em & Ed).
  destruct (overflow_today h1 _ Ey Em Ed) as [U1 O1].
  destruct (overflow_today h2 _ Ey Em Ed) as [U2 O2].
  rewrite O1, O2, U1, U2. cbn [year month date hour minute].
  destruct (negb _ && negb _ && _); [|reflexivity].
  cbn [option_map]. f_equal.
  unfold getFullYear, getMonth, getDate. rewrite !MakeDay_fields.
  unfold UTC. rewrite H1, H2. unfold MakeDate. lia.
Qed.

End PunchFacts.

(** X9. Punches given as text are told apart by the texts only: on two
    hosts whose offset from UTC does not change, whatever their clocks and
    their offsets are, the same two texts give the same worked hours. *)
Theorem text_punches_ignore_the_host (h1 h2 : JS.Host) (c1 c2 : Z) (i o : string) :
  (forall t b, JS.LocalTZA h1 t b = c1) ->
  (forall t b, JS.LocalTZA h2 t b = c2) ->
  Helpers.calculateWorkedHours h1 (CString i) (CString o)
  = Helpers.calculateWorkedHours h2 (CString i) (CString o).
Proof.
  intros H1 H2. unfold Helpers.calculateWorkedHours.
  destruct (negb (truthy (CString i)) || negb (truthy (CString o))); [reflexivity|].
  rewrite (PunchFacts.momentTime_text h1 h2 c1 c2 i H1 H2).
  rewrite (PunchFacts.momentTime_text h1 h2 c1 c2 o H1 H2).
  destruct (Moment.momentTime h1 (CString i)) as [a|]; [|reflexivity].
  destruct (Moment.momentTime h1 (CString o)) as [b|]; [|reflexivity].
  cbn [option_map]. unfold Moment.diffHours.
  match goal with
  | |- context [b + ?k - (a + ?k)] => replace (b + k - (a + k)) with (b - a) by lia
  end.
  reflexivity.
Qed.

Lemma text_punches_witness :
  Helpers.calculateWorkedHours ist (CString "09:00") (CString "17:30")
  = Helpers.calculateWorkedHours est (CString "09:00") (CString "17:30").
Proof.
  apply (text_punches_ignore_the_host ist est 19800000 (-18000000)).
  - reflexivity.
  - reflexivity.
Defined.

(* ================================================================== *)
(** ** The productivity chart *)
(* ================================================================== *)

Module RoutesMore.

(** What the month query answers when it answers. *)
Lemma month_Done (db : store) (year month : string) (ans : Routes.monthly) :
  Routes.month db year month = Done ans ->
  Routes.findMonth db (year ++ "-" ++ JS.padStart2 month) <> []
  /\ Routes.m_statistics ans
     = map (Routes.statisticOf (Routes.findMonth db (year ++ "-" ++ JS.padStart2 month)))
         (distinct String.eqb []
            (map employeeName (Routes.findMonth db (year ++ "-" ++ JS.padStart2 month)))).
Proof.
  unfold Routes.month.
  destruct (String.eqb year "" || String.eqb month ""); [discriminate|].
  destruct (Routes.findMonth db (year ++ "-" ++ JS.padStart2 month)) as [|a l];
    [discriminate|].
  intros E. inversion E; subst ans; clear E. split; [discriminate | reflexivity].
Qed.

End RoutesMore.

Module ChartFacts.
Import JS QFacts ListFacts.

Lemma expected_positive (t : Z) :
  WeekDay t <> 0 -> (0 < Helpers.getExpectedHours (Moment.format_dddd t))%Q.
Proof.
  intros Hw. pose proof (CalendarMore.WeekDay_range t) as Hr.
  unfold Moment.format_dddd.
  assert (H : WeekDay t = 1 \/ WeekDay t = 2 \/ WeekDay t = 3 \/ WeekDay t = 4
              \/ WeekDay t = 5 \/ WeekDay t = 6) by lia.
  repeat (destruct H as [-> | H]; [vm_compute; reflexivity|]).
  rewrite H. vm_compute. reflexivity.
Qed.

(** The point drawn for a well-formed record is a holiday, a leave or a
    working day with a productivity. *)
Lemma pointOf_wellFormed (h : Host) (r : attendance) :
  wellFormed r ->
  let p := Chart.pointOf h (dayEntryOf r) in
  (Chart.isValidDay p = true /\ Chart.p_status p = Chart.working)
  \/ (Chart.isValidDay p = false /\ Chart.p_status p = Chart.leave)
  \/ (Chart.isValidDay p = false /\ Chart.p_status p = Chart.holiday).
Proof.
  intros (_ & _ & Hday & Hexp & Hhol & _). cbn zeta.
  unfold Chart.pointOf, Chart.isValidDay.
  cbn [dayEntryOf b_isHoliday b_isLeave b_expectedHours b_workedHours
       Chart.p_productivity Chart.p_status].
  destruct (isHoliday r) eqn:Eh; [now right; right|].
  destruct (isLeave r); [now right; left|].
  left. split; [|reflexivity].
  assert (Hpos : (0 < expectedHours r)%Q).
  { rewrite Hexp, Hday. apply expected_positive. intros C.
    apply Hhol in C. congruence. }
  apply (YearFacts.Qlt_bool_iff 0 (expectedHours r)) in Hpos. now rewrite Hpos.
Qed.

Lemma three_way {A : Type} (p q r : A -> bool) (l : list A) :
  Forall (fun x => (p x = true /\ q x = false /\ r x = false)
                   \/ (p x = false /\ q x = true /\ r x = false)
                   \/ (p x = false /\ q x = false /\ r x = true)) l ->
  (List.length (filter p l) + List.length (filter q l) + List.length (filter r l)
   = List.length l)%nat.
Proof.
  induction 1 as [|x l Hx Hl IH]; [reflexivity|]. cbn [filter].
  destruct Hx as [(-> & -> & ->) | [(-> & -> & ->) | (-> & -> & ->)]];
    cbn [List.length]; lia.
Qed.

Local Open Scope Q_scope.

Lemma Math_max_spec (a b : Q) : a <= Math_max a b /\ b <= Math_max a b.
Proof.
  unfold Math_max. destruct (Qle_bool a b) eqn:E.
  - apply Qle_bool_iff in E. split; [exact E | apply Qle_refl].
  - split; [apply Qle_refl|]. apply Qnot_lt_le. intros C.
    apply Qlt_le_weak, Qle_bool_iff in C. congruence.
Qed.

Lemma Math_min_spec (a b : Q) : Math_min a b <= a /\ Math_min a b <= b.
Proof.
  unfold Math_min. destruct (Qle_bool a b) eqn:E.
  - apply Qle_bool_iff in E. split; [apply Qle_refl | exact E].
  - split; [|apply Qle_refl]. apply Qnot_lt_le. intros C.
    apply Qlt_le_weak, Qle_bool_iff in C. congruence.
Qed.

Lemma fold_max_bound (l : list Q) (x : Q) :
  x <= fold_left Math_max l x /\ Forall (fun y => y <= fold_left Math_max l x) l.
Proof.
  revert x. induction l as [|y l IH]; intros x; cbn [fold_left].
  - split; [apply Qle_refl | constructor].
  - destruct (IH (Math_max x y)) as [H1 H2].
    destruct (Math_max_spec x y) as [Hx Hy].
    split; [now apply Qle_trans with (Math_max x y)|].
    constructor; [now apply Qle_trans with (Math_max x y) | exact H2].
Qed.

Lemma fold_min_bound (l : list Q) (x : Q) :
  fold_left Math_min l x <= x /\ Forall (fun y => fold_left Math_min l x <= y) l.
Proof.
  revert x. induction l as [|y l IH]; intros x; cbn [fold_left].
  - split; [apply Qle_refl | constructor].
  - destruct (IH (Math_min x y)) as [H1 H2].
    destruct (Math_min_spec x y) as [Hx Hy].
    split; [now apply Qle_trans with (Math_min x y)|].
    constructor; [now apply Qle_trans with (Math_min x y) | exact H2].
Qed.

Lemma maxOf_bound (l : list Q) : Forall (fun y => y <= maxOf l) l.
Proof.
  destruct l as [|x l]; [constructor|]. cbn [maxOf].
  destruct (fold_max_bound l x) as [H1 H2]. now constructor.
Qed.

Lemma minOf_bound (l : list Q) : Forall (fun y => minOf l <= y) l.
Proof.
  destruct l as [|x l]; [constructor|]. cbn [minOf].
  destruct (fold_min_bound l x) as [H1 H2]. now constructor.
Qed.

(** A sum lies between the count times a lower and an upper bound. *)
Lemma sumOf_between {A : Type} (f : A -> Q) (l : list A) (lo hi : Q) :
  Forall (fun a => lo <= f a <= hi) l ->
  Routes.countQ (List.length l) * lo <= sumOf f l
  /\ sumOf f l <= Routes.countQ (List.length l) * hi.
Proof.
  induction 1 as [|x l Hx Hl IH].
  - cbn [List.length]. change (Routes.countQ 0) with 0.
    unfold sumOf. cbn [fold_left]. split; lra.
  - rewrite sumOf_cons.
    assert (E : Routes.countQ (List.length (x :: l))
                == 1 + Routes.countQ (List.length l)).
    { unfold Routes.countQ. cbn [List.length]. rewrite Nat2Z.inj_succ.
      unfold Z.succ. rewrite inject_Z_plus. ring. }
    rewrite E. destruct IH as [IH1 IH2]. destruct Hx as [Hx1 Hx2]. split; lra.
Qed.

Lemma mean_between {A : Type} (f : A -> Q) (l : list A) (lo hi : Q) :
  l <> [] ->
  Forall (fun a => lo <= f a <= hi) l ->
  lo <= sumOf f l / Routes.countQ (List.length l) <= hi.
Proof.
  intros Hne H. destruct (sumOf_between f l lo hi H) as [H1 H2].
  assert (Hn : 0 < Routes.countQ (List.length l)).
  { unfold Routes.countQ. destruct l; [contradiction|].
    cbn [List.length]. rewrite Nat2Z.inj_succ. unfold Qlt. cbn. lia. }
  split.
  - apply Qle_shift_div_l; [exact Hn|]. now rewrite Qmult_comm.
  - apply Qle_shift_div_r; [exact Hn|]. now rewrite Qmult_comm.
Qed.

Local Open Scope Z_scope.

(** The chart of a statistic with a day in it. *)
Lemma productivityChart_some (h : Host) (data : statistic) :
  dailyBreakdown data <> [] ->
  exists v,
    Chart.productivityChart h (Some data) = Some v
    /\ Chart.dailyProductivity v = map (Chart.pointOf h) (dailyBreakdown data)
    /\ Chart.validDays v = filter Chart.isValidDay (Chart.dailyProductivity v)
    /\ Chart.leaveDays v
       = filter (fun d => Chart.dayStatus_eqb (Chart.p_status d) Chart.leave)
           (Chart.dailyProductivity v)
    /\ Chart.holidayDays v
       = filter (fun d => Chart.dayStatus_eqb (Chart.p_status d) Chart.holiday)
           (Chart.dailyProductivity v).
Proof.
  intros Hne. unfold Chart.productivityChart.
  destruct (dailyBreakdown data) as [|e es]; [contradiction|].
  eexists. split; [reflexivity|]. cbn. repeat split.
Qed.

End ChartFacts.

(** X10. The chart accounts for every day of a stored month: drawn from a
    statistic the month query answers over a store that uploads built, the
    chart has data, it counts as leave days the leaves taken of the
    statistic, each day is exactly one of a working day with a
    productivity, a leave day or a holiday, and no day is drawn as
    [No Data]. *)
Theorem chart_accounts_for_every_day (h : JS.Host) (db : store) (year month : string)
    (ans : Routes.monthly) (st : statistic) :
  reachable db ->
  Routes.month db year month = Done ans ->
  In st (Routes.m_statistics ans) ->
  exists v,
    Chart.productivityChart h (Some st) = Some v
    /\ List.length (Chart.leaveDays v) = leavesTaken st
    /\ (List.length (Chart.validDays v) + List.length (Chart.leaveDays v)
        + List.length (Chart.holidayDays v)
        = List.length (dailyBreakdown st))%nat
    /\ Forall (fun p => Chart.barOf p <> Chart.NoDataBar) (Chart.dailyProductivity v).
Proof.
  intros Hr E Hin.
  assert (Hw : Forall wellFormed (Attendance db)).
  { apply HandlerFacts.reachable_canonical in Hr.
    eapply Forall_impl; [|exact Hr]. exact UploadMore.canonical_wellFormed. }
  apply RoutesMore.month_Done in E as [_ E].
  rewrite E in Hin. clear E.
  set (data := Routes.findMonth db (year ++ "-" ++ JS.padStart2 month)) in *.
  assert (Hdata : Forall wellFormed data).
  { apply (Permutation_Forall (Permutation_sym (ListFacts.sortBy_perm _ _))).
    now apply AggregatorFacts.Forall_filter. }
  clearbody data.
  apply in_map_iff in Hin as (n & <- & Hn).
  set (recs := filter (fun d => String.eqb (employeeName d) n) data).
  assert (Hrecs : Forall wellFormed recs) by now apply AggregatorFacts.Forall_filter.
  destruct (GroupFacts.group_inhabited employeeName String.eqb String.eqb_eq n data Hn)
    as (r0 & Hr0).
  fold recs in Hr0.
  assert (Hpts : Forall (fun r =>
                   let p := Chart.pointOf h (dayEntryOf r) in
                   (Chart.isValidDay p = true /\ Chart.p_status p = Chart.working)
                   \/ (Chart.isValidDay p = false /\ Chart.p_status p = Chart.leave)
                   \/ (Chart.isValidDay p = false /\ Chart.p_status p = Chart.holiday))
                  recs).
  { eapply Forall_impl; [|exact Hrecs]. intros r. apply ChartFacts.pointOf_wellFormed. }
  destruct (ChartFacts.productivityChart_some h (Routes.statisticOf data n))
    as (v & Ev & Ed & Evalid & Eleave & Eholiday).
  { change (dailyBreakdown (Routes.statisticOf data n)) with (map dayEntryOf recs).
    destruct recs; [contradiction | discriminate]. }
  exists v. split; [exact Ev|].
  rewrite Evalid, Eleave, Eholiday, Ed.
  change (dailyBreakdown (Routes.statisticOf data n)) with (map dayEntryOf recs).
  change (leavesTaken (Routes.statisticOf data n))
    with (List.length (filter (fun d => isLeave d && negb (isHoliday d)) recs)).
  rewrite map_map.
  assert (Hall : Forall (fun p =>
                   (Chart.isValidDay p = true /\ Chart.p_status p = Chart.working)
                   \/ (Chart.isValidDay p = false /\ Chart.p_status p = Chart.leave)
                   \/ (Chart.isValidDay p = false /\ Chart.p_status p = Chart.holiday))
                  (map (fun x => Chart.pointOf h (dayEntryOf x)) recs)).
  { apply Forall_map. exact Hpts. }
  split; [|split].
  - clear. generalize recs. intros l0. induction l0 as [|x l IH]; [reflexivity|].
    cbn [map filter].
    unfold Chart.pointOf at 1. cbn [dayEntryOf b_isHoliday b_isLeave Chart.p_status].
    destruct (isHoliday x), (isLeave x); cbn [Chart.dayStatus_eqb andb negb List.length];
      now rewrite IH.
  - rewrite (length_map dayEntryOf recs),
            <- (length_map (fun x => Chart.pointOf h (dayEntryOf x)) recs).
    apply ChartFacts.three_way.
    eapply Forall_impl; [|exact Hall]. intros p.
    intros [[-> ->] | [[-> ->] | [-> ->]]]; cbn [Chart.dayStatus_eqb]; auto.
  - eapply Forall_impl; [|exact Hall]. intros p. unfold Chart.barOf, Chart.isValidDay.
    intros [[Hv ->] | [[_ ->] | [_ ->]]]; try discriminate.
    destruct (Chart.p_productivity p); discriminate.
Qed.

Lemma chart_accounts_witness :
  exists v,
    Chart.productivityChart ist (Some oneHourStatistic) = Some v
    /\ List.length (Chart.leaveDays v) = leavesTaken oneHourStatistic
    /\ (List.length (Chart.validDays v) + List.length (Chart.leaveDays v)
        + List.length (Chart.holidayDays v)
        = List.length (dailyBreakdown oneHourStatistic))%nat
    /\ Forall (fun p => Chart.barOf p <> Chart.NoDataBar) (Chart.dailyProductivity v).
Proof.
  apply (chart_accounts_for_every_day ist oneHourStore "2024"%string "3"%string
           oneHourAnswer oneHourStatistic).
  - apply reach_upload, reach_empty.
  - vm_compute. reflexivity.
  - left. reflexivity.
Defined.



(* ================================================================== *)
(** ** The list of stored months *)
(* ================================================================== *)

Module MonthsFacts.
Import ListFacts GroupFacts.

Lemma leb_total (a b : string) : String.leb a b = true \/ String.leb b a = true.
Proof.
  unfold String.leb. rewrite (String.compare_antisym b a).
  destruct (String.compare a b); cbn; auto.
Qed.

Lemma leb_trans (a b c : string) :
  String.leb a b = true -> String.leb b c = true -> String.leb a c = true.
Proof.
  unfold String.leb.
  destruct (String.compare a b) eqn:Eab; try discriminate;
    destruct (String.compare b c) eqn:Ebc; try discriminate; intros _ _.
  - apply String.compare_eq_iff in Eab, Ebc. subst.
    now rewrite AggregatorFacts.compare_refl.
  - apply String.compare_eq_iff in Eab. subst. now rewrite Ebc.
  - apply String.compare_eq_iff in Ebc. subst. now rewrite Eab.
  - assert (E : String.compare a c = Lt).
    { apply (@StrictOrder_Transitive _ _ OrdersEx.String_as_OT.lt_strorder _ b);
        assumption. }
    now rewrite E.
Qed.

Lemma count_perm {A : Type} (f : A -> nat) (l l' : list A) :
  Permutation l l' ->
  fold_left (fun s a => (s + f a)%nat) l 0%nat
  = fold_left (fun s a => (s + f a)%nat) l' 0%nat.
Proof.
  induction 1 as [| x l l' Hp IH | x y l | l l' l'' H1 IH1 H2 IH2]; cbn [fold_left].
  - reflexivity.
  - rewrite (count_from f l), (count_from f l'), IH. reflexivity.
  - rewrite (count_from f l (0 + f y + f x)), (count_from f l (0 + f x + f y)). lia.
  - now rewrite IH1.
Qed.

Lemma distinct_shorter {K : Type} (eqb : K -> K -> bool) (seen l : list K) :
  (List.length (distinct eqb seen l) <= List.length l)%nat.
Proof.
  revert seen. induction l as [|x l IH]; intros seen; cbn [distinct]; [lia|].
  destruct (existsb (eqb x) seen); cbn [List.length].
  - specialize (IH seen). lia.
  - specialize (IH (x :: seen)). lia.
Qed.

Lemma distinct_some {K : Type} (eqb : K -> K -> bool) (l : list K) :
  l <> [] -> (1 <= List.length (distinct eqb [] l))%nat.
Proof.
  destruct l as [|x l]; [contradiction|]. intros _. cbn [distinct existsb List.length].
  lia.
Qed.

(** The groups of [/months], one per label, before they are sorted. *)
Lemma groupByMonthYear_spec (updatedAt : attendance -> option Z) (docs : list attendance) :
  map Routes.mi_monthYear (Routes.groupByMonthYear updatedAt docs)
  = distinct String.eqb [] (map monthYear docs)
  /\ fold_left (fun s m => (s + Routes.mi_recordCount m)%nat)
       (Routes.groupByMonthYear updatedAt docs) 0%nat
     = List.length docs
  /\ Forall (fun m =>
               Routes.mi_recordCount m
               = List.length (filter (hasMonthYear (Routes.mi_monthYear m)) docs)
               /\ Routes.mi_employeeCount m
                  = List.length
                      (distinct String.eqb []
                         (map employeeName
                            (filter (hasMonthYear (Routes.mi_monthYear m)) docs)))
               /\ (1 <= Routes.mi_employeeCount m <= Routes.mi_recordCount m)%nat)
       (Routes.groupByMonthYear updatedAt docs).
Proof.
  unfold Routes.groupByMonthYear. split; [|split].
  - rewrite map_map. cbn [Routes.mi_monthYear]. apply map_id.
  - rewrite count_map. cbn [Routes.mi_recordCount].
    rewrite <- (Permutation_length (groups_all monthYear String.eqb String.eqb_eq docs)).
    now rewrite count_flat_map.
  - apply Forall_map, Forall_forall. intros k Hk.
    cbn [Routes.mi_recordCount Routes.mi_employeeCount Routes.mi_monthYear].
    split; [reflexivity|]. split; [reflexivity|].
    destruct (group_inhabited monthYear String.eqb String.eqb_eq k docs Hk) as (a & Ha).
    change (fun a0 : attendance => String.eqb (monthYear a0) k) with (hasMonthYear k) in Ha.
    split.
    + apply distinct_some. destruct (filter (hasMonthYear k) docs); [contradiction|].
      discriminate.
    + rewrite <- (length_map employeeName (filter (hasMonthYear k) docs)).
      apply distinct_shorter.
Qed.

End MonthsFacts.

(** X12. The list of months is an inventory of the attendance collection:
    each label that some document carries is listed once, the labels come
    in descending order, the record counts add up to the number of
    documents, each month counts as employees the distinct names of its
    documents, at least one and at most as many as its records, and the
    total is the number of months listed. *)
Theorem months_is_an_inventory (updatedAt : attendance -> option Z) (db : store)
    (ans : Routes.monthsAnswer) :
  Routes.months updatedAt db = Done ans ->
  NoDup (map Routes.mi_monthYear (Routes.ma_months ans))
  /\ (forall my, In my (map Routes.mi_monthYear (Routes.ma_months ans))
                 <-> exists r, In r (Attendance db) /\ monthYear r = my)
  /\ StronglySorted
       (fun a b => String.leb (Routes.mi_monthYear b) (Routes.mi_monthYear a) = true)
       (Routes.ma_months ans)
  /\ fold_left (fun s m => (s + Routes.mi_recordCount m)%nat) (Routes.ma_months ans) 0%nat
     = List.length (Attendance db)
  /\ Forall (fun m =>
               Routes.mi_recordCount m
               = List.length (filter (hasMonthYear (Routes.mi_monthYear m)) (Attendance db))
               /\ Routes.mi_employeeCount m
                  = List.length
                      (distinct String.eqb []
                         (map employeeName
                            (filter (hasMonthYear (Routes.mi_monthYear m))
                               (Attendance db))))
               /\ (1 <= Routes.mi_employeeCount m <= Routes.mi_recordCount m)%nat)
       (Routes.ma_months ans)
  /\ Routes.ma_totalMonths ans = List.length (Routes.ma_months ans).
Proof.
  unfold Routes.months. intros E. inversion E; subst ans; clear E.
  cbn [Routes.ma_months Routes.ma_totalMonths].
  destruct (MonthsFacts.groupByMonthYear_spec updatedAt (Attendance db))
    as (Hkeys & Hsum & Hall).
  set (groups := Routes.groupByMonthYear updatedAt (Attendance db)) in *.
  set (le := fun a b => String.leb (Routes.mi_monthYear b) (Routes.mi_monthYear a)).
  assert (Hperm : Permutation (sortBy le groups) groups) by apply ListFacts.sortBy_perm.
  split.
  { apply (Permutation_NoDup (Permutation_sym (Permutation_map _ Hperm))).
    rewrite Hkeys. apply (GroupFacts.distinct_NoDup String.eqb String.eqb_eq). }
  split.
  { intros my. split.
    - intros H. apply (Permutation_in _ (Permutation_map _ Hperm)) in H.
      rewrite Hkeys in H.
      apply (proj1 (GroupFacts.distinct_all String.eqb String.eqb_eq _ _)) in H.
      apply in_map_iff in H as (r & Hr & Hin). now exists r.
    - intros (r & Hin & Hr).
      apply (Permutation_in _ (Permutation_sym (Permutation_map _ Hperm))).
      rewrite Hkeys. apply (GroupFacts.distinct_all String.eqb String.eqb_eq).
      rewrite <- Hr. now apply in_map. }
  split.
  { apply ListFacts.sortBy_sorted.
    - intros a b. apply MonthsFacts.leb_total.
    - intros a b c H1 H2. unfold le in *. now apply MonthsFacts.leb_trans with
        (Routes.mi_monthYear b). }
  split.
  { now rewrite (MonthsFacts.count_perm _ _ _ Hperm). }
  split; [|reflexivity].
  apply (Permutation_Forall (Permutation_sym Hperm)). exact Hall.
Qed.

Lemma months_witness :
  NoDup (map Routes.mi_monthYear
           [{| Routes.mi_monthYear := "2024-03"; Routes.mi_recordCount := 1;
               Routes.mi_employeeCount := 1; Routes.mi_lastUpdated := None |}])
  /\ List.length (Attendance oneHourStore) = 1%nat.
Proof.
  destruct (months_is_an_inventory (fun _ => None) oneHourStore
              {| Routes.ma_months :=
                   [{| Routes.mi_monthYear := "2024-03"; Routes.mi_recordCount := 1;
                       Routes.mi_employeeCount := 1; Routes.mi_lastUpdated := None |}];
                 Routes.ma_totalMonths := 1 |}) as (H1 & _ & _ & H4 & _).
  - vm_compute. reflexivity.
  - split; [exact H1|]. rewrite <- H4. reflexivity.
Defined.

(** X13. An uploaded month is listed: after a successful upload the list
    of months has an entry for the label of the upload, with the number of
    records and the number of employees of the upload's summary. *)
Theorem uploaded_month_is_listed (h : JS.Host) (req : Upload.request) (db db' : store)
    (u : Upload.uploaded) (updatedAt : attendance -> option Z)
    (ans : Routes.monthsAnswer) :
  Upload.uploadAttendance h req db = (Done u, db') ->
  Routes.months updatedAt db' = Done ans ->
  exists m,
    In m (Routes.ma_months ans)
    /\ Routes.mi_monthYear m = Upload.s_monthYear (Upload.u_summary u)
    /\ Routes.mi_recordCount m = Upload.totalRecords (Upload.u_summary u)
    /\ Routes.mi_employeeCount m = Upload.totalEmployees (Upload.u_summary u).
Proof.
  intros E Em.
  apply UploadMore.uploadAttendance_stores in E
    as (data & Hne & _ & _ & Ef & Ea & Es & _).
  pose proof (UploadMore.batch_of_data _ _ _ _ _ Ef) as Eu.
  pose proof (SummaryFacts.stored_month _ _ _ _ _ Eu Ea) as Ed.
  unfold Routes.months in Em. inversion Em; subst ans; clear Em.
  cbn [Routes.ma_months].
  destruct (MonthsFacts.groupByMonthYear_spec updatedAt (Attendance db'))
    as (Hkeys & _ & Hall).
  set (groups := Routes.groupByMonthYear updatedAt (Attendance db')) in *.
  assert (Hin : In (Upload.monthYearOf req) (map Routes.mi_monthYear groups)).
  { rewrite Hkeys. apply (GroupFacts.distinct_all String.eqb String.eqb_eq).
    destruct data as [|r data'] eqn:Edata.
    - exfalso. rewrite UploadMore.batchOf_unassigned in Eu. cbn [map] in Eu.
      apply Hne. now symmetry.
    - assert (Hr : In r (filter (hasMonthYear (Upload.monthYearOf req)) (Attendance db')))
        by (rewrite Ed; now left).
      apply filter_In in Hr as [Hr Hl]. unfold hasMonthYear in Hl.
      apply String.eqb_eq in Hl. rewrite <- Hl. now apply in_map. }
  apply in_map_iff in Hin as (m & Hm & Hin).
  exists m. split.
  { apply (Permutation_in _ (Permutation_sym (ListFacts.sortBy_perm _ groups))).
    exact Hin. }
  destruct (proj1 (Forall_forall _ _) Hall m Hin) as (Hc & He & _).
  rewrite Es. cbn [Upload.s_monthYear Upload.totalRecords Upload.totalEmployees].
  rewrite Hc, He, Hm, Ed. split; [reflexivity|]. split; [reflexivity|].
  unfold Upload.employeesOf.
  rewrite (UploadMore.same_but_keys employeeName _ _ (fun _ => eq_refl) Eu).
  reflexivity.
Qed.

Lemma uploaded_month_listed_witness :
  exists m,
    In m [{| Routes.mi_monthYear := "2024-03"; Routes.mi_recordCount := 1;
             Routes.mi_employeeCount := 1; Routes.mi_lastUpdated := None |}]
    /\ Routes.mi_monthYear m = Upload.s_monthYear (Upload.u_summary oneHourUploaded)
    /\ Routes.mi_recordCount m = Upload.totalRecords (Upload.u_summary oneHourUploaded)
    /\ Routes.mi_employeeCount m = Upload.totalEmployees (Upload.u_summary oneHourUploaded).
Proof.
  apply (uploaded_month_is_listed ist (march2024 oneHourSheet) noDocuments oneHourStore
           oneHourUploaded (fun _ => None)
           {| Routes.ma_months :=
                [{| Routes.mi_monthYear := "2024-03"; Routes.mi_recordCount := 1;
                    Routes.mi_employeeCount := 1; Routes.mi_lastUpdated := None |}];
              Routes.ma_totalMonths := 1 |}).
  - vm_compute. reflexivity.
  - vm_compute. reflexivity.
Defined.

(* ================================================================== *)
(** ** Two stages of grouping *)
(* ================================================================== *)

Module TwoLevel.
Import ListFacts GroupFacts.

Lemma flat_map_filter {A B : Type} (p : A -> bool) (g : B -> list A) (ks : list B) :
  filter p (flat_map g ks) = flat_map (fun k => filter p (g k)) ks.
Proof.
  induction ks as [|k ks IH]; cbn [flat_map]; [reflexivity|].
  now rewrite filter_app, IH.
Qed.

Lemma flat_map_of_map {A B C : Type} (g : B -> list C) (f : A -> B) (l : list A) :
  flat_map g (map f l) = flat_map (fun a => g (f a)) l.
Proof.
  induction l as [|x l IH]; cbn [map flat_map]; [reflexivity|]. now rewrite IH.
Qed.

Section Levels.
Context {A K1 K2 : Type} (key1 : A -> K1) (eqb1 : K1 -> K1 -> bool)
        (proj : K1 -> K2) (eqb2 : K2 -> K2 -> bool).
Hypothesis eqb1_eq : forall a b, eqb1 a b = true <-> a = b.
Hypothesis eqb2_eq : forall a b, eqb2 a b = true <-> a = b.
Variable docs : list A.

(** The groups of the first stage that make up a group of the second hold,
    between them, the documents of that group. *)
Lemma second_level (k2 : K2) :
  Permutation
    (flat_map (fun k => filter (fun a => eqb1 (key1 a) k) docs)
       (filter (fun k => eqb2 (proj k) k2) (distinct eqb1 [] (map key1 docs))))
    (filter (fun a => eqb2 (proj (key1 a)) k2) docs).
Proof.
  rewrite (groups_perm key1 eqb1 eqb1_eq)
    by (apply NoDup_filter, (distinct_NoDup eqb1 eqb1_eq)).
  erewrite filter_ext_in; [reflexivity|].
  intros a Ha. cbn beta.
  destruct (eqb2 (proj (key1 a)) k2) eqn:E.
  - apply (existsb_eqb eqb1 eqb1_eq), filter_In. split; [|exact E].
    apply (distinct_all eqb1 eqb1_eq). now apply in_map.
  - destruct (existsb _ _) eqn:C; [|reflexivity].
    apply (existsb_eqb eqb1 eqb1_eq), filter_In in C as [_ C]. congruence.
Qed.

(** The groups of the second stage hold each document once. *)
Lemma second_level_all :
  Permutation
    (flat_map (fun k2 => filter (fun a => eqb2 (proj (key1 a)) k2) docs)
       (distinct eqb2 [] (map proj (distinct eqb1 [] (map key1 docs)))))
    docs.
Proof.
  rewrite (groups_perm (fun a => proj (key1 a)) eqb2 eqb2_eq)
    by apply (distinct_NoDup eqb2 eqb2_eq).
  rewrite filter_true; [reflexivity|].
  intros a Ha. apply (existsb_eqb eqb2 eqb2_eq), (distinct_all eqb2 eqb2_eq).
  apply in_map, (distinct_all eqb1 eqb1_eq). now apply in_map.
Qed.

Lemma second_level_inhabited (k2 : K2) :
  In k2 (distinct eqb2 [] (map proj (distinct eqb1 [] (map key1 docs)))) ->
  filter (fun a => eqb2 (proj (key1 a)) k2) docs <> [].
Proof.
  intros H. apply (proj1 (distinct_all eqb2 eqb2_eq _ _)) in H.
  apply in_map_iff in H as (k & <- & Hk).
  apply (proj1 (distinct_all eqb1 eqb1_eq _ _)) in Hk.
  apply in_map_iff in Hk as (a & <- & Ha).
  intros C.
  assert (Hin : In a (filter (fun a0 => eqb2 (proj (key1 a0)) (proj (key1 a))) docs)).
  { apply filter_In. split; [exact Ha | now apply eqb2_eq]. }
  now rewrite C in Hin.
Qed.

End Levels.

End TwoLevel.

(* ================================================================== *)
(** ** The aggregation of a year *)
(* ================================================================== *)

Module YearMore.
Import ListFacts GroupFacts TwoLevel Routes.

Lemma idEqb_eq (a b : option nat) : idEqb a b = true <-> a = b.
Proof.
  destruct a as [x|], b as [y|]; cbn [idEqb].
  - rewrite Nat.eqb_eq. split; [now intros -> | now inversion 1].
  - split; discriminate.
  - split; discriminate.
  - split; reflexivity.
Qed.

Lemma monthKeyEqb_eq (a b : option nat * string * Z) : monthKeyEqb a b = true <-> a = b.
Proof.
  destruct a as [[i1 n1] m1], b as [[i2 n2] m2]. unfold monthKeyEqb.
  rewrite !andb_true_iff, idEqb_eq, String.eqb_eq, Z.eqb_eq.
  split; [intros [[-> ->] ->]; reflexivity | intros E; inversion E; auto].
Qed.

Lemma employeeKeyEqb_eq (a b : option nat * string) : employeeKeyEqb a b = true <-> a = b.
Proof.
  destruct a as [i1 n1], b as [i2 n2]. unfold employeeKeyEqb. cbn [fst snd].
  rewrite andb_true_iff, idEqb_eq, String.eqb_eq.
  split; [intros [-> ->]; reflexivity | intros E; inversion E; auto].
Qed.

Lemma exceeded_count (l : list monthProductivity) (s : scan) :
  exceededLimitMonths (fold_left scanMonth l s)
  = (exceededLimitMonths s
     + List.length (filter (fun m => (2 <? mp_leavesTaken m)%nat) l))%nat.
Proof.
  revert s. induction l as [|m l IH]; intros s; cbn [fold_left filter List.length]; [lia|].
  rewrite IH. unfold scanMonth. cbn [exceededLimitMonths].
  destruct (2 <? mp_leavesTaken m)%nat; cbn [List.length]; lia.
Qed.

Section Year.
Variable docs : list attendance.

Local Abbreviation keys1 := (distinct monthKeyEqb [] (map monthKey docs)).
Local Abbreviation members1 := (fun k => filter (fun a => monthKeyEqb (monthKey a) k) docs).
Local Abbreviation mk :=
  (fun k : option nat * string * Z =>
     {| g_employeeId := fst (fst k); g_employeeName := snd (fst k); g_month := snd k;
        g_totalWorkedHours := sumOf workedHours (members1 k);
        g_leaveDays := List.length (filter isLeave (members1 k));
        g_expectedHours := sumOf expectedHours (members1 k) |}).
Local Abbreviation keys2 := (distinct employeeKeyEqb [] (map fst keys1)).
Local Abbreviation part k2 := (filter (fun k => employeeKeyEqb (fst k) k2) keys1).

Lemma groupByMonth_spec : groupByMonth docs = map mk keys1.
Proof. unfold groupByMonth. apply map_ext. now intros [[i n] m]. Qed.

Lemma groupByEmployee_keys :
  map (fun g => (g_employeeId g, g_employeeName g)) (groupByMonth docs) = map fst keys1.
Proof.
  rewrite groupByMonth_spec, map_map. apply map_ext. now intros [[i n] m].
Qed.

Lemma groupByEmployee_members (k2 : option nat * string) :
  filter (fun g => employeeKeyEqb (g_employeeId g, g_employeeName g) k2) (groupByMonth docs)
  = map mk (part k2).
Proof. rewrite groupByMonth_spec, filter_map_swap. reflexivity. Qed.

Lemma part_docs (k2 : option nat * string) :
  Permutation (flat_map members1 (part k2)) (ofEmployee k2 docs).
Proof.
  exact (second_level monthKey monthKeyEqb fst employeeKeyEqb monthKeyEqb_eq docs k2).
Qed.

Lemma part_month (k2 : option nat * string) (k : option nat * string * Z) :
  In k (part k2) ->
  members1 k = ofMonth (snd k) (ofEmployee k2 docs) /\ members1 k <> [].
Proof.
  intros H. apply filter_In in H as [Hk E]. apply employeeKeyEqb_eq in E. split.
  - unfold ofMonth, ofEmployee. rewrite filter_filter. apply filter_ext.
    intros a. destruct k as [[i n] m]. cbn [fst snd] in *. subst k2.
    reflexivity.
  - destruct (group_inhabited monthKey monthKeyEqb monthKeyEqb_eq k docs Hk) as (a & Ha).
    intros C. cbn beta in C. now rewrite C in Ha.
Qed.

Lemma part_months (k2 : option nat * string) : NoDup (map snd (part k2)).
Proof.
  apply NoDup_map_NoDup_ForallPairs.
  - intros k k' Hk Hk' E.
    apply filter_In in Hk as [_ Hk], Hk' as [_ Hk'].
    apply employeeKeyEqb_eq in Hk, Hk'.
    destruct k as [f s], k' as [f' s']. cbn [fst snd] in *. congruence.
  - apply NoDup_filter, (distinct_NoDup monthKeyEqb monthKeyEqb_eq).
Qed.

(** What the second stage keeps of an employee. *)
Lemma employeeYear_spec (e : employeeYear) :
  In e (groupByEmployee (groupByMonth docs)) ->
  let recs := ofEmployee (e_employeeId e, e_employeeName e) docs in
  recs <> []
  /\ (e_totalWorkedHours e == sumOf workedHours recs)%Q
  /\ e_totalLeavesTaken e = List.length (filter isLeave recs)
  /\ NoDup (map md_month (monthlyData e))
  /\ Forall (fun md =>
               ofMonth (md_month md) recs <> []
               /\ md_workedHours md = sumOf workedHours (ofMonth (md_month md) recs)
               /\ md_expectedHours md = sumOf expectedHours (ofMonth (md_month md) recs)
               /\ md_leavesTaken md
                  = List.length (filter isLeave (ofMonth (md_month md) recs)))
       (monthlyData e).
Proof.
  unfold groupByEmployee. rewrite groupByEmployee_keys. intros H.
  apply in_map_iff in H as (k2 & <- & Hk2).
  cbn [e_employeeId e_employeeName e_totalWorkedHours e_totalLeavesTaken monthlyData].
  rewrite groupByEmployee_members.
  replace (fst k2, snd k2) with k2 by now destruct k2.
  cbn zeta. split.
  { exact (second_level_inhabited monthKey monthKeyEqb fst employeeKeyEqb
             monthKeyEqb_eq employeeKeyEqb_eq docs k2 Hk2). }
  split.
  { rewrite sumOf_map. cbn [g_totalWorkedHours].
    rewrite <- (sumOf_flat_map workedHours members1).
    apply sumOf_perm, part_docs. }
  split.
  { rewrite count_map. cbn [g_leaveDays].
    rewrite <- (count_flat_map (fun k => filter isLeave (members1 k))).
    rewrite <- flat_map_filter.
    apply Permutation_length, filter_perm, part_docs. }
  split.
  { rewrite !map_map. cbn [md_month g_month]. apply part_months. }
  rewrite map_map. apply Forall_map, Forall_forall. intros k Hk.
  cbn [md_month md_workedHours md_expectedHours md_leavesTaken g_month
       g_totalWorkedHours g_expectedHours g_leaveDays].
  destruct (part_month k2 k Hk) as [Em Hne]. cbn beta in Em, Hne.
  rewrite <- Em. repeat split. exact Hne.
Qed.

Lemma employees_all :
  NoDup (map (fun e => (e_employeeId e, e_employeeName e))
           (groupByEmployee (groupByMonth docs)))
  /\ Permutation
       (flat_map (fun e => ofEmployee (e_employeeId e, e_employeeName e) docs)
          (groupByEmployee (groupByMonth docs)))
       docs.
Proof.
  unfold groupByEmployee. rewrite groupByEmployee_keys. split.
  - rewrite map_map. cbn [e_employeeId e_employeeName].
    rewrite (map_ext _ (fun k => k)) by (now intros [a b]). rewrite map_id.
    apply (distinct_NoDup employeeKeyEqb employeeKeyEqb_eq).
  - rewrite flat_map_of_map. cbn [e_employeeId e_employeeName].
    rewrite (flat_map_ext _ (fun k2 => ofEmployee k2 docs)) by (now intros [a b]).
    exact (second_level_all monthKey monthKeyEqb fst employeeKeyEqb
             monthKeyEqb_eq employeeKeyEqb_eq docs).
Qed.

End Year.

End YearMore.

Module YearAnswer.
Import Routes.

(** What the year query answers when it answers. *)
Lemma yearAggregated_Done (h : JS.Host) (db : store) (year : Z) (ans : yearly) :
  yearAggregated h db year = Done ans ->
  groupByEmployee (groupByMonth (inYear year db)) <> []
  /\ ya_employees ans
     = map employeeSummaryOf (groupByEmployee (groupByMonth (inYear year db)))
  /\ ya_totalEmployees ans = List.length (ya_employees ans)
  /\ ya_totalHours ans = sumOf y_totalWorkedHours (ya_employees ans)
  /\ ya_totalLeaves ans
     = fold_left (fun s e => (s + y_totalLeavesTaken e)%nat) (ya_employees ans) 0%nat.
Proof.
  unfold yearAggregated, inYear.
  destruct (invalidYear h year); [discriminate|].
  destruct (groupByEmployee _) as [|e emps]; [discriminate|].
  intros E. inversion E; subst ans; clear E.
  split; [discriminate|]. repeat split.
Qed.

End YearAnswer.

(** X14. The totals of a year are sums over the documents dated in it.
    When the year query answers, the total hours are the worked hours of
    all documents of the year and the total leaves the number of them that
    are leaves; there is one summary per employee key; and the summary of
    an employee has as worked hours and as leaves taken those of the
    employee's documents, as leaves allowed two for each of its months, as
    exceeded months the months with more than two leaves, and one entry per
    month that has documents, whose productivity is that of the month's
    hours and whose leaves are the month's. *)
Theorem year_totals_are_sums (h : JS.Host) (db : store) (year : Z) (ans : Routes.yearly) :
  Routes.yearAggregated h db year = Done ans ->
  inYear year db <> []
  /\ (Routes.ya_totalHours ans == sumOf workedHours (inYear year db))%Q
  /\ Routes.ya_totalLeaves ans = List.length (filter isLeave (inYear year db))
  /\ Routes.ya_totalEmployees ans = List.length (Routes.ya_employees ans)
  /\ NoDup (map (fun e => (Routes.y_employeeId e, Routes.y_employeeName e))
              (Routes.ya_employees ans))
  /\ Forall
       (fun e =>
          let recs :=
            ofEmployee (Routes.y_employeeId e, Routes.y_employeeName e) (inYear year db) in
          recs <> []
          /\ (Routes.y_totalWorkedHours e == sumOf workedHours recs)%Q
          /\ Routes.y_totalLeavesTaken e = List.length (filter isLeave recs)
          /\ Routes.y_totalLeavesAllowed e = (2 * List.length (Routes.y_monthlyData e))%nat
          /\ Routes.y_exceededLimitMonths e
             = List.length (filter (fun m => (2 <? Routes.mp_leavesTaken m)%nat)
                              (Routes.y_monthlyData e))
          /\ NoDup (map Routes.mp_month (Routes.y_monthlyData e))
          /\ Forall
               (fun m =>
                  let days := ofMonth (Routes.mp_month m) recs in
                  days <> []
                  /\ Routes.mp_productivity m
                     = productivityOf (sumOf workedHours days) (sumOf expectedHours days)
                  /\ Routes.mp_leavesTaken m = List.length (filter isLeave days))
               (Routes.y_monthlyData e))
       (Routes.ya_employees ans).
Proof.
  intros E.
  apply YearAnswer.yearAggregated_Done in E as (Hne & Ee & En & Eh & El).
  set (docs := inYear year db) in *.
  set (emps := Routes.groupByEmployee (Routes.groupByMonth docs)) in *.
  pose proof (YearMore.employeeYear_spec docs) as Hspec. fold emps in Hspec.
  destruct (YearMore.employees_all docs) as [Hnd Hall]. fold emps in Hnd, Hall.
  split.
  { intros C. apply Hne. unfold emps. now rewrite C. }
  split.
  { rewrite Eh, Ee, GroupFacts.sumOf_map.
    rewrite <- (ListFacts.sumOf_perm workedHours _ _ Hall), GroupFacts.sumOf_flat_map.
    apply GroupFacts.sumOf_ext. intros e He.
    cbn [Routes.employeeSummaryOf Routes.y_totalWorkedHours].
    now apply Hspec. }
  split.
  { rewrite El, Ee, GroupFacts.count_map.
    rewrite <- (Permutation_length (ListFacts.filter_perm isLeave _ _ Hall)).
    rewrite TwoLevel.flat_map_filter, GroupFacts.count_flat_map.
    apply SummaryFacts.count_ext. intros e He.
    cbn [Routes.employeeSummaryOf Routes.y_totalLeavesTaken].
    now apply Hspec. }
  split; [exact En|].
  rewrite Ee. split.
  { rewrite map_map. exact Hnd. }
  apply Forall_map, Forall_forall. intros e He.
  destruct (Hspec e He) as (H1 & H2 & H3 & H4 & H5).
  cbn [Routes.employeeSummaryOf Routes.y_employeeId Routes.y_employeeName
       Routes.y_totalWorkedHours Routes.y_totalLeavesTaken Routes.y_totalLeavesAllowed
       Routes.y_exceededLimitMonths Routes.y_monthlyData].
  cbn zeta. split; [exact H1|]. split; [exact H2|]. split; [exact H3|].
  split; [lia|]. split.
  { rewrite YearMore.exceeded_count. reflexivity. }
  split.
  { rewrite map_map. exact H4. }
  apply Forall_map. eapply Forall_impl; [|exact H5].
  intros md (G1 & G2 & G3 & G4).
  cbn [Routes.monthlyProductivityOf Routes.mp_month Routes.mp_productivity
       Routes.mp_leavesTaken].
  split; [exact G1|]. split; [now rewrite G2, G3 | exact G4].
Qed.

Lemma year_totals_witness :
  exists ans,
    Routes.yearAggregated ist fullDayStore 2024 = Done ans
    /\ (Routes.ya_totalHours ans == sumOf workedHours (inYear 2024 fullDayStore))%Q
    /\ Routes.ya_totalLeaves ans = List.length (filter isLeave (inYear 2024 fullDayStore)).
Proof.
  eexists. split; [vm_compute; reflexivity|].
  match goal with
  | |- context [Routes.ya_totalHours ?a] =>
      destruct (year_totals_are_sums ist fullDayStore 2024 a) as (_ & H1 & H2 & _)
  end.
  - vm_compute. reflexivity.
  - split; [exact H1 | exact H2].
Defined.

(* ================================================================== *)
(** ** The windows of the period queries *)
(* ================================================================== *)

Module WindowFacts.
Import JS JSFacts.

Lemma newYear_Some (y s : Z) :
  Routes.newYear y = Some s -> s = DayFromYear y * msPerDay.
Proof.
  unfold Routes.newYear. intros H. apply TimeClip_Some in H as [-> _].
  unfold MakeDate, MakeDay. change (0 / 12) with 0. change (0 mod 12) with 0.
  cbn [monthStart]. replace (y + 0) with y by lia. lia.
Qed.

Lemma newYear_valid (y : Z) :
  2000 <= y <= 275001 -> Routes.newYear y = Some (DayFromYear y * msPerDay).
Proof.
  intros Hy. unfold Routes.newYear, MakeDate, MakeDay.
  change (0 / 12) with 0. change (0 mod 12) with 0. cbn [monthStart].
  replace (y + 0) with y by lia.
  replace ((DayFromYear y + 0 + 1 - 1) * msPerDay + 0) with (DayFromYear y * msPerDay)
    by lia.
  unfold TimeClip. rewrite Z.gtb_ltb.
  pose proof (DayFromYear_mono 2000 y ltac:(lia)) as Hlo.
  pose proof (DayFromYear_mono y 275001 ltac:(lia)) as Hhi.
  let v := eval vm_compute in (DayFromYear 2000) in
  change (DayFromYear 2000) with v in Hlo.
  let v := eval vm_compute in (DayFromYear 275001) in
  change (DayFromYear 275001) with v in Hhi.
  destruct (Z.ltb_spec maxTime (Z.abs (DayFromYear y * msPerDay))) as [C|C];
    [|reflexivity].
  unfold maxTime, msPerDay in C. lia.
Qed.

(** A time value is in the year whose days hold its day. *)
Lemma YearFromTime_iff (t y : Z) :
  YearFromTime t = y <-> DayFromYear y * msPerDay <= t < DayFromYear (y + 1) * msPerDay.
Proof.
  unfold YearFromTime. split.
  - intros <-. pose proof (YearFromDay_spec (Day t)) as H.
    unfold Day, msPerDay in *. Z.div_mod_to_equations. lia.
  - intros H. apply YearFromDay_unique.
    unfold Day, msPerDay in *. Z.div_mod_to_equations. lia.
Qed.

End WindowFacts.

(** X15. The year queries match a document by its date, not by its label:
    for a year from 2000 on, the documents the year-aggregated and the
    employee-productivity queries read are the documents whose date is in
    that year of the UTC calendar, whatever month label they are stored
    under. *)
Theorem year_query_reads_the_utc_year (db : store) (year : Z) :
  2000 <= year <= 275000 ->
  inYear year db = filter (fun r => JS.YearFromTime (date r) =? year) (Attendance db).
Proof.
  intros Hy. unfold inYear.
  rewrite (WindowFacts.newYear_valid year), (WindowFacts.newYear_valid (year + 1)) by lia.
  apply filter_ext. intros r. cbn [Routes.inRange].
  pose proof (WindowFacts.YearFromTime_iff (date r) year) as H.
  destruct (Z.eqb_spec (JS.YearFromTime (date r)) year) as [E | E].
  - apply H in E. apply andb_true_iff. split; [apply Z.leb_le | apply Z.ltb_lt]; lia.
  - apply not_true_is_false. intros C. apply andb_true_iff in C as [C1 C2].
    apply Z.leb_le in C1. apply Z.ltb_lt in C2. apply E, H. lia.
Qed.

Lemma year_query_witness :
  inYear 2024 fullDayStore
  = filter (fun r => JS.YearFromTime (date r) =? 2024) (Attendance fullDayStore).
Proof.
  apply (year_query_reads_the_utc_year fullDayStore 2024). lia.
Defined.

Module MonthWindow.
Import JS JSFacts.

Ltac next_month :=
  match goal with
  | |- context [monthStart _ (?m + 1)] =>
      let v := eval vm_compute in (m + 1) in change (m + 1) with v
  end.

Lemma MakeDay_first (y m : Z) :
  0 <= m <= 12 ->
  MakeDay y m 1 = DayFromYear y + monthStart (if isLeap y then 1 else 0) m.
Proof.
  intros Hm. destruct (Z.eq_dec m 12) as [-> | Hne].
  - unfold MakeDay. change (12 / 12) with 1. change (12 mod 12) with 0.
    cbn [monthStart]. rewrite DayFromYear_succ. unfold DaysInYear.
    destruct (isLeap y); lia.
  - unfold MakeDay. rewrite Z.div_small, Z.mod_small by lia.
    rewrite Z.add_0_r. lia.
Qed.

Lemma monthStart_mono (leap m : Z) :
  0 <= leap <= 1 -> 0 <= m <= 11 ->
  0 <= monthStart leap m /\ monthStart leap m < monthStart leap (m + 1)
  /\ monthStart leap (m + 1) <= 365 + leap.
Proof.
  intros Hl Hm.
  assert (H : m = 0 \/ m = 1 \/ m = 2 \/ m = 3 \/ m = 4 \/ m = 5 \/ m = 6 \/ m = 7
              \/ m = 8 \/ m = 9 \/ m = 10 \/ m = 11) by lia.
  repeat (destruct H as [-> | H]; [next_month; cbn [monthStart]; lia|]).
  subst m. next_month. cbn [monthStart]. lia.
Qed.

Lemma monthOfDayWithinYear_unique (leap dwy m : Z) :
  0 <= leap <= 1 -> 0 <= m <= 11 ->
  monthStart leap m <= dwy < monthStart leap (m + 1) ->
  monthOfDayWithinYear leap dwy = m.
Proof.
  intros Hl Hm.
  assert (H : m = 0 \/ m = 1 \/ m = 2 \/ m = 3 \/ m = 4 \/ m = 5 \/ m = 6 \/ m = 7
              \/ m = 8 \/ m = 9 \/ m = 10 \/ m = 11) by lia.
  unfold monthOfDayWithinYear.
  repeat (destruct H as [-> | H];
          [next_month; cbn [monthStart]; intros Hd; split_leb; lia|]).
  subst m. next_month. cbn [monthStart]. intros Hd. split_leb; lia.
Qed.

(** The days of month [m] of year [y]. *)
Lemma month_window (y m x : Z) :
  0 <= m <= 11 ->
  (MakeDay y m 1 <= Day x < MakeDay y (m + 1) 1
   <-> YearFromTime x = y /\ MonthFromTime x = m).
Proof.
  intros Hm. rewrite !MakeDay_first by lia.
  assert (Hl : 0 <= (if isLeap y then 1 else 0) <= 1) by (destruct (isLeap y); lia).
  pose proof (monthStart_mono _ m Hl Hm) as (H0 & H1 & H2).
  split.
  - intros H.
    assert (Hy : YearFromTime x = y).
    { apply YearFromDay_unique. rewrite DayFromYear_succ. unfold DaysInYear.
      destruct (isLeap y); lia. }
    split; [exact Hy|].
    unfold MonthFromTime, InLeapYear, DayWithinYear. rewrite Hy.
    apply monthOfDayWithinYear_unique; [exact Hl | exact Hm | lia].
  - intros [Hy Hmo].
    pose proof (DayWithinYear_range x) as Hr.
    unfold MonthFromTime, InLeapYear in Hmo. rewrite Hy in Hmo, Hr.
    unfold DaysInYear in Hr.
    pose proof (CalendarMore.monthOfDayWithinYear_bounds (if isLeap y then 1 else 0)
                  (DayWithinYear x) ltac:(destruct (isLeap y); lia)) as Hb.
    rewrite Hmo in Hb. unfold DayWithinYear in Hb. rewrite Hy in Hb. lia.
Qed.

End MonthWindow.

(** X16. The window of the workforce query is a month of local time, and
    the stored dates are midnights UTC.  On a host of constant offset east
    of Greenwich, or at it, the query for a month reads the documents dated
    in that month; on a host west of Greenwich it reads the documents whose
    day before is in that month, that is, those dated from the second of the
    month to the first of the next. *)
Theorem workforce_window (h : JS.Host) (c year month s e : Z) (r : attendance) :
  (forall x b, JS.LocalTZA h x b = c) ->
  - JS.msPerDay < c < JS.msPerDay ->
  2000 <= year ->
  1 <= month <= 12 ->
  JS.Date_local h year (month - 1) 1 = Some s ->
  JS.Date_local h year month 1 = Some e ->
  JS.TimeWithinDay (date r) = 0 ->
  let shown := if 0 <=? c then date r else date r - JS.msPerDay in
  Routes.inRange (Some s) (Some e) r = true
  <-> JS.YearFromTime shown = year /\ JS.MonthFromTime shown = month - 1.
Proof.
  intros Hc Hrange Hy Hm Es Ee Ht shown.
  rewrite <- (MonthWindow.month_window year (month - 1) shown) by lia.
  replace (month - 1 + 1) with month by lia.
  unfold JS.Date_local in Es, Ee.
  apply JSFacts.TimeClip_Some in Es as [-> _], Ee as [-> _].
  rewrite JSFacts.MakeFullYear_id by lia.
  unfold JS.UTC. rewrite !Hc.
  cbn [Routes.inRange]. rewrite andb_true_iff, Z.leb_le, Z.ltb_lt.
  unfold JS.MakeDate, JS.MakeTime. 
  set (A := JS.MakeDay year (month - 1) 1). set (B := JS.MakeDay year month 1).
  unfold shown. clearbody A B. clear shown.
  destruct (Z.leb_spec 0 c);
    unfold JS.Day, JS.TimeWithinDay, JS.msPerDay, JS.msPerHour, JS.msPerMinute in *;
    Z.div_mod_to_equations; lia.
Qed.

Lemma workforce_window_witness :
  Routes.inRange (Some 1709231400000) (Some 1711909800000)
    {| employeeName := "Asha"; date := 1709510400000;
       inTime := CString "09:00"; outTime := CString "10:00";
       workedHours := 1; isLeave := false; isHoliday := false;
       dayOfWeek := "Monday"; monthYear := "2024-03"; expectedHours := 8.5;
       status := Present; employeeId := Some 0%nat |} = true
  <-> JS.YearFromTime 1709510400000 = 2024 /\ JS.MonthFromTime 1709510400000 = 3 - 1.
Proof.
  apply (workforce_window ist 19800000 2024 3 1709231400000 1711909800000).
  - reflexivity.
  - vm_compute. split; reflexivity.
  - lia.
  - lia.
  - vm_compute. reflexivity.
  - vm_compute. reflexivity.
  - reflexivity.
Defined.

(* ================================================================== *)
(** ** The workforce of a month, day by day *)
(* ================================================================== *)

Module WorkforceFacts.
Import ListFacts GroupFacts TwoLevel Routes.

Lemma dayKeyEqb_eq (a b : Z * option nat * string) : dayKeyEqb a b = true <-> a = b.
Proof.
  destruct a as [[d1 i1] n1], b as [[d2 i2] n2]. unfold dayKeyEqb.
  rewrite !andb_true_iff, Z.eqb_eq, YearMore.idEqb_eq, String.eqb_eq.
  split; [intros [[-> ->] ->]; reflexivity | intros E; inversion E; auto].
Qed.

Lemma strictly_sorted {A : Type} (f : A -> Z) (l : list A) :
  StronglySorted (fun a b => (f a <=? f b) = true) l ->
  NoDup (map f l) ->
  StronglySorted (fun a b => f a < f b) l.
Proof.
  induction 1 as [|x l Hs IH Hx]; intros Hn; [constructor|].
  cbn [map] in Hn. apply NoDup_cons_iff in Hn as [Hnx Hn].
  constructor; [now apply IH|].
  apply Forall_forall. intros y Hy.
  pose proof (proj1 (Forall_forall _ _) Hx y Hy) as Hle. apply Z.leb_le in Hle.
  assert (f x <> f y).
  { intros C. apply Hnx. rewrite C. now apply in_map. }
  lia.
Qed.

Section Days.
Variable docs : list attendance.

Local Abbreviation keys1 := (distinct dayKeyEqb [] (map dayKey docs)).
Local Abbreviation members1 := (fun k => filter (fun a => dayKeyEqb (dayKey a) k) docs).
Local Abbreviation mk :=
  (fun k : Z * option nat * string =>
     (fst (fst k),
      {| w_employeeId := snd (fst k); w_employeeName := snd k;
         w_workedHours := sumOf workedHours (members1 k);
         w_isLeave := existsb isLeave (members1 k);
         w_isHoliday := existsb isHoliday (members1 k) |})).
Local Abbreviation dayOf := (fun k : Z * option nat * string => fst (fst k)).
Local Abbreviation part d := (filter (fun k => dayOf k =? d) keys1).

Lemma groupByDayAndEmployee_spec : groupByDayAndEmployee docs = map mk keys1.
Proof. unfold groupByDayAndEmployee. apply map_ext. now intros [[d i] n]. Qed.

Lemma groupByDay_days :
  map fst (groupByDayAndEmployee docs) = map dayOf keys1.
Proof. rewrite groupByDayAndEmployee_spec, map_map. reflexivity. Qed.

Lemma groupByDay_members (d : Z) :
  filter (fun g => fst g =? d) (groupByDayAndEmployee docs) = map mk (part d).
Proof. rewrite groupByDayAndEmployee_spec, filter_map_swap. reflexivity. Qed.

Lemma part_day (d : Z) : Permutation (flat_map members1 (part d)) (onDay d docs).
Proof.
  exact (second_level dayKey dayKeyEqb dayOf Z.eqb dayKeyEqb_eq docs d).
Qed.

Lemma part_employee (d : Z) (k : Z * option nat * string) :
  In k (part d) ->
  members1 k = ofEmployee (snd (fst k), snd k) (onDay d docs) /\ members1 k <> [].
Proof.
  intros H. apply filter_In in H as [Hk E]. apply Z.eqb_eq in E. split.
  - unfold ofEmployee, onDay. rewrite filter_filter. apply filter_ext.
    intros a. destruct k as [[d' i] n]. cbn [fst snd] in *. subst d'.
    unfold dayKeyEqb, dayKey, employeeKeyEqb, employeeKey. cbn [fst snd].
    now rewrite andb_assoc.
  - destruct (group_inhabited dayKey dayKeyEqb dayKeyEqb_eq k docs Hk) as (a & Ha).
    intros C. cbn beta in C. now rewrite C in Ha.
Qed.

Lemma part_employees (d : Z) : NoDup (map (fun k => (snd (fst k), snd k)) (part d)).
Proof.
  apply NoDup_map_NoDup_ForallPairs.
  - intros k k' Hk Hk' E.
    apply filter_In in Hk as [_ Hk], Hk' as [_ Hk'].
    apply Z.eqb_eq in Hk, Hk'.
    destruct k as [[d1 i1] n1], k' as [[d2 i2] n2]. cbn [fst snd] in *. congruence.
  - apply NoDup_filter, (distinct_NoDup dayKeyEqb dayKeyEqb_eq).
Qed.

(** What the second stage keeps of a day. *)
Lemma workforceDay_spec (day : workforceDay) :
  In day (groupByDay (groupByDayAndEmployee docs)) ->
  let recs := onDay (w_date day) docs in
  recs <> []
  /\ (sumOf w_workedHours (w_employees day) == sumOf workedHours recs)%Q
  /\ NoDup (map (fun e => (w_employeeId e, w_employeeName e)) (w_employees day))
  /\ Forall (fun e =>
               let mine := ofEmployee (w_employeeId e, w_employeeName e) recs in
               mine <> []
               /\ w_workedHours e = sumOf workedHours mine
               /\ w_isLeave e = existsb isLeave mine
               /\ w_isHoliday e = existsb isHoliday mine)
       (w_employees day).
Proof.
  unfold groupByDay. rewrite groupByDay_days. intros H.
  apply in_map_iff in H as (d & <- & Hd).
  cbn [w_date w_employees]. rewrite groupByDay_members, map_map. cbn [snd].
  cbn zeta. split.
  { exact (second_level_inhabited dayKey dayKeyEqb dayOf Z.eqb
             dayKeyEqb_eq Z.eqb_eq docs d Hd). }
  split.
  { rewrite sumOf_map. cbn [w_workedHours].
    rewrite <- (sumOf_flat_map workedHours members1).
    apply sumOf_perm, part_day. }
  split.
  { rewrite map_map. cbn [w_employeeId w_employeeName]. apply part_employees. }
  apply Forall_map, Forall_forall. intros k Hk.
  cbn [w_employeeId w_employeeName w_workedHours w_isLeave w_isHoliday].
  destruct (part_employee d k Hk) as [Em Hne]. cbn beta in Em, Hne.
  rewrite <- Em. repeat split. exact Hne.
Qed.

Lemma days_all :
  map w_date (groupByDay (groupByDayAndEmployee docs))
  = distinct Z.eqb [] (map dayOf keys1)
  /\ Permutation
       (flat_map (fun day => onDay (w_date day) docs)
          (groupByDay (groupByDayAndEmployee docs)))
       docs.
Proof.
  unfold groupByDay. rewrite groupByDay_days. split.
  - rewrite map_map. cbn [w_date]. apply map_id.
  - rewrite flat_map_of_map. cbn [w_date].
    exact (second_level_all dayKey dayKeyEqb dayOf Z.eqb dayKeyEqb_eq Z.eqb_eq docs).
Qed.

End Days.

(** What the workforce query answers when it answers. *)
Lemma workforce_Done (h : JS.Host) (db : store) (year month : Z) (ans : workforceAnswer) :
  workforce h db year month = Done ans ->
  wf_dailyBreakdown ans
  = sortBy (fun a b => w_date a <=? w_date b)
      (groupByDay (groupByDayAndEmployee (inMonthWindow h year month db))).
Proof.
  unfold workforce, inMonthWindow.
  destruct (invalidYear h year); [discriminate|].
  destruct ((month <? 1) || (month >? 12)); [discriminate|].
  intros E. now inversion E.
Qed.

End WorkforceFacts.

(** X17. The workforce answer lists the days that have documents.  When
    the query answers, its days are the UTC days of the documents it
    matched, each once and in ascending order; the hours of all employees
    of all days add up to the worked hours of those documents; and a day
    lists each employee key of its documents once, with the hours, the
    leave flag and the holiday flag of that employee's documents of the
    day. *)
Theorem workforce_lists_the_days (h : JS.Host) (db : store) (year month : Z)
    (ans : Routes.workforceAnswer) :
  Routes.workforce h db year month = Done ans ->
  let docs := inMonthWindow h year month db in
  StronglySorted (fun a b => Routes.w_date a < Routes.w_date b)
    (Routes.wf_dailyBreakdown ans)
  /\ (forall d, In d (map Routes.w_date (Routes.wf_dailyBreakdown ans))
                <-> exists r, In r docs /\ JS.Day (date r) = d)
  /\ (sumOf (fun day => sumOf Routes.w_workedHours (Routes.w_employees day))
        (Routes.wf_dailyBreakdown ans)
      == sumOf workedHours docs)%Q
  /\ Forall
       (fun day =>
          let recs := onDay (Routes.w_date day) docs in
          NoDup (map (fun e => (Routes.w_employeeId e, Routes.w_employeeName e))
                   (Routes.w_employees day))
          /\ Forall (fun e =>
                       let mine :=
                         ofEmployee (Routes.w_employeeId e, Routes.w_employeeName e) recs in
                       mine <> []
                       /\ Routes.w_workedHours e = sumOf workedHours mine
                       /\ Routes.w_isLeave e = existsb isLeave mine
                       /\ Routes.w_isHoliday e = existsb isHoliday mine)
               (Routes.w_employees day))
       (Routes.wf_dailyBreakdown ans).
Proof.
  intros E docs. apply WorkforceFacts.workforce_Done in E. fold docs in E.
  set (days := Routes.groupByDay (Routes.groupByDayAndEmployee docs)) in *.
  pose proof (WorkforceFacts.workforceDay_spec docs) as Hspec. fold days in Hspec.
  destruct (WorkforceFacts.days_all docs) as [Hdays Hall]. fold days in Hdays, Hall.
  assert (Hperm : Permutation (Routes.wf_dailyBreakdown ans) days).
  { rewrite E. apply ListFacts.sortBy_perm. }
  assert (Hnd : NoDup (map Routes.w_date days)).
  { rewrite Hdays. apply (GroupFacts.distinct_NoDup Z.eqb Z.eqb_eq). }
  split.
  { apply WorkforceFacts.strictly_sorted.
    - rewrite E. apply ListFacts.sortBy_sorted.
      + intros a b. destruct (Z.leb_spec (Routes.w_date a) (Routes.w_date b));
          [now left | right]. apply Z.leb_le. lia.
      + intros a b c H1 H2. apply Z.leb_le in H1, H2. apply Z.leb_le. lia.
    - apply (Permutation_NoDup (Permutation_sym (Permutation_map _ Hperm))). exact Hnd. }
  split.
  { intros d. split.
    - intros H. apply (Permutation_in _ (Permutation_map _ Hperm)) in H.
      apply in_map_iff in H as (day & <- & Hday).
      destruct (Hspec day Hday) as (Hne & _). cbn zeta in Hne.
      destruct (onDay (Routes.w_date day) docs) as [|r l] eqn:Er; [contradiction|].
      assert (Hr : In r (onDay (Routes.w_date day) docs)) by (rewrite Er; now left).
      apply filter_In in Hr as [Hr Hd]. apply Z.eqb_eq in Hd. now exists r.
    - intros (r & Hr & <-).
      apply (Permutation_in _ (Permutation_sym (Permutation_map _ Hperm))).
      rewrite Hdays. apply (GroupFacts.distinct_all Z.eqb Z.eqb_eq).
      apply in_map_iff. exists (Routes.dayKey r). split; [reflexivity|].
      apply (GroupFacts.distinct_all Routes.dayKeyEqb WorkforceFacts.dayKeyEqb_eq).
      now apply in_map. }
  split.
  { rewrite (ListFacts.sumOf_perm _ _ _ Hperm).
    rewrite <- (ListFacts.sumOf_perm workedHours _ _ Hall), GroupFacts.sumOf_flat_map.
    apply GroupFacts.sumOf_ext. intros day Hday. now apply Hspec. }
  apply (Permutation_Forall (Permutation_sym Hperm)).
  apply Forall_forall. intros day Hday.
  destruct (Hspec day Hday) as (_ & _ & H3 & H4). cbn zeta. split; assumption.
Qed.

Lemma workforce_days_witness :
  exists ans,
    Routes.workforce ist fullDayStore 2024 3 = Done ans
    /\ (sumOf (fun day => sumOf Routes.w_workedHours (Routes.w_employees day))
          (Routes.wf_dailyBreakdown ans)
        == sumOf workedHours (inMonthWindow ist 2024 3 fullDayStore))%Q.
Proof.
  eexists. split; [vm_compute; reflexivity|].
  match goal with
  | |- context [Routes.wf_dailyBreakdown ?a] =>
      destruct (workforce_lists_the_days ist fullDayStore 2024 3 a) as (_ & _ & H & _)
  end.
  - vm_compute. reflexivity.
  - exact H.
Defined.

(* ================================================================== *)
(** ** The comparison of two years *)
(* ================================================================== *)

Module ComparisonFacts.
Import ListFacts GroupFacts TwoLevel Routes.

Lemma yearKeyEqb_eq (a b : Z * option nat) : yearKeyEqb a b = true <-> a = b.
Proof.
  destruct a as [y1 i1], b as [y2 i2]. unfold yearKeyEqb. cbn [fst snd].
  rewrite andb_true_iff, Z.eqb_eq, YearMore.idEqb_eq.
  split; [intros [-> ->]; reflexivity | intros E; inversion E; auto].
Qed.

Section Years.
Variable docs : list attendance.

Local Abbreviation keys1 := (distinct yearKeyEqb [] (map yearKey docs)).
Local Abbreviation members1 := (fun k => filter (fun a => yearKeyEqb (yearKey a) k) docs).
Local Abbreviation mk :=
  (fun k : Z * option nat =>
     {| yg_year := fst k;
        yg_totalWorkedHours := sumOf workedHours (members1 k);
        yg_leaveDays := List.length (filter isLeave (members1 k));
        yg_expectedHours := sumOf expectedHours (members1 k) |}).
Local Abbreviation part y := (filter (fun k : Z * option nat => fst k =? y) keys1).

Lemma groupByYear_years :
  map yg_year (groupByYearAndEmployee docs) = map fst keys1.
Proof. unfold groupByYearAndEmployee. rewrite map_map. reflexivity. Qed.

Lemma groupByYear_members (y : Z) :
  filter (fun g => yg_year g =? y) (groupByYearAndEmployee docs) = map mk (part y).
Proof. unfold groupByYearAndEmployee. rewrite filter_map_swap. reflexivity. Qed.

Lemma part_year (y : Z) : Permutation (flat_map members1 (part y)) (ofYear y docs).
Proof.
  exact (second_level yearKey yearKeyEqb fst Z.eqb yearKeyEqb_eq docs y).
Qed.

(** A year has as many groups as its documents have employee keys. *)
Lemma part_count (y : Z) :
  List.length (part y)
  = List.length (distinct idEqb [] (map employeeId (ofYear y docs))).
Proof.
  rewrite <- (length_map snd (part y)).
  apply Permutation_length, NoDup_Permutation.
  - apply NoDup_map_NoDup_ForallPairs.
    + intros k k' Hk Hk' E.
      apply filter_In in Hk as [_ Hk], Hk' as [_ Hk'].
      apply Z.eqb_eq in Hk, Hk'.
      destruct k as [y1 i1], k' as [y2 i2]. cbn [fst snd] in *. congruence.
    + apply NoDup_filter, (distinct_NoDup yearKeyEqb yearKeyEqb_eq).
  - apply (distinct_NoDup idEqb YearMore.idEqb_eq).
  - intros i. rewrite (distinct_all idEqb YearMore.idEqb_eq). split.
    + intros H. apply in_map_iff in H as (k & <- & Hk).
      apply filter_In in Hk as [Hk Ey]. apply Z.eqb_eq in Ey.
      apply (proj1 (distinct_all yearKeyEqb yearKeyEqb_eq _ _)) in Hk.
      apply in_map_iff in Hk as (a & <- & Ha).
      apply in_map_iff. exists a. split; [reflexivity|].
      apply filter_In. split; [exact Ha|]. now apply Z.eqb_eq.
    + intros H. apply in_map_iff in H as (a & <- & Ha).
      apply filter_In in Ha as [Ha Ey].
      apply in_map_iff. exists (yearKey a). split; [reflexivity|].
      apply filter_In. split; [|exact Ey].
      apply (distinct_all yearKeyEqb yearKeyEqb_eq). now apply in_map.
Qed.

(** What the second stage keeps of a year. *)
Lemma yearTotals_spec (t : yearTotals) :
  In t (groupByYear (groupByYearAndEmployee docs)) ->
  let recs := ofYear (yt_year t) docs in
  recs <> []
  /\ (yt_totalWorkedHours t == sumOf workedHours recs)%Q
  /\ (yt_totalExpectedHours t == sumOf expectedHours recs)%Q
  /\ yt_totalLeaves t = List.length (filter isLeave recs)
  /\ yt_employeeCount t = List.length (distinct idEqb [] (map employeeId recs)).
Proof.
  unfold groupByYear. rewrite groupByYear_years. intros H.
  apply in_map_iff in H as (y & <- & Hy).
  cbn [yt_year yt_totalWorkedHours yt_totalExpectedHours yt_totalLeaves yt_employeeCount].
  rewrite groupByYear_members. cbn zeta. split.
  { exact (second_level_inhabited yearKey yearKeyEqb fst Z.eqb
             yearKeyEqb_eq Z.eqb_eq docs y Hy). }
  split.
  { rewrite sumOf_map. cbn [yg_totalWorkedHours].
    rewrite <- (sumOf_flat_map workedHours members1).
    apply sumOf_perm, part_year. }
  split.
  { rewrite sumOf_map. cbn [yg_expectedHours].
    rewrite <- (sumOf_flat_map expectedHours members1).
    apply sumOf_perm, part_year. }
  split.
  { rewrite count_map. cbn [yg_leaveDays].
    rewrite <- (count_flat_map (fun k => filter isLeave (members1 k))).
    rewrite <- flat_map_filter.
    apply Permutation_length, filter_perm, part_year. }
  rewrite length_map. apply part_count.
Qed.

Lemma years_all :
  map yt_year (groupByYear (groupByYearAndEmployee docs))
  = distinct Z.eqb [] (map fst keys1).
Proof.
  unfold groupByYear. rewrite groupByYear_years, map_map. cbn [yt_year]. apply map_id.
Qed.

End Years.

Lemma yearComparison_Done (h : JS.Host) (db : store) (ans : list comparison) :
  yearComparison h db = Done ans ->
  ans = map comparisonOf
          (sortBy (fun a b => yt_year a <=? yt_year b)
             (groupByYear (groupByYearAndEmployee (comparedDocs h db)))).
Proof. unfold yearComparison, comparedDocs. cbn. intros E. now inversion E. Qed.

Lemma inRange_Some (s e : Z) (r : attendance) :
  inRange (Some s) (Some e) r = true -> s <= date r < e.
Proof.
  cbn [inRange]. rewrite andb_true_iff, Z.leb_le, Z.ltb_lt. tauto.
Qed.

Lemma comparedDocs_valid (h : JS.Host) (db : store) :
  2001 <= JS.getFullYear h (JS.now h) <= 275000 ->
  comparedDocs h db
  = filter (inRange
              (Some (JS.DayFromYear (JS.getFullYear h (JS.now h) - 1) * JS.msPerDay))
              (Some (JS.DayFromYear (JS.getFullYear h (JS.now h) + 1) * JS.msPerDay)))
      (Attendance db).
Proof.
  intros Hy. unfold comparedDocs, comparedRange. cbn [fst snd].
  now rewrite !WindowFacts.newYear_valid by lia.
Qed.

(** The window of the comparison is last year and this year. *)
Lemma compared_years (h : JS.Host) (db : store) (r : attendance) :
  2001 <= JS.getFullYear h (JS.now h) <= 275000 ->
  In r (comparedDocs h db) ->
  JS.YearFromTime (date r) = JS.getFullYear h (JS.now h) - 1
  \/ JS.YearFromTime (date r) = JS.getFullYear h (JS.now h).
Proof.
  intros Hy Hr. rewrite (comparedDocs_valid h db Hy) in Hr.
  apply filter_In, proj2, inRange_Some in Hr.
  generalize dependent (JS.getFullYear h (JS.now h)). intros cy Hy Hr.
  pose proof (JSFacts.DayFromYear_mono (cy - 1) cy ltac:(lia)) as M1.
  pose proof (JSFacts.DayFromYear_mono cy (cy + 1) ltac:(lia)) as M2.
  destruct (Z_lt_le_dec (date r) (JS.DayFromYear cy * JS.msPerDay)) as [Hlt | Hge].
  - left. apply WindowFacts.YearFromTime_iff.
    replace (cy - 1 + 1) with cy by lia. tauto.
  - right. apply WindowFacts.YearFromTime_iff. tauto.
Qed.

End ComparisonFacts.



(* ================================================================== *)
(** ** Employees by name *)
(* ================================================================== *)

Module NameFacts.
Import ListFacts GroupFacts.

Lemma strictly_sorted_names {A : Type} (f : A -> string) (l : list A) :
  StronglySorted (fun a b => String.leb (f a) (f b) = true) l ->
  NoDup (map f l) ->
  StronglySorted (fun a b => String.compare (f a) (f b) = Lt) l.
Proof.
  induction 1 as [|x l Hs IH Hx]; intros Hn; [constructor|].
  cbn [map] in Hn. apply NoDup_cons_iff in Hn as [Hnx Hn].
  constructor; [now apply IH|].
  apply Forall_forall. intros y Hy.
  pose proof (proj1 (Forall_forall _ _) Hx y Hy) as Hle. unfold String.leb in Hle.
  destruct (String.compare (f x) (f y)) eqn:E; [|reflexivity|discriminate].
  apply String.compare_eq_iff in E. exfalso. apply Hnx. rewrite E. now apply in_map.
Qed.

(** In a store that uploads built, the documents of an employee key among
    documents of the store are the documents of its name. *)
Lemma ofEmployee_by_name (db : store) (docs : list attendance) (k : option nat * string) :
  reachable db ->
  (forall r, In r docs -> In r (Attendance db)) ->
  ofEmployee k docs <> [] ->
  ofEmployee k docs = filter (fun a => String.eqb (employeeName a) (snd k)) docs.
Proof.
  intros Hr Hsub Hne.
  destruct (ofEmployee k docs) as [|r0 l] eqn:E0; [contradiction|].
  assert (H0 : In r0 (ofEmployee k docs)) by (rewrite E0; now left).
  rewrite <- E0. clear E0 Hne l.
  apply filter_In in H0 as [H0 K0]. apply YearMore.employeeKeyEqb_eq in K0.
  unfold ofEmployee. apply filter_ext_in. intros a Ha.
  destruct (String.eqb (employeeName a) (snd k)) eqn:En.
  - apply String.eqb_eq in En. apply YearMore.employeeKeyEqb_eq.
    rewrite <- K0 in *. unfold employeeKey in *. cbn [snd] in En. f_equal; [|exact En].
    apply (UploadMore.reachable_keys db); auto.
  - destruct (Routes.employeeKeyEqb (employeeKey a) k) eqn:C; [|reflexivity].
    apply YearMore.employeeKeyEqb_eq in C. rewrite <- C in En.
    unfold employeeKey in En. cbn [snd] in En. rewrite String.eqb_refl in En.
    discriminate.
Qed.

(** Keys of documents of such a store that differ, differ in the name. *)
Lemma keys_by_name (db : store) (docs : list attendance) (ks : list (option nat * string)) :
  reachable db ->
  (forall r, In r docs -> In r (Attendance db)) ->
  (forall k, In k ks -> ofEmployee k docs <> []) ->
  NoDup ks -> NoDup (map snd ks).
Proof.
  intros Hr Hsub Hne Hnd. apply NoDup_map_NoDup_ForallPairs; [|exact Hnd].
  intros k1 k2 H1 H2 E.
  pose proof (ofEmployee_by_name db docs k1 Hr Hsub (Hne k1 H1)) as E1.
  pose proof (ofEmployee_by_name db docs k2 Hr Hsub (Hne k2 H2)) as E2.
  rewrite <- E in E2. rewrite <- E1 in E2.
  destruct (ofEmployee k1 docs) as [|r l] eqn:Er; [now apply Hne in H1|].
  assert (Hr1 : In r (ofEmployee k1 docs)) by (rewrite Er; now left).
  assert (Hr2 : In r (ofEmployee k2 docs)) by (rewrite E2; now left).
  apply filter_In in Hr1 as [_ K1], Hr2 as [_ K2].
  apply YearMore.employeeKeyEqb_eq in K1, K2. congruence.
Qed.

End NameFacts.

(** X19. The list of employees names every employee of the attendance
    collection.  Over a store that uploads built it lists the employee
    documents in strictly ascending order of name, each once and each with
    two leaves a month, and every attendance document carries the name and
    the key of one of them. *)
Theorem employees_lists_every_name (db : store) (ans : Routes.employeesAnswer) :
  reachable db ->
  Routes.employees db = Done ans ->
  StronglySorted (fun a b => String.compare (name a) (name b) = Lt)
    (Routes.ea_employees ans)
  /\ Permutation (Routes.ea_employees ans) (Employee db)
  /\ Routes.ea_totalEmployees ans = List.length (Employee db)
  /\ Forall (fun e => leavesPerMonth e = 2) (Routes.ea_employees ans)
  /\ Forall (refersTo (Routes.ea_employees ans)) (Attendance db).
Proof.
  intros Hr E. unfold Routes.employees in E. inversion E; subst ans; clear E.
  cbn [Routes.ea_employees Routes.ea_totalEmployees].
  destruct (UploadMore.reachable_employees db Hr) as (Hn & Hl & Hrefs).
  set (le := fun a b : employee => String.leb (name a) (name b)).
  assert (Hperm : Permutation (sortBy le (Employee db)) (Employee db))
    by apply ListFacts.sortBy_perm.
  split.
  { apply NameFacts.strictly_sorted_names.
    - apply ListFacts.sortBy_sorted.
      + intros a b. apply MonthsFacts.leb_total.
      + intros a b c. apply MonthsFacts.leb_trans.
    - apply (Permutation_NoDup (Permutation_sym (Permutation_map _ Hperm))). exact Hn. }
  split; [exact Hperm|]. split; [now apply Permutation_length|].
  split; [apply (Permutation_Forall (Permutation_sym Hperm)); exact Hl|].
  eapply Forall_impl; [|exact Hrefs].
  intros r (e & He & H). exists e. split; [|exact H].
  now apply (Permutation_in _ (Permutation_sym Hperm)).
Qed.

Lemma employees_witness :
  exists ans,
    Routes.employees oneHourStore = Done ans
    /\ Permutation (Routes.ea_employees ans) (Employee oneHourStore)
    /\ Forall (refersTo (Routes.ea_employees ans)) (Attendance oneHourStore).
Proof.
  eexists. split; [vm_compute; reflexivity|].
  match goal with
  | |- Permutation (Routes.ea_employees ?a) _ /\ _ =>
      destruct (employees_lists_every_name oneHourStore a) as (_ & H1 & _ & _ & H2)
  end.
  - apply reach_upload, reach_empty.
  - vm_compute. reflexivity.
  - split; [exact H1 | exact H2].
Defined.

(** X20. Over a store that uploads built the year query has one summary
    per employee name, and the documents of a summary are the documents of
    the year that carry its name. *)
Theorem year_has_one_summary_per_name (h : JS.Host) (db : store) (year : Z)
    (ans : Routes.yearly) :
  reachable db ->
  Routes.yearAggregated h db year = Done ans ->
  NoDup (map Routes.y_employeeName (Routes.ya_employees ans))
  /\ Forall
       (fun e =>
          ofEmployee (Routes.y_employeeId e, Routes.y_employeeName e) (inYear year db)
          = filter (fun a => String.eqb (employeeName a) (Routes.y_employeeName e))
              (inYear year db))
       (Routes.ya_employees ans).
Proof.
  intros Hr E.
  apply YearAnswer.yearAggregated_Done in E as (_ & Ee & _).
  set (docs := inYear year db) in *.
  set (emps := Routes.groupByEmployee (Routes.groupByMonth docs)) in *.
  pose proof (YearMore.employeeYear_spec docs) as Hspec. fold emps in Hspec.
  destruct (YearMore.employees_all docs) as [Hnd _]. fold emps in Hnd.
  assert (Hsub : forall r, In r docs -> In r (Attendance db)).
  { intros r Hin. now apply filter_In in Hin. }
  assert (Hne : forall k,
             In k (map (fun e => (Routes.e_employeeId e, Routes.e_employeeName e)) emps) ->
             ofEmployee k docs <> []).
  { intros k Hk. apply in_map_iff in Hk as (e & <- & He). now apply Hspec. }
  rewrite Ee. split.
  - rewrite map_map.
    pose proof (NameFacts.keys_by_name db docs _ Hr Hsub Hne Hnd) as H.
    now rewrite map_map in H.
  - apply Forall_map, Forall_forall. intros e He.
    cbn [Routes.employeeSummaryOf Routes.y_employeeId Routes.y_employeeName].
    apply (NameFacts.ofEmployee_by_name db docs
             (Routes.e_employeeId e, Routes.e_employeeName e) Hr Hsub).
    now apply Hspec.
Qed.

Lemma year_names_witness :
  exists ans,
    Routes.yearAggregated ist fullDayStore 2024 = Done ans
    /\ NoDup (map Routes.y_employeeName (Routes.ya_employees ans)).
Proof.
  eexists. split; [vm_compute; reflexivity|].
  match goal with
  | |- NoDup (map _ (Routes.ya_employees ?a)) =>
      destruct (year_has_one_summary_per_name ist fullDayStore 2024 a) as (H & _)
  end.
  - apply reach_upload, reach_empty.
  - vm_compute. reflexivity.
  - exact H.
Defined.

(* ================================================================== *)
(** ** Numerals *)
(* ================================================================== *)

Module NumeralFacts.
Import JS.

Lemma digit_cases (d : Z) :
  0 <= d <= 9 ->
  d = 0 \/ d = 1 \/ d = 2 \/ d = 3 \/ d = 4 \/ d = 5 \/ d = 6 \/ d = 7 \/ d = 8 \/ d = 9.
Proof. lia. Qed.

Lemma digitOfRadix_digitChar (d : Z) :
  0 <= d <= 9 -> digitOfRadix 10 (digitChar d) = Some d.
Proof.
  intros H. apply digit_cases in H.
  repeat (destruct H as [-> | H]; [reflexivity|]). now subst.
Qed.

Lemma pow10_succ (f : nat) : 10 ^ Z.of_nat (S f) = 10 * 10 ^ Z.of_nat f.
Proof. rewrite Nat2Z.inj_succ. apply Z.pow_succ_r. lia. Qed.

Lemma readDigits_digit (a : option Z) (d : Z) (s : list ascii) :
  0 <= d <= 9 ->
  readDigits 10 a (digitChar d :: s)
  = readDigits 10 (Some (10 * match a with Some x => x | None => 0 end + d)) s.
Proof.
  intros H. cbn [readDigits]. now rewrite digitOfRadix_digitChar.
Qed.

Lemma digitsOf_S (f : nat) (n : Z) (acc : list ascii) :
  digitsOf (S f) n acc
  = if n <? 10 then digitChar (n mod 10) :: acc
    else digitsOf f (n / 10) (digitChar (n mod 10) :: acc).
Proof. reflexivity. Qed.

(** Reading the digits of [n] appends them to the number read so far. *)
Lemma readDigits_digitsOf (f : nat) (n : Z) (acc : list ascii) (a : option Z) :
  0 <= n < 10 ^ Z.of_nat (S f) ->
  exists p,
    readDigits 10 a (digitsOf (S f) n acc)
    = readDigits 10 (Some (match a with Some x => x | None => 0 end * p + n)) acc.
Proof.
  revert n acc. induction f as [|f IH]; intros n acc Hn.
  - change (10 ^ Z.of_nat 1) with 10 in Hn.
    assert (E : digitsOf 1 n acc = digitChar n :: acc).
    { cbn [digitsOf]. rewrite Z.mod_small by lia. now destruct (n <? 10). }
    rewrite E, readDigits_digit by lia. exists 10. do 2 f_equal. lia.
  - rewrite digitsOf_S. destruct (Z.ltb_spec n 10) as [Hlt | Hge].
    + rewrite Z.mod_small by lia. rewrite readDigits_digit by lia.
      exists 10. do 2 f_equal. lia.
    + rewrite pow10_succ in Hn.
      assert (Hq : 0 <= n / 10 < 10 ^ Z.of_nat (S f)).
      { split; [apply Z.div_pos; lia | apply Z.div_lt_upper_bound; lia]. }
      destruct (IH (n / 10) (digitChar (n mod 10) :: acc) Hq) as (p & Hp).
      rewrite Hp. rewrite readDigits_digit
        by (pose proof (Z.mod_pos_bound n 10 ltac:(lia)); lia).
      exists (10 * p). do 2 f_equal.
      pose proof (Z.div_mod n 10 ltac:(lia)). lia.
Qed.

(** The digits of a number are digits, and there is one at least. *)
Lemma digitsOf_shape (f : nat) (n : Z) (acc : list ascii) :
  0 <= n ->
  Forall (fun c => exists d, 0 <= d <= 9 /\ c = digitChar d) acc ->
  Forall (fun c => exists d, 0 <= d <= 9 /\ c = digitChar d) (digitsOf (S f) n acc)
  /\ digitsOf (S f) n acc <> [].
Proof.
  revert n acc. induction f as [|f IH]; intros n acc Hn Hacc.
  - assert (E : digitsOf 1 n acc = digitChar (n mod 10) :: acc).
    { cbn [digitsOf]. now destruct (n <? 10). }
    rewrite E. split; [|discriminate]. constructor; [|exact Hacc].
    exists (n mod 10). split; [|reflexivity].
    pose proof (Z.mod_pos_bound n 10 ltac:(lia)). lia.
  - assert (Hd : Forall (fun c => exists d, 0 <= d <= 9 /\ c = digitChar d)
                   (digitChar (n mod 10) :: acc)).
    { constructor; [|exact Hacc]. exists (n mod 10). split; [|reflexivity].
      pose proof (Z.mod_pos_bound n 10 ltac:(lia)). lia. }
    rewrite digitsOf_S. destruct (n <? 10); [split; [exact Hd | discriminate]|].
    apply IH; [apply Z.div_pos; lia | exact Hd].
Qed.

Lemma fuel_suffices (n : Z) :
  0 <= n -> n < 10 ^ Z.of_nat (S (Z.to_nat (Z.log2 n))).
Proof.
  intros Hn. pose proof (Z.log2_nonneg n) as Hl.
  rewrite Nat2Z.inj_succ, Z2Nat.id by exact Hl.
  destruct (Z.eq_dec n 0) as [-> | Hpos]; [cbn; lia|].
  pose proof (Z.log2_spec n ltac:(lia)) as [_ Hs].
  apply Z.lt_le_trans with (2 ^ Z.succ (Z.log2 n)); [exact Hs|].
  apply Z.pow_le_mono_l. lia.
Qed.

(** A text of digits is read as it stands: no white space, no sign and no
    [0x] are put aside. *)
Lemma parseInt_digits (d : Z) (rest : list ascii) :
  0 <= d <= 9 ->
  Forall (fun c => exists d, 0 <= d <= 9 /\ c = digitChar d) rest ->
  parseInt (string_of_list_ascii (digitChar d :: rest))
  = match readDigits 10 None (digitChar d :: rest) with
    | Some v => Some (1 * v)
    | None => None
    end.
Proof.
  intros Hd Hrest. unfold parseInt. rewrite list_ascii_of_string_of_list_ascii.
  apply digit_cases in Hd. destruct Hd as [-> | Hd].
  - destruct rest as [|c' rest']; [cbv -[readDigits Z.mul]; reflexivity|].
    apply Forall_cons_iff in Hrest as [(d' & Rd' & ->) _].
    apply digit_cases in Rd'.
    repeat (destruct Rd' as [-> | Rd']; [cbv -[readDigits Z.mul]; reflexivity|]).
    subst d'. cbv -[readDigits Z.mul]. reflexivity.
  - repeat (destruct Hd as [-> | Hd]; [cbv -[readDigits Z.mul]; reflexivity|]).
    subst d. cbv -[readDigits Z.mul]. reflexivity.
Qed.

(** A host prints an integer that is not negative so that [parseInt]
    reads it back. *)
Lemma parseInt_intToString (n : Z) : 0 <= n -> parseInt (intToString n) = Some n.
Proof.
  intros Hn. unfold intToString.
  destruct (Z.ltb_spec n 0) as [C | _]; [lia|].
  rewrite Z.abs_eq by exact Hn.
  destruct (readDigits_digitsOf (Z.to_nat (Z.log2 n)) n [] None (conj Hn (fuel_suffices n Hn)))
    as (p & Hp).
  destruct (digitsOf_shape (Z.to_nat (Z.log2 n)) n [] Hn (Forall_nil _)) as [Hd Hne].
  destruct (digitsOf (S (Z.to_nat (Z.log2 n))) n []) as [|c rest]; [contradiction|].
  apply Forall_cons_iff in Hd as [(d & Rd & ->) Hrest].
  rewrite (parseInt_digits d rest Rd Hrest), Hp.
  cbn [readDigits]. f_equal. lia.
Qed.

End NumeralFacts.



(* ================================================================== *)
(** ** The two ways of printing a date *)
(* ================================================================== *)

Module PrintFacts.
Import JS Moment.

Lemma zeroFill_four (y : Z) : 1000 <= y <= 9999 -> zeroFill y 4 = intToString y.
Proof.
  intros Hy. unfold zeroFill.
  rewrite Z.abs_eq by lia.
  destruct (Z.leb_spec 0 y) as [_|H0]; [|lia].
  rewrite (ReadBack.intToString_four y Hy). reflexivity.
Qed.

Lemma zeroFill_two (n : Z) : 0 <= n <= 99 -> zeroFill n 2 = padStart2 (intToString n).
Proof.
  intros Hn.
  assert (H : forallb (fun n => String.eqb (zeroFill (Z.of_nat n) 2)
                                           (padStart2 (intToString (Z.of_nat n))))
                (seq 0 100) = true) by (vm_compute; reflexivity).
  rewrite forallb_forall in H. specialize (H (Z.to_nat n)).
  rewrite Z2Nat.id in H by lia. apply String.eqb_eq, H, in_seq. lia.
Qed.

Lemma append_assoc (a b c : string) : ((a ++ b) ++ c = a ++ b ++ c)%string.
Proof. induction a as [|x a IH]; [reflexivity|]. cbn [append]. now rewrite IH. Qed.

End PrintFacts.

(** X22. The two branches of [formatDate] print alike: for a Date whose
    local year has four digits, the text made of [getFullYear], [getMonth]
    and [getDate] is the text moment prints with [YYYY-MM-DD], and the
    month label of [getMonthYear] is its first part. *)
Theorem formatDate_prints_as_moment (h : JS.Host) (t : Z) :
  1000 <= JS.getFullYear h t <= 9999 ->
  Helpers.formatDate h (CDate (Some t))
  = Some (Moment.format h (Some t) Moment.YYYY_MM_DD)
  /\ Helpers.formatDate h (CDate (Some t))
     = Some (Helpers.getMonthYear h (Some t) ++ "-"
             ++ JS.padStart2 (JS.intToString (JS.getDate h t)))%string.
Proof.
  intros Hy.
  pose proof (JSFacts.MonthFromTime_range (JS.LocalTime h t)) as Hm.
  pose proof (CalendarMore.DateFromTime_range (JS.LocalTime h t)) as Hd.
  pose proof (ReadBack.daysInMonth_le_31 (JS.YearFromTime (JS.LocalTime h t))
                (JS.MonthFromTime (JS.LocalTime h t))) as H31.
  unfold Helpers.formatDate, Helpers.getMonthYear, Moment.format,
    Moment.YYYY_MM_DD, Moment.YYYY_MM.
  cbn [truthy negb map Moment.formatToken String.concat].
  unfold JS.getFullYear, JS.getMonth, JS.getDate in *.
  rewrite PrintFacts.zeroFill_four by exact Hy.
  rewrite !PrintFacts.zeroFill_two by lia.
  split; [reflexivity|]. now rewrite PrintFacts.append_assoc.
Qed.

Lemma formatDate_witness :
  Helpers.formatDate ist (CDate (Some 1709490600000))
  = Some (Moment.format ist (Some 1709490600000) Moment.YYYY_MM_DD)
  /\ Helpers.formatDate ist (CDate (Some 1709490600000))
     = Some (Helpers.getMonthYear ist (Some 1709490600000) ++ "-"
             ++ JS.padStart2 (JS.intToString (JS.getDate ist 1709490600000)))%string.
Proof.
  apply (formatDate_prints_as_moment ist 1709490600000).
  vm_compute. split; discriminate.
Defined.

(** X23. The chart numbers a day in the time of the browser.  The date of
    a day is printed as a day of the UTC calendar and read back as its
    midnight; on a browser of offset zero or east of Greenwich the chart
    shows the number of that day, and on a browser west of Greenwich the
    number of the day before. *)
Theorem chart_numbers_the_local_day (h : JS.Host) (day : dayEntry) :
  - JS.msPerDay <= JS.LocalTZA h (Chart.dateOf day) true < JS.msPerDay ->
  Chart.p_day (Chart.pointOf h day)
  = JS.DateFromTime (if 0 <=? JS.LocalTZA h (Chart.dateOf day) true
                     then b_date day else b_date day - JS.msPerDay).
Proof.
  intros Hc. cbn [Chart.pointOf Chart.p_day]. unfold JS.getDate.
  assert (Hmid : JS.TimeWithinDay (Chart.dateOf day) = 0).
  { unfold Chart.dateOf, JS.TimeWithinDay. apply Z.mod_mul. discriminate. }
  apply JSFacts.fields_of_Day. unfold JS.LocalTime.
  destruct (Z.leb_spec 0 (JS.LocalTZA h (Chart.dateOf day) true)).
  - rewrite CalendarMore.Day_shift by (auto; lia).
    unfold Chart.dateOf. apply Z.div_mul. discriminate.
  - rewrite CalendarMore.Day_shift_back by (auto; lia).
    unfold Chart.dateOf, JS.Day, JS.msPerDay. Z.div_mod_to_equations. lia.
Qed.

Lemma chart_numbers_witness :
  Chart.p_day (Chart.pointOf est
                 {| b_date := 1709510400000; b_day := "Monday"; b_workedHours := 1;
                    b_isLeave := false; b_isHoliday := false; b_expectedHours := 8.5;
                    b_inTime := CString "09:00"; b_outTime := CString "10:00";
                    b_status := Present |})
  = 3.
Proof.
  rewrite chart_numbers_the_local_day.
  - vm_compute. reflexivity.
  - vm_compute. split; [discriminate | reflexivity].
Defined.

(* ================================================================== *)
(** ** The productivity of the employees of a year *)
(* ================================================================== *)

Module ProductivityFacts.
Import ListFacts GroupFacts Routes.

Lemma employeesProductivity_Done (h : JS.Host) (db : store) (year : Z)
    (ans : productivityAnswer) :
  employeesProductivity h db year = Done ans ->
  pa_employees ans
  = sortBy (fun a b => String.leb (ep_employeeName a) (ep_employeeName b))
      (groupByEmployeeOfYear (inYear year db)).
Proof.
  unfold employeesProductivity, inYear.
  destruct (invalidYear h year); [discriminate|].
  intros E. now inversion E.
Qed.

Lemma groupByEmployeeOfYear_spec (docs : list attendance) :
  map (fun e => (ep_employeeId e, ep_employeeName e)) (groupByEmployeeOfYear docs)
  = distinct employeeKeyEqb [] (map employeeKey docs)
  /\ Permutation
       (flat_map (fun e => ofEmployee (ep_employeeId e, ep_employeeName e) docs)
          (groupByEmployeeOfYear docs))
       docs
  /\ Forall (fun e =>
               let mine := ofEmployee (ep_employeeId e, ep_employeeName e) docs in
               mine <> []
               /\ ep_totalWorkedHours e = sumOf workedHours mine
               /\ ep_leaveDays e = List.length (filter isLeave mine)
               /\ ep_productivity e
                  = productivityOf (sumOf workedHours mine) (sumOf expectedHours mine))
       (groupByEmployeeOfYear docs).
Proof.
  unfold groupByEmployeeOfYear.
  change (map (fun a => (employeeId a, employeeName a)) docs) with (map employeeKey docs).
  split; [|split].
  - rewrite map_map. cbn [ep_employeeId ep_employeeName].
    rewrite (map_ext _ (fun k => k)) by (now intros [a b]). apply map_id.
  - rewrite TwoLevel.flat_map_of_map. cbn [ep_employeeId ep_employeeName].
    rewrite (flat_map_ext _ (fun k => ofEmployee k docs)) by (now intros [a b]).
    exact (groups_all employeeKey employeeKeyEqb YearMore.employeeKeyEqb_eq docs).
  - apply Forall_map, Forall_forall. intros k Hk.
    cbn [ep_employeeId ep_employeeName ep_totalWorkedHours ep_leaveDays ep_productivity].
    replace (fst k, snd k) with k by now destruct k.
    cbn zeta. split; [|repeat split].
    destruct (group_inhabited employeeKey employeeKeyEqb YearMore.employeeKeyEqb_eq
                k docs Hk) as (a & Ha).
    intros C. unfold ofEmployee in C. now rewrite C in Ha.
Qed.

End ProductivityFacts.

(** X24. The employee productivity of a year counts each document of the
    year once.  When the query answers, it lists each employee key of the
    year's documents once, by ascending name, with the worked hours, the
    leave days and the productivity (not rounded) of that employee's
    documents; the hours and the leave days of the list add up to those of
    the year; and over a store that uploads built no two entries have the
    same name. *)
Theorem employee_productivity_covers_the_year (h : JS.Host) (db : store) (year : Z)
    (ans : Routes.productivityAnswer) :
  Routes.employeesProductivity h db year = Done ans ->
  StronglySorted
    (fun a b => String.leb (Routes.ep_employeeName a) (Routes.ep_employeeName b) = true)
    (Routes.pa_employees ans)
  /\ NoDup (map (fun e => (Routes.ep_employeeId e, Routes.ep_employeeName e))
              (Routes.pa_employees ans))
  /\ (sumOf Routes.ep_totalWorkedHours (Routes.pa_employees ans)
      == sumOf workedHours (inYear year db))%Q
  /\ fold_left (fun s e => (s + Routes.ep_leaveDays e)%nat) (Routes.pa_employees ans) 0%nat
     = List.length (filter isLeave (inYear year db))
  /\ Forall
       (fun e =>
          let mine :=
            ofEmployee (Routes.ep_employeeId e, Routes.ep_employeeName e)
              (inYear year db) in
          mine <> []
          /\ Routes.ep_totalWorkedHours e = sumOf workedHours mine
          /\ Routes.ep_leaveDays e = List.length (filter isLeave mine)
          /\ Routes.ep_productivity e
             = productivityOf (sumOf workedHours mine) (sumOf expectedHours mine))
       (Routes.pa_employees ans)
  /\ (reachable db -> NoDup (map Routes.ep_employeeName (Routes.pa_employees ans))).
Proof.
  intros E. apply ProductivityFacts.employeesProductivity_Done in E.
  set (docs := inYear year db) in *.
  destruct (ProductivityFacts.groupByEmployeeOfYear_spec docs) as (Hkeys & Hall & Hspec).
  set (groups := Routes.groupByEmployeeOfYear docs) in *.
  assert (Hperm : Permutation (Routes.pa_employees ans) groups).
  { rewrite E. apply ListFacts.sortBy_perm. }
  assert (Hnd : NoDup (map (fun e => (Routes.ep_employeeId e, Routes.ep_employeeName e))
                         groups)).
  { rewrite Hkeys.
    apply (GroupFacts.distinct_NoDup Routes.employeeKeyEqb YearMore.employeeKeyEqb_eq). }
  split.
  { rewrite E. apply ListFacts.sortBy_sorted.
    - intros a b. apply MonthsFacts.leb_total.
    - intros a b c. apply MonthsFacts.leb_trans. }
  split.
  { apply (Permutation_NoDup (Permutation_sym (Permutation_map _ Hperm))). exact Hnd. }
  split.
  { rewrite (ListFacts.sumOf_perm _ _ _ Hperm).
    rewrite <- (ListFacts.sumOf_perm workedHours _ _ Hall), GroupFacts.sumOf_flat_map.
    apply GroupFacts.sumOf_ext. intros e He.
    destruct (proj1 (Forall_forall _ _) Hspec e He) as (_ & -> & _). reflexivity. }
  split.
  { rewrite (MonthsFacts.count_perm _ _ _ Hperm).
    rewrite <- (Permutation_length (ListFacts.filter_perm isLeave _ _ Hall)).
    rewrite TwoLevel.flat_map_filter, GroupFacts.count_flat_map.
    apply SummaryFacts.count_ext. intros e He.
    now destruct (proj1 (Forall_forall _ _) Hspec e He) as (_ & _ & -> & _). }
  split.
  { apply (Permutation_Forall (Permutation_sym Hperm)). exact Hspec. }
  intros Hr.
  apply (Permutation_NoDup (Permutation_sym (Permutation_map _ Hperm))).
  assert (Hsub : forall r, In r docs -> In r (Attendance db)).
  { intros r Hin. now apply filter_In in Hin. }
  assert (Hne : forall k,
             In k (map (fun e => (Routes.ep_employeeId e, Routes.ep_employeeName e)) groups) ->
             ofEmployee k docs <> []).
  { intros k Hk. apply in_map_iff in Hk as (e & <- & He).
    now apply (proj1 (Forall_forall _ _) Hspec e He). }
  pose proof (NameFacts.keys_by_name db docs _ Hr Hsub Hne Hnd) as H.
  now rewrite map_map in H.
Qed.

Lemma employee_productivity_witness :
  exists ans,
    Routes.employeesProductivity ist fullDayStore 2024 = Done ans
    /\ (sumOf Routes.ep_totalWorkedHours (Routes.pa_employees ans)
        == sumOf workedHours (inYear 2024 fullDayStore))%Q.
Proof.
  eexists. split; [vm_compute; reflexivity|].
  match goal with
  | |- context [Routes.pa_employees ?a] =>
      destruct (employee_productivity_covers_the_year ist fullDayStore 2024 a)
        as (_ & _ & H & _)
  end.
  - vm_compute. reflexivity.
  - exact H.
Defined.
